(** * ToolArtifact: the tool-management subsystem of [tool_creation_tool.js]

    A shallow embedding of [ToolCreationManager] (ensureToolCreationTool,
    createTool, sanitizeGeneratedCode, getToolDefinition, getAvailableTools,
    executeTool) and of [generateToolCreationPrompt], with the properties the
    specification states about them; then of the game logic functions and
    the action handling of [server.js], which call the manager.

    Modelling conventions.
    - A JavaScript string is a [string] whose characters are code units below
      256; the white space of [\s] and of [trim] in that range is
      U+0009..U+000D, U+0020 and U+00A0.
    - Values that cross the interface are JSON data ([json]) or [undefined].
      A number is an integer that a double holds exactly, of magnitude below
      10^21, whose text is its decimal numeral, or one of [NaN], [Infinity]
      and [-Infinity].  An object is the association list of its own
      properties.  A read that goes through the prototype chain
      ([args[param]], a lookup in a table of the server) reaches the members
      of [Object.prototype] as well, and ToString throws for an object that
      has a property [toString] of its own.
    - The collaborators (chat completion, embeddings, vector store, the
      JavaScript engine's [new Function] and [JSON]) are fields of a
      [Platform] record; every function of the manager is parametrised by it.
      A collaborator fails by throwing an [Error] object.  A property about
      two calls takes one platform for each: nothing is assumed to answer
      the second call as it answered the first.
    - The code of a tool is run by the platform ([run_wrapper]), which tells
      how the wrapper that [executeTool] builds ends: what the stored
      statements or the tool function return or throw.  Runs are taken to
      terminate, promises to settle, and the code of a tool to leave the
      built-in objects of the engine as they are.
    - An [async] method is a computation in the monad [M]: it threads the
      [World] (collection, cache, log of effects) and finishes by returning a
      value or by raising an error (a rejected promise).  [executeTool]
      returns how its promise settles ([Settled]).  Logging to the console
      is left out. *)

From Stdlib Require Import Ascii String ZArith Lia Bool List DecimalString.
From Stdlib Require Import DecimalFacts DecimalPos DecimalN DecimalZ.
From stdpp Require Import base option gmap strings list.

Local Open Scope stdpp_scope.

(** ** JavaScript text primitives *)

Module Text.

Definition nl : string := String (ascii_of_nat 10) "".

(** The double-quote character, as a text. *)
Definition dquote : string := String (ascii_of_nat 34) "".

(** [\s], restricted to code units below 256. *)
Definition is_space (c : ascii) : bool :=
  let n := nat_of_ascii c in
  ((9 <=? n) && (n <=? 13)) || (n =? 32) || (n =? 160).

(** [s.startsWith(p)]. *)
Definition startsWith (p s : string) : bool := String.prefix p s.

(** The text after the prefix [p], when [s] starts with [p]. *)
Fixpoint after_prefix (p s : string) : option string :=
  match p, s with
  | EmptyString, _ => Some s
  | String a p', String b s' =>
      if Ascii.eqb a b then after_prefix p' s' else None
  | String _ _, EmptyString => None
  end.

(** Number of leading white-space characters: what a greedy [\s*] takes. *)
Fixpoint span_space (s : string) : nat :=
  match s with
  | String c r => if is_space c then S (span_space r) else 0
  | EmptyString => 0
  end.

(** [s.substring(n)]. *)
Fixpoint drop (n : nat) (s : string) : string :=
  match n, s with
  | S k, String _ r => drop k r
  | _, _ => s
  end.

Definition all_space (s : string) : bool :=
  String.length s =? span_space s.

Definition trimStart (s : string) : string := drop (span_space s) s.

Fixpoint trimEnd (s : string) : string :=
  match s with
  | EmptyString => EmptyString
  | String c r =>
      match trimEnd r with
      | EmptyString => if is_space c then EmptyString else String c EmptyString
      | r' => String c r'
      end
  end.

(** [s.trim()]. *)
Definition trim (s : string) : string := trimEnd (trimStart s).

(** [s.substring(0, n)]. *)
Fixpoint take (n : nat) (s : string) : string :=
  match n, s with
  | S k, String c r => String c (take k r)
  | _, _ => EmptyString
  end.

(** A regular expression is given by its matcher: [m pos suffix] is the
    length of the match that starts at index [pos], where [suffix] is the
    subject from [pos] on.  The assertion [^] (no [m] flag) is the test
    [pos = 0]. *)
Definition matcher := nat -> string -> option nat.

(** [s.replace(re, '')] for a global ([g]) expression whose matches are
    never empty: scan from the left, delete each match, resume after it. *)
Fixpoint delete_matches (m : matcher) (skip pos : nat) (s : string) : string :=
  match s with
  | EmptyString => EmptyString
  | String c r =>
      match skip with
      | S k => delete_matches m k (S pos) r
      | O =>
          match m pos s with
          | Some (S n) => delete_matches m n (S pos) r
          | _ => String c (delete_matches m 0 (S pos) r)
          end
      end
  end.

(** [s.search(re)]: the index of the first match, [None] for [-1]. *)
Fixpoint search_from (m : matcher) (pos : nat) (s : string) : option nat :=
  match m pos s with
  | Some _ => Some pos
  | None =>
      match s with
      | EmptyString => None
      | String _ r => search_from m (S pos) r
      end
  end.

(** [/^[a-zA-Z_][a-zA-Z0-9_]*$/.test(s)]. *)
Definition is_letter (c : ascii) : bool :=
  let n := nat_of_ascii c in
  ((65 <=? n) && (n <=? 90)) || ((97 <=? n) && (n <=? 122)).

Definition is_digit (c : ascii) : bool :=
  let n := nat_of_ascii c in (48 <=? n) && (n <=? 57).

Definition ident_start (c : ascii) : bool := is_letter c || (nat_of_ascii c =? 95).
Definition ident_part (c : ascii) : bool := ident_start c || is_digit c.

Fixpoint all_chars (p : ascii -> bool) (s : string) : bool :=
  match s with
  | EmptyString => true
  | String c r => p c && all_chars p r
  end.

Definition is_identifier (s : string) : bool :=
  match s with
  | EmptyString => false
  | String c r => ident_start c && all_chars ident_part r
  end.

End Text.

(** ** sanitizeGeneratedCode *)

Module Sanitize.
Import Text.

(** First alternative of the fence expression,
    [^```(?:javascript|js)?\s*]: only at index 0. *)
Definition open_fence (pos : nat) (s : string) : option nat :=
  if pos =? 0 then
    match after_prefix "```" s with
    | Some r =>
        match after_prefix "javascript" r with
        | Some r' => Some (3 + 10 + span_space r')
        | None =>
            match after_prefix "js" r with
            | Some r' => Some (3 + 2 + span_space r')
            | None => Some (3 + span_space r)
            end
        end
    | None => None
    end
  else None.

(** Second alternative, [```\s*$]: a fence followed by white space only,
    up to the end of the subject. *)
Definition close_fence (s : string) : option nat :=
  match after_prefix "```" s with
  | Some r => if all_space r then Some (String.length s) else None
  | None => None
  end.

(** [/^```(?:javascript|js)?\s*|```\s*$/g] *)
Definition fence_re : matcher := fun pos s =>
  match open_fence pos s with
  | Some n => Some n
  | None => close_fence s
  end.

(** [function\s+] *)
Definition function_kw (s : string) : option nat :=
  match after_prefix "function" s with
  | Some r => if 1 <=? span_space r then Some (8 + span_space r) else None
  | None => None
  end.

(** [/^(async\s+)?function\s+/]: the optional group is tried first, then
    skipped. *)
Definition function_re : matcher := fun pos s =>
  if pos =? 0 then
    let with_async :=
      match after_prefix "async" s with
      | Some r =>
          if 1 <=? span_space r then
            match function_kw (drop (span_space r) r) with
            | Some n => Some (5 + span_space r + n)
            | None => None
            end
          else None
      | None => None
      end in
    match with_async with
    | Some n => Some n
    | None => function_kw s
    end
  else None.

Definition sanitizeGeneratedCode (code functionName : string) : string :=
  let sanitizedCode := delete_matches fence_re 0 0 code in
  let sanitizedCode := trim sanitizedCode in
  if negb (startsWith ("function " +:+ functionName) sanitizedCode)
     && negb (startsWith ("async function " +:+ functionName) sanitizedCode)
  then
    match search_from function_re 0 sanitizedCode with
    | Some funcIndex => drop funcIndex sanitizedCode
    | None =>
        "function " +:+ functionName +:+ "(params) {" +:+ nl
          +:+ sanitizedCode +:+ nl +:+ "}"
    end
  else sanitizedCode.

End Sanitize.

(** ** Values *)

(** The numbers that JSON cannot write. *)
Inductive NonFinite : Type :=
| NaN
| PosInfinity
| NegInfinity.

(** Data as a caller holds it in memory.  [JNum] carries integer-valued
    numbers, [JNonFinite] the numbers [NaN], [Infinity] and [-Infinity]; an
    object is the list of its own properties in enumeration order. *)
#[local] Unset Elimination Schemes.
Inductive json : Type :=
| JNull
| JBool (b : bool)
| JNum (n : Z)
| JNonFinite (x : NonFinite)
| JStr (s : string)
| JArr (items : list json)
| JObj (fields : list (string * json)).
#[local] Set Elimination Schemes.

(** A value passed by a caller: [undefined] or JSON data. *)
Inductive JsValue : Type :=
| JsUndefined
| JsData (v : json).

(** An [Error] object (Error, TypeError, SyntaxError): only [.message] is read. *)
Record JsError : Type := mkError { message : string }.

(** How an evaluation finishes: normally, or by throwing. *)
Inductive Completion (A : Type) : Type :=
| Returned (a : A)
| Raised (e : JsError).
Arguments Returned {A} a.
Arguments Raised {A} e.

Module Js.
Import Text.

(** [typeof v] *)
Definition typeof (v : JsValue) : string :=
  match v with
  | JsUndefined => "undefined"
  | JsData JNull => "object"
  | JsData (JBool _) => "boolean"
  | JsData (JNum _) => "number"
  | JsData (JNonFinite _) => "number"
  | JsData (JStr _) => "string"
  | JsData (JArr _) => "object"
  | JsData (JObj _) => "object"
  end.

(** ToBoolean: what [!v], [v && ...] and [v || ...] test. *)
Definition truthy (v : JsValue) : bool :=
  match v with
  | JsUndefined => false
  | JsData JNull => false
  | JsData (JBool b) => b
  | JsData (JNum n) => negb (n =? 0)%Z
  | JsData (JNonFinite NaN) => false
  | JsData (JNonFinite _) => true
  | JsData (JStr s) => negb (String.eqb s "")
  | JsData (JArr _) => true
  | JsData (JObj _) => true
  end.

(** [v === null || v === undefined] *)
Definition nullish (v : JsValue) : bool :=
  match v with
  | JsUndefined | JsData JNull => true
  | _ => false
  end.

(** [v === 'text'] *)
Definition is_string (text : string) (v : JsValue) : bool :=
  match v with
  | JsData (JStr s) => String.eqb s text
  | _ => false
  end.

Definition text_of_nat (n : nat) : string :=
  NilZero.string_of_uint (Nat.to_uint n).

Definition text_of_Z (n : Z) : string :=
  NilZero.string_of_int (Z.to_int n).

(** A canonical array index: the decimal text of a natural number. *)
Definition index_of_key (key : string) : option nat :=
  match NilZero.uint_of_string key with
  | Some d =>
      let n := Nat.of_uint d in
      if String.eqb (text_of_nat n) key then Some n else None
  | None => None
  end.

(** The last binding of [key]: a later duplicate of a key overrides. *)
Fixpoint assoc (key : string) (fields : list (string * json)) : option json :=
  match fields with
  | [] => None
  | (k, v) :: rest =>
      match assoc key rest with
      | Some v' => Some v'
      | None => if String.eqb k key then Some v else None
      end
  end.

Definition of_option (o : option json) : JsValue :=
  match o with
  | Some v => JsData v
  | None => JsUndefined
  end.

(** The own property [key] of a value that is neither [null] nor
    [undefined]; what a read finds beyond it, on the prototype chain, is
    [Object_prototype_member] and the platform's [builtin_member]. *)
Definition own_property (v : json) (key : string) : JsValue :=
  match v with
  | JObj fields => of_option (assoc key fields)
  | JArr items =>
      if String.eqb key "length" then JsData (JNum (Z.of_nat (length items)))
      else match index_of_key key with
           | Some i => of_option (nth_error items i)
           | None => JsUndefined
           end
  | JStr s =>
      if String.eqb key "length" then JsData (JNum (Z.of_nat (String.length s)))
      else match index_of_key key with
           | Some i =>
               match String.get i s with
               | Some c => JsData (JStr (String c EmptyString))
               | None => JsUndefined
               end
           | None => JsUndefined
           end
  | _ => JsUndefined
  end.

(** [v[key]]: reading a property of [null] or [undefined] throws. *)
Definition property (v : JsValue) (key : string) : Completion JsValue :=
  match v with
  | JsUndefined =>
      Raised (mkError ("Cannot read properties of undefined (reading '" +:+ key +:+ "')"))
  | JsData JNull =>
      Raised (mkError ("Cannot read properties of null (reading '" +:+ key +:+ "')"))
  | JsData d => Returned (own_property d key)
  end.

Definition join (sep : string) (parts : list string) : string :=
  match parts with
  | [] => ""
  | p :: rest => fold_left (fun acc q => acc +:+ sep +:+ q) rest p
  end.

Definition text_of_non_finite (x : NonFinite) : string :=
  match x with
  | NaN => "NaN"
  | PosInfinity => "Infinity"
  | NegInfinity => "-Infinity"
  end.

(** ToString on data that [renders]: the text of [`${v}`] and of a computed
    property key.  Inside an array [null] renders as the empty text. *)
Fixpoint to_text (v : json) : string :=
  match v with
  | JNull => "null"
  | JBool true => "true"
  | JBool false => "false"
  | JNum n => text_of_Z n
  | JNonFinite x => text_of_non_finite x
  | JStr s => s
  | JArr items =>
      join "," (map (fun i => match i with JNull => "" | _ => to_text i end) items)
  | JObj _ => "[object Object]"
  end.

(** Whether the own properties bind [key]. *)
Definition has_key (key : string) (fields : list (string * json)) : bool :=
  existsb (fun kv => String.eqb (fst kv) key) fields.

(** ToString succeeds.  It throws a [TypeError] for an object that has a
    property [toString] of its own: the property holds data, not a function,
    and neither an own [valueOf] nor the inherited one yields a primitive.
    An array renders when its elements do. *)
Fixpoint renders (v : json) : bool :=
  match v with
  | JArr items => forallb renders items
  | JObj fields => negb (has_key "toString" fields)
  | _ => true
  end.

(** [`${v}`], and the key of [table[v]]. *)
Definition to_string (v : json) : Completion string :=
  if renders v then Returned (to_text v)
  else Raised (mkError "Cannot convert object to primitive value").

(** [`${v}`] for a value that may be [undefined]. *)
Definition value_to_string (v : JsValue) : Completion string :=
  match v with
  | JsUndefined => Returned "undefined"
  | JsData d => to_string d
  end.

(** The names of the members of [Object.prototype], which every object,
    array and wrapped primitive inherits. *)
Definition Object_prototype_member (key : string) : bool :=
  existsb (String.eqb key)
    [ "constructor"; "__defineGetter__"; "__defineSetter__"; "hasOwnProperty";
      "__lookupGetter__"; "__lookupSetter__"; "isPrototypeOf";
      "propertyIsEnumerable"; "toString"; "valueOf"; "__proto__";
      "toLocaleString" ].

(** The characters of a string, as [for (const c of s)] yields them. *)
Fixpoint chars (s : string) : list string :=
  match s with
  | EmptyString => []
  | String c r => String c EmptyString :: chars r
  end.

End Js.

(** ** The world of the manager *)

(** Metadata of a stored record.  A field that is absent reads as
    [undefined] ([None]). *)
Record Metadata : Type := mkMetadata {
  md_name : option string;
  md_description : option string;
  md_parameters_json : option string;
  md_code : option string;
  md_is_internal : option bool
}.

(** One record of the collection: what [collection.add] is given per id. *)
Record Entry (Embedding : Type) : Type := mkEntry {
  entry_embedding : Embedding;
  entry_metadata : Metadata;
  entry_document : string
}.
Arguments mkEntry {Embedding} _ _ _.
Arguments entry_embedding {Embedding} _.
Arguments entry_metadata {Embedding} _.
Arguments entry_document {Embedding} _.

(** The answer of [collection.get({ids: [id]})]. *)
Record GetResult : Type := mkGetResult {
  gr_ids : list string;
  gr_metadatas : list Metadata
}.

(** The answer of [collection.query]: one inner list per query embedding. *)
Record QueryResult : Type := mkQueryResult {
  qr_ids : option (list (list string));
  qr_metadatas : option (list (list (option Metadata)))
}.

(** What the code of a tool can throw, as a [catch] clause that puts
    [.message] into a template sees it: a value whose [.message] renders to
    text (an Error, a string, a plain object), [null] or [undefined], whose
    [.message] cannot be read, or a value for which reading or rendering
    [.message] throws in turn (an accessor, a symbol). *)
Inductive Thrown : Type :=
| ThrownError (message_text : string)
| ThrownNull
| ThrownUndefined
| ThrownOpaque (next : Thrown).

(** [`${t.message}`]: the text, or what the evaluation throws. *)
Definition message_of (t : Thrown) : string + Thrown :=
  match t with
  | ThrownError text => inl text
  | ThrownNull =>
      inr (ThrownError "Cannot read properties of null (reading 'message')")
  | ThrownUndefined =>
      inr (ThrownError "Cannot read properties of undefined (reading 'message')")
  | ThrownOpaque next => inr next
  end.

(** A value that the code of a tool can hand to its caller: [undefined] or
    data (a string among them), or a value of another kind: a function, a
    symbol, an object with methods or accessors. *)
Inductive ToolValue : Type :=
| Plain (v : JsValue)
| Exotic.

(** A string, as a value. *)
Definition string_value (s : string) : ToolValue := Plain (JsData (JStr s)).

(** How a promise settles. *)
Inductive Settled : Type :=
| Fulfilled (v : ToolValue)
| Rejected (t : Thrown).

(** What the tool function hands back: a string, or another value, for which
    [String(result)] yields text or throws. *)
Inductive ToolResult : Type :=
| ResString (s : string)
| ResOther (coerced : string + Thrown).

(** One run of the wrapper that [executeTool] builds around stored code.
    [new Function] rejects the text; or the stored statements, which are
    spliced into the body of the wrapper, throw, or execute a [return] of
    their own, or leave no function of the expected name; or the function is
    called and returns or throws.  A [return] among the stored statements
    hands its value to [executeTool] as it is: [CodeReturned] carries that
    value or, for a promise, how the promise settles.  Code that closes the
    [try] block of the wrapper and throws behind it is [CodeThrew] of a
    [ThrownOpaque].  Runs are taken to terminate and promises to settle. *)
Inductive WrapperRun : Type :=
| WrapperSyntaxError (e : JsError)
| CodeThrew (t : Thrown)
| CodeReturned (s : Settled)
| NotDefined
| CallReturned (r : ToolResult)
| CallThrew (t : Thrown).

(** How the call [functionWrapper(args)] ends: with a value, which
    [executeTool] returns, or by throwing. *)
Inductive WrapperEnd : Type :=
| Handed (s : Settled)
| Escaped (t : Thrown).

(** The observable effects of the manager on its collaborators. *)
Inductive Effect : Type :=
| EffGenerate (prompt : string)
| EffSyntaxCheck (code : string)
| EffEmbed (text : string)
| EffStoreGet (id : string)
| EffStoreAdd (id : string)
| EffStoreQuery (k : nat)
| EffCompile (name code : string)
| EffInvoke (name : string) (args : JsValue).

Record World (Embedding : Type) : Type := mkWorld {
  collection : gmap string (Entry Embedding);
  toolsCache : gmap string string;
  effects : list Effect
}.
Arguments mkWorld {Embedding} _ _ _.
Arguments collection {Embedding} _.
Arguments toolsCache {Embedding} _.
Arguments effects {Embedding} _.

(** The collaborators.
    - [prompt_text]: the text of the template of [generateToolCreationPrompt];
    - [chat_completion]: [ollama.chat.completions.create], giving
      [response.choices[0]?.message?.content] ([None] when that is
      [undefined]);
    - [embedQuery]: the embedding provider;
    - [new_Function]: the error of [new Function('params', code)], if any;
    - [get_fault], [add_fault]: a failure of the store on [get] or [add];
    - [collection_query]: the nearest-neighbour query of the store;
    - [run_wrapper name code args]: the wrapper of [executeTool];
    - [JSON_stringify], [JSON_parse]: the engine's JSON;
    - [builtin_member c key]: the prototype of the class [c] of the engine
      ([Array], [String], [Number], [Boolean]) has a member named [key]; the
      members of [Object.prototype] are [Object_prototype_member]. *)
Record Platform (Embedding : Type) : Type := mkPlatform {
  prompt_text : string -> string -> json -> string;
  chat_completion : string -> Completion (option string);
  embedQuery : string -> Completion Embedding;
  new_Function : string -> option JsError;
  get_fault : string -> option JsError;
  add_fault : string -> option JsError;
  collection_query :
    gmap string (Entry Embedding) -> Embedding -> nat -> Completion (option QueryResult);
  run_wrapper : string -> string -> JsValue -> WrapperRun;
  JSON_stringify : json -> string;
  JSON_parse : string -> Completion json;
  builtin_member : string -> string -> bool
}.
Arguments prompt_text {Embedding} _.
Arguments chat_completion {Embedding} _.
Arguments embedQuery {Embedding} _.
Arguments new_Function {Embedding} _.
Arguments get_fault {Embedding} _.
Arguments add_fault {Embedding} _.
Arguments collection_query {Embedding} _.
Arguments run_wrapper {Embedding} _.
Arguments JSON_stringify {Embedding} _.
Arguments JSON_parse {Embedding} _.
Arguments builtin_member {Embedding} _.

(** ** The monad of the manager's methods *)

Module Monad.
Section Monad.
Context {Embedding : Type}.

Definition M (A : Type) : Type :=
  World Embedding -> Completion A * World Embedding.

Definition ret {A} (a : A) : M A := fun w => (Returned a, w).

(** [throw e] *)
Definition raise {A} (e : JsError) : M A := fun w => (Raised e, w).

Definition bind {A B} (m : M A) (k : A -> M B) : M B := fun w =>
  match m w with
  | (Returned a, w') => k a w'
  | (Raised e, w') => (Raised e, w')
  end.

(** [try { body } catch (e) { handler }]: the effects of the body up to
    the throw stay. *)
Definition try_catch {A} (body : M A) (handler : JsError -> M A) : M A := fun w =>
  match body w with
  | (Returned a, w') => (Returned a, w')
  | (Raised e, w') => handler e w'
  end.

(** A pure evaluation that may throw. *)
Definition lift {A} (c : Completion A) : M A := fun w => (c, w).

Definition log (e : Effect) : M unit := fun w =>
  (Returned tt, mkWorld (collection w) (toolsCache w) (effects w ++ [e])).

End Monad.
End Monad.

Import Monad.

Notation "'let*' x := m 'in' k" := (bind m (fun x => k))
  (at level 10, x name, m at level 100, k at level 200).

(** ** Static definitions *)

(** What the manager hands to a consumer for one tool. *)
Record ToolDescriptor : Type := mkDescriptor {
  name : string;
  description : string;
  parameters : json
}.

(** What [getToolDefinition] returns for a stored tool. *)
Record ToolDefinition : Type := mkDefinition {
  def_name : option string;
  def_description : option string;
  def_parameters : json;
  def_code : string;
  def_is_internal : bool
}.

Definition str_prop (k v : string) : string * json := (k, JStr v).

(** [TOOL_CREATION_TOOL_DEFINITION.function] *)
Definition TOOL_CREATION_TOOL_DEFINITION : ToolDescriptor :=
  {| name := "tool_creation";
     description := "Define and create a new tool (JavaScript function) that the LLM can use later. Takes the desired tool name, description, and parameter schema.";
     parameters :=
       JObj [
         str_prop "type" "object";
         ("properties", JObj [
            ("new_tool_name", JObj [
               str_prop "type" "string";
               str_prop "description" "The name for the new tool function (use snake_case)." ]);
            ("new_tool_description", JObj [
               str_prop "type" "string";
               str_prop "description" "A clear description of what the new tool does and when to use it." ]);
            ("new_tool_parameters", JObj [
               str_prop "type" "object";
               str_prop "description" "A JSON schema object describing the parameters the new function will accept.";
               ("properties", JObj [
                  ("type", JObj [ str_prop "type" "string"; ("enum", JArr [JStr "object"]) ]);
                  ("properties", JObj [ str_prop "type" "object" ]);
                  ("required", JObj [ str_prop "type" "array";
                                      ("items", JObj [ str_prop "type" "string" ]) ]) ]);
               ("required", JArr [JStr "type"; JStr "properties"]) ]) ]);
         ("required", JArr [JStr "new_tool_name"; JStr "new_tool_description";
                            JStr "new_tool_parameters"]) ] |}.

(** ** generateToolCreationPrompt *)

Module Prompt.
Import Text Js.

(** [Object.entries(v)] for a value whose [typeof] is ['object']. *)
Definition Object_entries (v : JsValue) : Completion (list (string * json)) :=
  match v with
  | JsData (JObj fields) => Returned fields
  | JsData (JArr items) =>
      Returned (imap (fun i x => (text_of_nat i, x)) items)
  | JsData (JStr s) =>
      Returned (imap (fun i c => (text_of_nat i, JStr c)) (chars s))
  | JsData JNull | JsUndefined =>
      Raised (mkError "Cannot convert undefined or null to object")
  | JsData _ => Returned []
  end.

(** The template of the callback of [.map]: it renders [value.type] and
    [value.description || 'No description']. *)
Definition describe (type description : JsValue) : Completion unit :=
  match value_to_string type with
  | Raised e => Raised e
  | Returned _ =>
      if truthy description then
        match value_to_string description with
        | Raised e => Raised e
        | Returned _ => Returned tt
        end
      else Returned tt
  end.

(** The callback of [.map] on one entry: it reads [value.type] and
    [value.description], which throws on a [null] value. *)
Definition read_entry (value : json) : Completion unit :=
  match value with
  | JNull => Raised (mkError "Cannot read properties of null (reading 'type')")
  | _ => describe (own_property value "type") (own_property value "description")
  end.

Fixpoint read_entries (entries : list (string * json)) : Completion unit :=
  match entries with
  | [] => Returned tt
  | (_, value) :: rest =>
      match read_entry value with
      | Raised e => Raised e
      | Returned _ => read_entries rest
      end
  end.

(** [(parameters.required || []).join(', ')]: the elements are rendered. *)
Definition join_required (required : JsValue) : Completion unit :=
  if truthy required then
    match required with
    | JsData (JArr items) =>
        match to_string (JArr items) with
        | Raised e => Raised e
        | Returned _ => Returned tt
        end
    | _ => Raised (mkError "requiredParams.join is not a function")
    end
  else Returned tt.

Definition generateToolCreationPrompt {Embedding} (P : Platform Embedding)
    (name description : string) (parameters : JsValue) : Completion string :=
  match parameters with
  | JsData schema =>
      if negb (truthy parameters)
         || negb (String.eqb (typeof parameters) "object")
         || negb (is_string "object" (own_property schema "type"))
         || negb (String.eqb (typeof (own_property schema "properties")) "object")
      then Raised (mkError "Invalid parameters schema provided for new tool creation.")
      else
        match Object_entries (own_property schema "properties") with
        | Raised e => Raised e
        | Returned entries =>
            match read_entries entries with
            | Raised e => Raised e
            | Returned _ =>
                match join_required (own_property schema "required") with
                | Raised e => Raised e
                | Returned _ => Returned (prompt_text P name description schema)
                end
            end
        end
  | JsUndefined =>
      Raised (mkError "Invalid parameters schema provided for new tool creation.")
  end.

End Prompt.

(** ** ToolCreationManager *)

Module Manager.
Section Manager.
Import Text Sanitize Js Prompt.
Context {Embedding : Type} (P : Platform Embedding).

Local Abbreviation M := (@Monad.M Embedding).

(** *** The collaborators as computations *)

Definition embed (text : string) : M Embedding :=
  let* _ := log (EffEmbed text) in lift (embedQuery P text).

(** [collection.get({ids: [id]})] on a store that keeps one record per id. *)
Definition collection_get (id : string) : M GetResult := fun w =>
  let w' := mkWorld (collection w) (toolsCache w) (effects w ++ [EffStoreGet id]) in
  match get_fault P id with
  | Some e => (Raised e, w')
  | None =>
      match collection w !! id with
      | Some entry => (Returned (mkGetResult [id] [entry_metadata entry]), w')
      | None => (Returned (mkGetResult [] []), w')
      end
  end.

(** [collection.add] of one record.  A write to an id that is present is
    taken to replace the record: the worst case for the callers. *)
Definition collection_add (id : string) (entry : Entry Embedding) : M unit := fun w =>
  let log' := effects w ++ [EffStoreAdd id] in
  match add_fault P id with
  | Some e => (Raised e, mkWorld (collection w) (toolsCache w) log')
  | None => (Returned tt, mkWorld (<[id := entry]> (collection w)) (toolsCache w) log')
  end.

Definition query (embedding : Embedding) (count : nat) : M (option QueryResult) := fun w =>
  (collection_query P (collection w) embedding count,
   mkWorld (collection w) (toolsCache w) (effects w ++ [EffStoreQuery count])).

(** [this.toolsCache.delete(name)] *)
Definition cache_delete (name : string) : M unit := fun w =>
  (Returned tt, mkWorld (collection w) (delete name (toolsCache w)) (effects w)).

(** *** ensureToolCreationTool *)

(** The record of the reserved tool: placeholder code, flagged internal. *)
Definition reserved_metadata : Metadata :=
  {| md_name := Some (name TOOL_CREATION_TOOL_DEFINITION);
     md_description := Some (description TOOL_CREATION_TOOL_DEFINITION);
     md_parameters_json :=
       Some (JSON_stringify P (parameters TOOL_CREATION_TOOL_DEFINITION));
     md_code :=
       Some ("// Internal ToolCreationManager function: "
               +:+ name TOOL_CREATION_TOOL_DEFINITION);
     md_is_internal := Some true |}.

(** A failed lookup counts as an absent record; a failed write is thrown
    again. *)
Definition ensureToolCreationTool : M unit :=
  let toolName := name TOOL_CREATION_TOOL_DEFINITION in
  let toolDescription := description TOOL_CREATION_TOOL_DEFINITION in
  let* found :=
    try_catch
      (let* existing := collection_get toolName in
       ret (0 <? length (gr_ids existing)))
      (fun _ => ret false) in
  if found then ret tt
  else
    try_catch
      (let* embedding := embed (toolName +:+ ": " +:+ toolDescription) in
       collection_add toolName
         (mkEntry embedding reserved_metadata
            ("Tool definition for " +:+ toolName +:+ ": " +:+ toolDescription)))
      (fun addError => raise addError).

(** *** createTool *)

(** [code.startsWith(`function ${name}(params)`)] or its [async] form. *)
Definition has_signature (name code : string) : bool :=
  startsWith ("function " +:+ name +:+ "(params)") code
  || startsWith ("async function " +:+ name +:+ "(params)") code.

(** Steps 3 and 4: the body of the first [try] block. *)
Definition generate_and_validate (newToolName prompt : string) : M string :=
  let* _ := log (EffGenerate prompt) in
  let* content := lift (chat_completion P prompt) in
  let generatedCode := match content with Some c => trim c | None => "" end in
  if String.eqb generatedCode "" then raise (mkError "LLM returned empty code.")
  else
    let generatedCode := sanitizeGeneratedCode generatedCode newToolName in
    if negb (has_signature newToolName generatedCode) then
      raise (mkError
        ("Generated code does not start with the expected function signature 'function "
           +:+ newToolName +:+ "(params) {...}' or 'async function " +:+ newToolName
           +:+ "(params) {...}'. Got: " +:+ take 100 generatedCode +:+ "..."))
    else
      let* _ := log (EffSyntaxCheck generatedCode) in
      match new_Function P generatedCode with
      | Some syntaxError =>
          raise (mkError
            ("Generated code has syntax errors: " +:+ message syntaxError +:+ nl
               +:+ "Code:" +:+ nl +:+ generatedCode))
      | None => ret generatedCode
      end.

Definition new_metadata (newToolName newToolDescription : string)
    (newToolParameters : json) (generatedCode : string) : Metadata :=
  {| md_name := Some newToolName;
     md_description := Some newToolDescription;
     md_parameters_json := Some (JSON_stringify P newToolParameters);
     md_code := Some generatedCode;
     md_is_internal := Some false |}.

(** Step 5: the body of the second [try] block. *)
Definition store_tool (newToolName newToolDescription : string)
    (newToolParameters : json) (generatedCode : string) : M string :=
  let* existing := collection_get newToolName in
  if 0 <? length (gr_ids existing) then
    ret ("Warning: Tool '" +:+ newToolName +:+ "' already existed. Creation skipped.")
  else
    let* embedding := embed (newToolName +:+ ": " +:+ newToolDescription) in
    let* _ := collection_add newToolName
                (mkEntry embedding
                   (new_metadata newToolName newToolDescription newToolParameters generatedCode)
                   ("Tool definition for " +:+ newToolName +:+ ": " +:+ newToolDescription)) in
    let* _ := cache_delete newToolName in
    ret ("Successfully created tool: " +:+ newToolName).

(** The [catch (error)] clause of the first [try] block. *)
Definition generation_failed (toolName : string) (error : JsError) : string :=
  "Error: Failed to generate or validate code for tool " +:+ toolName +:+ ". "
    +:+ message error.

(** The [catch (dbError)] clause of the second [try] block. *)
Definition store_failed (toolName : string) (dbError : JsError) : M string :=
  ret ("Error: Failed to store tool " +:+ toolName +:+ " in database. "
         +:+ message dbError).

(** The first statement puts [newToolName] into the template of a debug
    message, which throws for a value that does not render. *)
Definition createTool (newToolName newToolDescription newToolParameters : JsValue)
    : M string :=
  let* _ := lift (value_to_string newToolName) in
  if negb (truthy newToolName) || negb (truthy newToolDescription)
     || negb (truthy newToolParameters)
  then ret "Error: Missing required arguments for tool creation (name, description, parameters)."
  else
    match newToolName, newToolDescription, newToolParameters with
    | JsData (JStr toolName), JsData (JStr toolDescription), JsData schema =>
        if negb (String.eqb (typeof newToolParameters) "object") then
          ret "Error: Invalid argument types for tool creation."
        else if negb (is_identifier toolName) then
          ret ("Error: Invalid tool name '" +:+ toolName
                 +:+ "'. Use snake_case with letters, numbers, and underscores, starting with a letter or underscore.")
        else
          let* prompt :=
            lift (generateToolCreationPrompt P toolName toolDescription newToolParameters) in
          let* generated :=
            try_catch
              (let* code := generate_and_validate toolName prompt in ret (inr code))
              (fun error => ret (inl (generation_failed toolName error))) in
          match generated with
          | inl failure => ret failure
          | inr generatedCode =>
              try_catch
                (store_tool toolName toolDescription schema generatedCode)
                (store_failed toolName)
          end
    | _, _, _ => ret "Error: Invalid argument types for tool creation."
    end.

(** *** getToolDefinition *)

(** [!field] for a metadata field that holds text. *)
Definition present (field : option string) : bool :=
  match field with
  | Some s => negb (String.eqb s "")
  | None => false
  end.

Definition getToolDefinition (toolName : string) : M (option ToolDefinition) :=
  try_catch
    (let* results := collection_get toolName in
     if length (gr_ids results) =? 0 then ret None
     else
       match head (gr_metadatas results) with
       | None => ret None
       | Some metadata =>
           match md_code metadata, md_parameters_json metadata with
           | Some code, Some parameters_json =>
               if negb (present (md_code metadata))
                  || negb (present (md_parameters_json metadata))
               then ret None
               else
                 let* parsed := lift (JSON_parse P parameters_json) in
                 ret (Some {| def_name := md_name metadata;
                              def_description := md_description metadata;
                              def_parameters := parsed;
                              def_code := code;
                              def_is_internal :=
                                match md_is_internal metadata with
                                | Some b => b
                                | None => false
                                end |})
           | _, _ => ret None
           end
       end)
    (fun _ => ret None).

(** *** getAvailableTools *)

(** One round of the loop over [results.ids[0]], at index [i]. *)
Definition available_entry (toolId : string) (i : nat) (results : QueryResult)
    : Completion (option ToolDescriptor) :=
  if String.eqb toolId (name TOOL_CREATION_TOOL_DEFINITION) then Returned None
  else
    match qr_metadatas results with
    | Some (row :: _) =>
        match nth_error row i with
        | Some (Some metadata) =>
            match md_name metadata, md_description metadata,
                  md_parameters_json metadata with
            | Some n, Some d, Some pj =>
                if present (md_name metadata) && present (md_description metadata)
                   && present (md_parameters_json metadata)
                then
                  match JSON_parse P pj with
                  | Returned schema => Returned (Some (mkDescriptor n d schema))
                  | Raised _ => Returned None
                  end
                else Returned None
            | _, _, _ => Returned None
            end
        | _ => Returned None
        end
    | _ => Raised (mkError "Cannot read properties of undefined (reading '0')")
    end.

Fixpoint available_loop (ids : list string) (i : nat) (results : QueryResult)
    : Completion (list ToolDescriptor) :=
  match ids with
  | [] => Returned []
  | toolId :: rest =>
      match available_entry toolId i results with
      | Raised e => Raised e
      | Returned found =>
          match available_loop rest (S i) results with
          | Raised e => Raised e
          | Returned more =>
              Returned (match found with Some t => t :: more | None => more end)
          end
      end
  end.

Definition getAvailableTools (contextQuery : string) (count : nat)
    : M (list ToolDescriptor) :=
  try_catch
    (let* queryEmbedding := embed contextQuery in
     let* results := query queryEmbedding count in
     let availableTools := [TOOL_CREATION_TOOL_DEFINITION] in
     match results with
     | Some r =>
         match qr_ids r with
         | Some (first :: _) =>
             let* more := lift (available_loop first 0 r) in
             ret (availableTools ++ more)
         | _ => ret availableTools
         end
     | None => ret availableTools
     end)
    (fun _ => ret [TOOL_CREATION_TOOL_DEFINITION]).

(** *** executeTool *)

(** [for (const param of v)]: the values the loop visits. *)
Definition iterate (what : string) (v : JsValue) : Completion (list json) :=
  match v with
  | JsData (JArr items) => Returned items
  | JsData (JStr s) => Returned (map JStr (chars s))
  | _ => Raised (mkError (what +:+ " is not iterable"))
  end.

(** The members that a value inherits: those of [Object.prototype] and,
    for an array or a primitive, those of the prototype of its class. *)
Definition inherits (v : json) (key : string) : bool :=
  Object_prototype_member key
  || match v with
     | JArr _ => builtin_member P "Array" key
     | JStr _ => builtin_member P "String" key
     | JNum _ | JNonFinite _ => builtin_member P "Number" key
     | JBool _ => builtin_member P "Boolean" key
     | JNull | JObj _ => false
     end.

(** [args[key] === undefined || args[key] === null] for a value [args] that
    is neither.  A property of its own decides; without one the read reaches
    the members that [args] inherits, which are functions and objects. *)
Definition misses (args : json) (key : string) : bool :=
  match own_property args key with
  | JsUndefined => negb (inherits args key)
  | JsData v => nullish (JsData v)
  end.

(** [args[param] === undefined || args[param] === null]: reading a property
    of [null] or [undefined] throws, and so does a [param] that does not
    render to a key. *)
Definition reads_nullish (args : JsValue) (param : json) : Completion bool :=
  match args with
  | JsUndefined =>
      Raised (mkError ("Cannot read properties of undefined (reading '"
                         +:+ to_text param +:+ "')"))
  | JsData JNull =>
      Raised (mkError ("Cannot read properties of null (reading '"
                         +:+ to_text param +:+ "')"))
  | JsData d =>
      match to_string param with
      | Raised e => Raised e
      | Returned key => Returned (misses d key)
      end
  end.

(** The loop that checks [args[param]] for every required [param]. *)
Fixpoint check_required (missing : string -> string) (args : JsValue)
    (required : list json) : Completion unit :=
  match required with
  | [] => Returned tt
  | param :: rest =>
      match reads_nullish args param with
      | Raised e => Raised e
      | Returned true => Raised (mkError (missing (to_text param)))
      | Returned false => check_required missing args rest
      end
  end.

(** The [catch (executionError)] clause inside the wrapper: it puts
    [executionError.message] into the text it returns. *)
Definition execution_failed (toolName : string) (t : Thrown) : WrapperEnd :=
  match message_of t with
  | inl message_text =>
      Handed (Fulfilled (string_value
                ("Error: Execution failed for tool " +:+ toolName +:+ ": "
                   +:+ message_text)))
  | inr thrown => Escaped thrown
  end.

(** [functionWrapper(args)]: the body written in the template of
    [new Function], for a wrapper that compiled. *)
Definition wrapper_body (toolName : string) (run : WrapperRun) : WrapperEnd :=
  match run with
  | WrapperSyntaxError e => Escaped (ThrownError (message e))
  | CodeThrew t => execution_failed toolName t
  | CodeReturned s => Handed s
  | NotDefined =>
      execution_failed toolName
        (ThrownError ("Tool code did not define function " +:+ dquote +:+ toolName
                        +:+ dquote +:+ "."))
  | CallReturned (ResString s) => Handed (Fulfilled (string_value s))
  | CallReturned (ResOther (inl s)) => Handed (Fulfilled (string_value s))
  | CallReturned (ResOther (inr t)) => execution_failed toolName t
  | CallThrew t => execution_failed toolName t
  end.

(** The body of the [try] block of the dynamic execution. *)
Definition execute_stored (toolName toolCode : string) (schema : json)
    (args : JsValue) : M WrapperEnd :=
  let required := own_property schema "required" in
  let* _ :=
    if truthy (JsData schema) && truthy required then
      let* params := lift (iterate "schema.required" required) in
      lift (check_required
              (fun param => "Missing required parameter '" +:+ param
                              +:+ "' for tool " +:+ toolName +:+ ".")
              args params)
    else ret tt in
  let* _ := log (EffCompile toolName toolCode) in
  match run_wrapper P toolName toolCode args with
  | WrapperSyntaxError e => raise e
  | run =>
      let* _ := log (EffInvoke toolName args) in
      ret (wrapper_body toolName run)
  end.

(** The text of the [catch (wrapperError)] clause. *)
Definition wrapper_failed (toolName message_text : string) : string :=
  "Error: Failed to execute tool " +:+ toolName
    +:+ ". Malformed code or unexpected runtime error. " +:+ message_text.

(** How [executeTool] ends after the [try] block of the dynamic execution:
    a value handed back is returned as it is, a rejected promise that was
    handed back rejects the promise of [executeTool], and a thrown value
    reaches the [catch (wrapperError)] clause, which puts its [.message]
    into the text it returns. *)
Definition finish_stored (toolName : string) (ended : WrapperEnd) : Settled :=
  match ended with
  | Handed s => s
  | Escaped t =>
      match message_of t with
      | inl message_text =>
          Fulfilled (string_value (wrapper_failed toolName message_text))
      | inr thrown => Rejected thrown
      end
  end.

(** The body of the [try] block of the reserved tool. *)
Definition execute_creation (args : JsValue) : M string :=
  let required := own_property (parameters TOOL_CREATION_TOOL_DEFINITION) "required" in
  let* params := lift (iterate "required" required) in
  let* _ := lift (check_required
                    (fun param => "Missing required parameter '" +:+ param
                                    +:+ "' for tool_creation.")
                    args params) in
  let* new_tool_name := lift (property args "new_tool_name") in
  let* new_tool_description := lift (property args "new_tool_description") in
  let* new_tool_parameters := lift (property args "new_tool_parameters") in
  if negb (String.eqb (typeof new_tool_name) "string")
     || negb (String.eqb (typeof new_tool_description) "string")
     || negb (String.eqb (typeof new_tool_parameters) "object")
  then raise (mkError "Invalid parameter types for tool_creation.")
  else createTool new_tool_name new_tool_description new_tool_parameters.

(** The promise of [executeTool]: how it settles.  The errors of the engine
    and of the checks are [Error] objects, which the [catch] clauses turn
    into texts; only what stored code hands back or throws can make the
    promise settle otherwise. *)
Definition executeTool (toolName : string) (args : JsValue) : M Settled :=
  if String.eqb toolName (name TOOL_CREATION_TOOL_DEFINITION) then
    let* result :=
      try_catch (execute_creation args)
        (fun error =>
           ret ("Error: Failed to execute " +:+ toolName +:+ ". " +:+ message error)) in
    ret (Fulfilled (string_value result))
  else
    let* toolDefinition := getToolDefinition toolName in
    match toolDefinition with
    | None =>
        ret (Fulfilled (string_value
               ("Error: Tool '" +:+ toolName +:+ "' not found or definition is corrupted.")))
    | Some definition =>
        if def_is_internal definition then
          ret (Fulfilled (string_value
                 ("Error: Cannot execute internal tool '" +:+ toolName +:+ "' directly.")))
        else
          let toolCode := def_code definition in
          let schema := def_parameters definition in
          if String.eqb toolCode "" then
            ret (Fulfilled (string_value
                   ("Error: Invalid or missing code for tool '" +:+ toolName +:+ "'.")))
          else
            let* ended :=
              try_catch (execute_stored toolName toolCode schema args)
                (fun wrapperError =>
                   ret (Escaped (ThrownError (message wrapperError)))) in
            ret (finish_stored toolName ended)
    end.

End Manager.
End Manager.

Arguments Text.take : simpl never.
Arguments Text.trim : simpl never.
Arguments Sanitize.sanitizeGeneratedCode : simpl never.
Arguments Manager.has_signature : simpl never.
Arguments Text.is_identifier : simpl never.
Arguments Prompt.generateToolCreationPrompt : simpl never.

(** ** A reference implementation of the engine's JSON

    [JSON.stringify] on the values of [json], and [JSON.parse] on the texts
    it writes: integers for numbers, no fraction or exponent, code units
    below 256.  A number that is not finite is written as [null]. *)

Module RefJSON.
Import Text Js.

Definition hex_digit (n : nat) : ascii :=
  if n <? 10 then ascii_of_nat (48 + n) else ascii_of_nat (87 + n).

Definition hex_value (c : ascii) : option nat :=
  let n := nat_of_ascii c in
  if (48 <=? n) && (n <=? 57) then Some (n - 48)
  else if (97 <=? n) && (n <=? 102) then Some (n - 87)
  else if (65 <=? n) && (n <=? 70) then Some (n - 55)
  else None.

(** The escape of one character inside a string literal. *)
Definition escape_char (c : ascii) : string :=
  let n := nat_of_ascii c in
  if n =? 34 then "\" +:+ dquote
  else if n =? 92 then "\\"
  else if n =? 8 then "\b"
  else if n =? 12 then "\f"
  else if n =? 10 then "\n"
  else if n =? 13 then "\r"
  else if n =? 9 then "\t"
  else if n <? 32 then
    "\u00" +:+ String (hex_digit (n / 16)) (String (hex_digit (n mod 16)) "")
  else String c "".

Fixpoint escape (s : string) : string :=
  match s with
  | EmptyString => ""
  | String c r => escape_char c +:+ escape r
  end.

Definition quote (s : string) : string := dquote +:+ escape s +:+ dquote.

(** The elements after the first, each behind its comma. *)
Definition elements_tail (f : json -> string) : list json -> string :=
  fix go (l : list json) : string :=
    match l with
    | [] => ""
    | x :: r => "," +:+ f x +:+ go r
    end.

Definition member (f : json -> string) (m : string * json) : string :=
  quote (fst m) +:+ ":" +:+ f (snd m).

Definition members_tail (f : json -> string) : list (string * json) -> string :=
  fix go (l : list (string * json)) : string :=
    match l with
    | [] => ""
    | m :: r => "," +:+ member f m +:+ go r
    end.

Fixpoint stringify (v : json) : string :=
  match v with
  | JNull => "null"
  | JBool true => "true"
  | JBool false => "false"
  | JNum n => text_of_Z n
  | JNonFinite _ => "null"
  | JStr s => quote s
  | JArr [] => "[]"
  | JArr (x :: r) => "[" +:+ stringify x +:+ elements_tail stringify r +:+ "]"
  | JObj [] => "{}"
  | JObj (m :: r) =>
      "{" +:+ member stringify m +:+ members_tail stringify r +:+ "}"
  end.

(** JSON white space: space, tab, line feed, carriage return. *)
Definition is_ws (c : ascii) : bool :=
  let n := nat_of_ascii c in
  (n =? 32) || (n =? 9) || (n =? 10) || (n =? 13).

Fixpoint skip_ws (s : string) : string :=
  match s with
  | String c r => if is_ws c then skip_ws r else s
  | EmptyString => s
  end.

(** One character of a string literal behind a backslash. *)
Definition unescape (e : ascii) (r : string) : option (ascii * string) :=
  let m := nat_of_ascii e in
  if m =? 34 then Some (ascii_of_nat 34, r)
  else if m =? 92 then Some (ascii_of_nat 92, r)
  else if m =? 47 then Some (ascii_of_nat 47, r)
  else if m =? 98 then Some (ascii_of_nat 8, r)
  else if m =? 102 then Some (ascii_of_nat 12, r)
  else if m =? 110 then Some (ascii_of_nat 10, r)
  else if m =? 114 then Some (ascii_of_nat 13, r)
  else if m =? 116 then Some (ascii_of_nat 9, r)
  else if m =? 117 then
    match r with
    | String a (String b (String h (String l r'))) =>
        match hex_value a, hex_value b, hex_value h, hex_value l with
        | Some 0, Some 0, Some x, Some y => Some (ascii_of_nat (16 * x + y), r')
        | _, _, _, _ => None
        end
    | _ => None
    end
  else None.

(** The characters of a string literal after its opening quote, up to the
    closing quote.  [fuel] bounds the number of characters read. *)
Fixpoint parse_chars (fuel : nat) (s : string) : option (string * string) :=
  match fuel with
  | O => None
  | S fuel' =>
      match s with
      | EmptyString => None
      | String c r =>
          let n := nat_of_ascii c in
          if n =? 34 then Some ("", r)
          else if n =? 92 then
            match r with
            | String e r' =>
                match unescape e r' with
                | Some (x, rest) =>
                    match parse_chars fuel' rest with
                    | Some (t, rest') => Some (String x t, rest')
                    | None => None
                    end
                | None => None
                end
            | EmptyString => None
            end
          else if n <? 32 then None
          else
            match parse_chars fuel' r with
            | Some (t, rest) => Some (String c t, rest)
            | None => None
            end
      end
  end.

Definition parse_string (s : string) : option (string * string) :=
  parse_chars (S (String.length s)) s.

(** The longest run of decimal digits. *)
Fixpoint digits (s : string) : string * string :=
  match s with
  | String c r =>
      if is_digit c then let '(d, rest) := digits r in (String c d, rest)
      else ("", s)
  | EmptyString => ("", s)
  end.

(** What may follow an integer: not a digit, and neither a fraction nor an
    exponent. *)
Definition number_ends (rest : string) : bool :=
  match rest with
  | String c _ =>
      let n := nat_of_ascii c in
      negb (is_digit c || (n =? 46) || (n =? 101) || (n =? 69))
  | EmptyString => true
  end.

(** An optional minus sign, then 0 or a digit run without leading zero. *)
Definition parse_number (s : string) : option (Z * string) :=
  let '(negative, body) :=
    match s with
    | String c r => if Ascii.eqb c "-" then (true, r) else (false, s)
    | EmptyString => (false, s)
    end in
  let '(d, rest) := digits body in
  match NilZero.uint_of_string d with
  | Some u =>
      if Decimal.uint_beq (Decimal.unorm u) u && number_ends rest then
        Some (if negative then (- Z.of_uint u)%Z else Z.of_uint u, rest)
      else None
  | None => None
  end.

Definition value_parser : Type := string -> option (json * string).

(** The elements after the first, up to the closing bracket. *)
Fixpoint parse_elements_tail (pv : value_parser) (k : nat) (s : string)
    : option (list json * string) :=
  match k with
  | O => None
  | S k' =>
      match skip_ws s with
      | String c r =>
          if Ascii.eqb c "]" then Some ([], r)
          else if Ascii.eqb c "," then
            match pv r with
            | Some (x, rest) =>
                match parse_elements_tail pv k' rest with
                | Some (more, rest') => Some (x :: more, rest')
                | None => None
                end
            | None => None
            end
          else None
      | EmptyString => None
      end
  end.

(** One member: a string literal, a colon, a value. *)
Definition parse_member (pv : value_parser) (s : string)
    : option ((string * json) * string) :=
  match skip_ws s with
  | String c key_text =>
      if nat_of_ascii c =? 34 then
        match parse_string key_text with
        | Some (key, after_key) =>
            match skip_ws after_key with
            | String c' value_text =>
                if Ascii.eqb c' ":" then
                  match pv value_text with
                  | Some (x, rest) => Some ((key, x), rest)
                  | None => None
                  end
                else None
            | EmptyString => None
            end
        | None => None
        end
      else None
  | EmptyString => None
  end.

(** The members after the first, up to the closing brace. *)
Fixpoint parse_members_tail (pv : value_parser) (k : nat) (s : string)
    : option (list (string * json) * string) :=
  match k with
  | O => None
  | S k' =>
      match skip_ws s with
      | String c r =>
          if Ascii.eqb c "}" then Some ([], r)
          else if Ascii.eqb c "," then
            match parse_member pv r with
            | Some (m, rest) =>
                match parse_members_tail pv k' rest with
                | Some (more, rest') => Some (m :: more, rest')
                | None => None
                end
            | None => None
            end
          else None
      | EmptyString => None
      end
  end.

Definition parse_literal (t : string) : option (json * string) :=
  match after_prefix "null" t, after_prefix "true" t, after_prefix "false" t with
  | Some rest, _, _ => Some (JNull, rest)
  | _, Some rest, _ => Some (JBool true, rest)
  | _, _, Some rest => Some (JBool false, rest)
  | _, _, _ =>
      match parse_number t with
      | Some (n, rest) => Some (JNum n, rest)
      | None => None
      end
  end.

(** Whether the text that follows an opening bracket or brace closes it. *)
Definition closes (close : ascii) (r : string) : option string :=
  match skip_ws r with
  | String c r' => if Ascii.eqb c close then Some r' else None
  | EmptyString => None
  end.

Fixpoint parse_value (fuel : nat) (s : string) : option (json * string) :=
  match fuel with
  | O => None
  | S fuel' =>
      match skip_ws s with
      | String c r as t =>
          if Ascii.eqb c "[" then
            match closes "]" r with
            | Some r' => Some (JArr [], r')
            | None =>
                match parse_value fuel' r with
                | Some (x, rest) =>
                    match parse_elements_tail (parse_value fuel') fuel' rest with
                    | Some (more, rest') => Some (JArr (x :: more), rest')
                    | None => None
                    end
                | None => None
                end
            end
          else if Ascii.eqb c "{" then
            match closes "}" r with
            | Some r' => Some (JObj [], r')
            | None =>
                match parse_member (parse_value fuel') r with
                | Some (m, rest) =>
                    match parse_members_tail (parse_value fuel') fuel' rest with
                    | Some (more, rest') => Some (JObj (m :: more), rest')
                    | None => None
                    end
                | None => None
                end
            end
          else if nat_of_ascii c =? 34 then
            match parse_string r with
            | Some (text, rest) => Some (JStr text, rest)
            | None => None
            end
          else parse_literal t
      | EmptyString => None
      end
  end.

Definition parse (s : string) : Completion json :=
  match parse_value (S (String.length s)) s with
  | Some (v, rest) =>
      match skip_ws rest with
      | EmptyString => Returned v
      | _ => Raised (mkError "Unexpected non-whitespace character after JSON")
      end
  | None => Raised (mkError "Unexpected token in JSON")
  end.



End RefJSON.

(** ** A concrete platform: the [greet_soul] scenario

    A provider that answers every prompt with a fenced definition of
    [greet_soul], an engine that accepts it, a store that never fails and
    answers a query with its records, and the reference JSON. *)

Module Scenario.
Import Text Js Manager.

Definition Vec : Type := list Z.

Definition greet_code : string :=
  "function greet_soul(params) { return 'Hello, ' + params.name; }".

Definition greet_schema : json :=
  JObj [ str_prop "type" "object";
         ("properties", JObj [ ("name", JObj [ str_prop "type" "string" ]) ]);
         ("required", JArr [ JStr "name" ]) ].

(** What the engine does with the code of [greet_soul]; any other code is
    taken not to define the function. *)
Definition greet_run (toolName toolCode : string) (args : JsValue) : WrapperRun :=
  if String.eqb toolCode greet_code then
    match property args "name" with
    | Returned JsUndefined => CallReturned (ResString "Hello, undefined")
    | Returned (JsData v) =>
        match to_string v with
        | Returned rendered => CallReturned (ResString ("Hello, " +:+ rendered))
        | Raised e => CallThrew (ThrownError (message e))
        end
    | Raised e => CallThrew (ThrownError (message e))
    end
  else NotDefined.

(** The members of the prototypes of the classes as ECMAScript 5.1 lists
    them; every engine has them, and no scenario reads a later one. *)
Definition es5_member (class key : string) : bool :=
  existsb (String.eqb key)
    (if String.eqb class "Array" then
       [ "concat"; "join"; "pop"; "push"; "reverse"; "shift"; "slice"; "sort";
         "splice"; "unshift"; "indexOf"; "lastIndexOf"; "every"; "some";
         "forEach"; "map"; "filter"; "reduce"; "reduceRight" ]
     else if String.eqb class "String" then
       [ "charAt"; "charCodeAt"; "concat"; "indexOf"; "lastIndexOf";
         "localeCompare"; "match"; "replace"; "search"; "slice"; "split";
         "substring"; "toLowerCase"; "toLocaleLowerCase"; "toUpperCase";
         "toLocaleUpperCase"; "trim" ]
     else if String.eqb class "Number" then
       [ "toFixed"; "toExponential"; "toPrecision" ]
     else []).

Definition all_records (c : gmap string (Entry Vec)) (k : nat) : QueryResult :=
  let found := firstn k (map_to_list c) in
  {| qr_ids := Some [map fst found];
     qr_metadatas := Some [map (fun r => Some (entry_metadata (snd r))) found] |}.

Definition platform : Platform Vec :=
  {| prompt_text := fun n d _ => "Write the function " +:+ n +:+ ": " +:+ d;
     chat_completion := fun _ =>
       Returned (Some ("```javascript" +:+ nl +:+ greet_code +:+ nl +:+ "```"));
     embedQuery := fun _ => Returned [0%Z];
     new_Function := fun _ => None;
     get_fault := fun _ => None;
     add_fault := fun _ => None;
     collection_query := fun c _ k => Returned (Some (all_records c k));
     run_wrapper := greet_run;
     JSON_stringify := RefJSON.stringify;
     JSON_parse := RefJSON.parse;
     builtin_member := es5_member |}.

Definition empty_world : World Vec := mkWorld ∅ ∅ [].

(** The world after [createTool("greet_soul", ..., greet_schema)]. *)
Definition greet_world : World Vec :=
  snd (createTool platform (JsData (JStr "greet_soul"))
         (JsData (JStr "Return a greeting for a soul name"))
         (JsData greet_schema) empty_world).

(** The same platform with an engine on which every tool throws [null]. *)
Definition throwing : Platform Vec :=
  {| prompt_text := prompt_text platform;
     chat_completion := chat_completion platform;
     embedQuery := embedQuery platform;
     new_Function := new_Function platform;
     get_fault := get_fault platform;
     add_fault := add_fault platform;
     collection_query := collection_query platform;
     run_wrapper := fun _ _ _ => CallThrew ThrownNull;
     JSON_stringify := JSON_stringify platform;
     JSON_parse := JSON_parse platform;
     builtin_member := builtin_member platform |}.

(** The same platform with the embedding provider unreachable. *)
Definition offline : Platform Vec :=
  {| prompt_text := prompt_text platform;
     chat_completion := chat_completion platform;
     embedQuery := fun _ => Raised (mkError "fetch failed");
     new_Function := new_Function platform;
     get_fault := get_fault platform;
     add_fault := add_fault platform;
     collection_query := collection_query platform;
     run_wrapper := run_wrapper platform;
     JSON_stringify := JSON_stringify platform;
     JSON_parse := JSON_parse platform;
     builtin_member := builtin_member platform |}.

(** A provider that puts a statement behind the definition it was asked
    for, and an engine that runs the text as JavaScript does: spliced into
    the body of the wrapper, the [return] of the second line ends the
    wrapper with the number. *)
Definition spliced_code : string :=
  greet_code +:+ nl +:+ "return 42;".

Definition spliced : Platform Vec :=
  {| prompt_text := prompt_text platform;
     chat_completion := fun _ => Returned (Some spliced_code);
     embedQuery := embedQuery platform;
     new_Function := new_Function platform;
     get_fault := get_fault platform;
     add_fault := add_fault platform;
     collection_query := collection_query platform;
     run_wrapper := fun _ toolCode _ =>
       if String.eqb toolCode spliced_code
       then CodeReturned (Fulfilled (Plain (JsData (JNum 42))))
       else NotDefined;
     JSON_stringify := JSON_stringify platform;
     JSON_parse := JSON_parse platform;
     builtin_member := builtin_member platform |}.

(** The world after [createTool("greet_soul", ..., greet_schema)] on that
    platform. *)
Definition spliced_world : World Vec :=
  snd (createTool spliced (JsData (JStr "greet_soul"))
         (JsData (JStr "Return a greeting for a soul name"))
         (JsData greet_schema) empty_world).

(** A provider whose function throws an object with an accessor [message]
    that throws [null]: both [catch] clauses read [.message]. *)
Definition hostile_code : string :=
  "function greet_soul(params) { throw { get message() { throw null; } }; }".

Definition hostile : Platform Vec :=
  {| prompt_text := prompt_text platform;
     chat_completion := fun _ => Returned (Some hostile_code);
     embedQuery := embedQuery platform;
     new_Function := new_Function platform;
     get_fault := get_fault platform;
     add_fault := add_fault platform;
     collection_query := collection_query platform;
     run_wrapper := fun _ toolCode _ =>
       if String.eqb toolCode hostile_code
       then CallThrew (ThrownOpaque ThrownNull)
       else NotDefined;
     JSON_stringify := JSON_stringify platform;
     JSON_parse := JSON_parse platform;
     builtin_member := builtin_member platform |}.

Definition hostile_world : World Vec :=
  snd (createTool hostile (JsData (JStr "greet_soul"))
         (JsData (JStr "Return a greeting for a soul name"))
         (JsData greet_schema) empty_world).

(** A provider that answers with an [async] function, which throws.  The
    call of an [async] function returns a promise, here a rejected one; the
    wrapper does not await it: the result is no string, and [String(result)]
    is the text of a promise. *)
Definition async_code : string :=
  "async function greet_soul(params) { throw new Error('no greeting'); }".

Definition asynchronous : Platform Vec :=
  {| prompt_text := prompt_text platform;
     chat_completion := fun _ => Returned (Some async_code);
     embedQuery := embedQuery platform;
     new_Function := new_Function platform;
     get_fault := get_fault platform;
     add_fault := add_fault platform;
     collection_query := collection_query platform;
     run_wrapper := fun _ toolCode _ =>
       if String.eqb toolCode async_code
       then CallReturned (ResOther (inl "[object Promise]"))
       else NotDefined;
     JSON_stringify := JSON_stringify platform;
     JSON_parse := JSON_parse platform;
     builtin_member := builtin_member platform |}.

Definition async_world : World Vec :=
  snd (createTool asynchronous (JsData (JStr "greet_soul"))
         (JsData (JStr "Return a greeting for a soul name"))
         (JsData greet_schema) empty_world).

(** A schema that requires a parameter named like a member of
    [Object.prototype], and the world after [createTool] stored
    [greet_soul] with it. *)
Definition inherited_schema : json :=
  JObj [ str_prop "type" "object";
         ("properties", JObj [ ("constructor", JObj [ str_prop "type" "string" ]) ]);
         ("required", JArr [ JStr "constructor" ]) ].

Definition inherited_world : World Vec :=
  snd (createTool platform (JsData (JStr "greet_soul"))
         (JsData (JStr "Return a greeting for a soul name"))
         (JsData inherited_schema) empty_world).



End Scenario.

(** ** Vocabulary of the properties *)

(** The name of the reserved bootstrap tool. *)
Definition reserved : string := name TOOL_CREATION_TOOL_DEFINITION.

(** The collection keeps every record under the name its metadata carries:
    what [createTool] and [ensureToolCreationTool] write
    ([ids: [name]], [metadatas: [{name: name, ...}]]). *)
Definition collection_keyed {Embedding : Type}
    (c : gmap string (Entry Embedding)) : Prop :=
  forall id entry, c !! id = Some entry -> md_name (entry_metadata entry) = Some id.

(** The answer of a query pairs every id with the metadata of that record. *)
Definition keyed_by_name (r : QueryResult) : Prop :=
  forall first others row rows i id md,
    qr_ids r = Some (first :: others) ->
    qr_metadatas r = Some (row :: rows) ->
    nth_error first i = Some id ->
    nth_error row i = Some (Some md) ->
    md_name md = Some id.

(** The effects of the registrar: none of them runs code. *)
Definition registrar_effect (e : Effect) : Prop :=
  match e with
  | EffGenerate _ | EffSyntaxCheck _ | EffEmbed _ | EffStoreGet _ | EffStoreAdd _ => True
  | _ => False
  end.

(** [args[key]] is [undefined] or [null], or [args] itself is: the key is
    looked up among the properties of [args] and among the members it
    inherits. *)
Definition lacks {Embedding : Type} (P : Platform Embedding)
    (args : JsValue) (key : string) : bool :=
  match args with
  | JsUndefined | JsData JNull => true
  | JsData d => Manager.misses P d key
  end.

(** [args] has no property named [key] of its own, or one that is [null]. *)
Definition lacks_own (args : JsValue) (key : string) : bool :=
  match args with
  | JsUndefined | JsData JNull => true
  | JsData d => Js.nullish (Js.own_property d key)
  end.

(** The promise is fulfilled with a string. *)
Definition fulfilled_with_text (r : Settled) : bool :=
  match r with
  | Fulfilled (Plain (JsData (JStr _))) => true
  | _ => false
  end.

(** ** initialize *)

Module Lifecycle.
Section Lifecycle.
Context {Embedding : Type} (P : Platform Embedding).

(** [getOrCreateCollection] is how the call of the store's client ends;
    the records of the collection it hands out are [collection] of the
    world.  A failure, of that call or of [ensureToolCreationTool], is
    thrown again. *)
Definition initialize (getOrCreateCollection : Completion unit) : Monad.M unit :=
  try_catch
    (let* _ := lift getOrCreateCollection in
     Manager.ensureToolCreationTool P)
    (fun error => raise error).

End Lifecycle.
End Lifecycle.

(** ** Further vocabulary *)

(** The text has no back quote, so no fence. *)
Definition no_backtick (s : string) : bool :=
  Text.all_chars (fun c => negb (Ascii.eqb c "`")) s.

Definition is_null (v : json) : bool :=
  match v with JNull => true | _ => false end.

(** A value that may be [undefined] renders. *)
Definition value_renders (v : JsValue) : bool :=
  match v with
  | JsUndefined => true
  | JsData d => Js.renders d
  end.

(** The value of a property of the schema can be described: it is not
    [null], its [type] renders, and so does its [description] unless that is
    falsy. *)
Definition describable (value : json) : bool :=
  negb (is_null value)
  && value_renders (Js.own_property value "type")
  && (negb (Js.truthy (Js.own_property value "description"))
      || value_renders (Js.own_property value "description")).

(** The value of [required] can be joined: it is an array whose elements
    render, or it is falsy. *)
Definition joinable (required : JsValue) : bool :=
  match required with
  | JsData (JArr items) => forallb Js.renders items
  | _ => negb (Js.truthy required)
  end.

(** The schemas [generateToolCreationPrompt] accepts: [type] is ['object'],
    [properties] is an object or an array whose members can be described,
    and [required] is an array whose elements render, or a falsy value. *)
Definition well_formed_schema (schema : json) : bool :=
  Js.is_string "object" (Js.own_property schema "type")
  && match Js.own_property schema "properties" with
     | JsData (JObj fields) => forallb (fun kv => describable (snd kv)) fields
     | JsData (JArr items) => forallb describable items
     | _ => false
     end
  && joinable (Js.own_property schema "required").

(** The text that is embedded for a tool, and the document stored with it. *)
Definition embedded_text (toolName toolDescription : string) : string :=
  toolName +:+ ": " +:+ toolDescription.

Definition document_text (toolName toolDescription : string) : string :=
  "Tool definition for " +:+ toolName +:+ ": " +:+ toolDescription.

(** The world with more effects logged. *)
Definition logged {Embedding : Type} (w : World Embedding) (trace : list Effect)
    : World Embedding :=
  mkWorld (collection w) (toolsCache w) (effects w ++ trace).

(** The steps of [createTool] on a request that passed the validation, in
    the order of the source. *)
Definition creation_steps (toolName toolDescription prompt code : string)
    : list Effect :=
  [ EffGenerate prompt; EffSyntaxCheck code; EffStoreGet toolName;
    EffEmbed (embedded_text toolName toolDescription); EffStoreAdd toolName ].

Module Scenario2.
Import Text Js Manager.

(** The platform of the scenario with a provider that answers with white
    space only. *)
Definition silent : Platform Scenario.Vec :=
  {| prompt_text := prompt_text Scenario.platform;
     chat_completion := fun _ => Returned (Some ("  " +:+ nl));
     embedQuery := embedQuery Scenario.platform;
     new_Function := new_Function Scenario.platform;
     get_fault := get_fault Scenario.platform;
     add_fault := add_fault Scenario.platform;
     collection_query := collection_query Scenario.platform;
     run_wrapper := run_wrapper Scenario.platform;
     JSON_stringify := JSON_stringify Scenario.platform;
     JSON_parse := JSON_parse Scenario.platform;
     builtin_member := builtin_member Scenario.platform |}.

End Scenario2.

(** The check of the required names at the head of the [try] block of
    [executeTool]'s dynamic execution. *)
Definition required_check {Embedding : Type} (P : Platform Embedding)
    (toolName : string) (schema : json) (args : JsValue) : Completion unit :=
  if Js.truthy (JsData schema) && Js.truthy (Js.own_property schema "required") then
    match Manager.iterate "schema.required" (Js.own_property schema "required") with
    | Raised e => Raised e
    | Returned params =>
        Manager.check_required P
          (fun param => "Missing required parameter '" +:+ param
                          +:+ "' for tool " +:+ toolName +:+ ".")
          args params
    end
  else Returned tt.


(** ** The game server ([server.js])

    Conventions of this part.
    - [gameState.souls], [gameState.artifacts], [gameState.locations] and the
      [exits] of a location are objects used as tables.  The first two are
      keyed by the identifiers of [uuidv4] and keep the order of insertion,
      which [Object.values] shows; the other two are finite maps.
    - A key that names a member of [Object.prototype] reaches that member
      when the table has no property of that name ([Inherited]): the checks
      of the code take it for a record, and its [name] is the name of the
      built-in function.
    - A thrown error is [Throws]: its message is not modelled.  The state
      next to it is the state at the throw, with the writes made before.
    - An array or object passed where an identifier is expected is a fresh
      object: it is never the same value as one stored before.
    - The console and the debug channel ([sendDebugInfo]) are left out, but
      for the values their templates render, which can throw.
    - A run is [None], outside the model, when [uuidv4] answers with the
      name of a member of [Object.prototype] or with an array index, when
      [_internal_move_soul] writes [locationId] onto such a member, when the
      soul of the player is one, when the tool name of an artifact is not a
      string, when the arguments of a client bring array indices as keys,
      and when a tool hands back a value that is not data. *)

Module Server.
Import Text Js.

(** The tables are plain objects: a key that is no own property reaches the
    member of [Object.prototype] of that name. *)
Definition inherited (key : string) : bool := Object_prototype_member key.

(** What [table[key]] reaches. *)
Inductive Slot (A : Type) : Type :=
| Own (a : A)
| Absent
| Inherited.
Arguments Own {A} a.
Arguments Absent {A}.
Arguments Inherited {A}.

Definition slot {A : Type} (own : option A) (key : string) : Slot A :=
  match own with
  | Some a => Own a
  | None => if inherited key then Inherited else Absent
  end.

(** Tables in order of insertion. *)
Fixpoint table_get {A : Type} (key : string) (t : list (string * A)) : option A :=
  match t with
  | [] => None
  | (k, a) :: rest => if String.eqb k key then Some a else table_get key rest
  end.

(** [table[key] = a]: an existing property keeps its place. *)
Fixpoint table_set {A : Type} (key : string) (a : A) (t : list (string * A))
    : list (string * A) :=
  match t with
  | [] => [(key, a)]
  | (k, x) :: rest =>
      if String.eqb k key then (k, a) :: rest else (k, x) :: table_set key a rest
  end.

(** An identifier as [uuidv4] makes them: no array index, no member of
    [Object.prototype]. *)
Definition ordinary_id (id : string) : bool :=
  negb (inherited id)
  && match index_of_key id with Some _ => false | None => true end.

(** How a call ends: with a value, or by throwing. *)
Inductive Result (A : Type) : Type :=
| Value (a : A)
| Throws.
Arguments Value {A} a.
Arguments Throws {A}.

(** [c.toLowerCase()] on a code unit below 256. *)
Definition lower (c : ascii) : ascii :=
  let n := nat_of_ascii c in
  if ((65 <=? n) && (n <=? 90)) || ((192 <=? n) && (n <=? 214))
     || ((216 <=? n) && (n <=? 222))
  then ascii_of_nat (n + 32) else c.

Fixpoint toLowerCase (s : string) : string :=
  match s with
  | EmptyString => EmptyString
  | String c r => String (lower c) (toLowerCase r)
  end.

(** [s.replace(/\s+/g, '_')]: every run of white space becomes one
    underscore; [in_run] tells that the character before was white space. *)
Fixpoint replace_spaces (in_run : bool) (s : string) : string :=
  match s with
  | EmptyString => EmptyString
  | String c r =>
      if is_space c then
        if in_run then replace_spaces true r else String "_" (replace_spaces true r)
      else String c (replace_spaces false r)
  end.

(** SameValueZero on JSON data, and [array.includes(v)]. *)
Definition same_value_zero (a b : json) : bool :=
  match a, b with
  | JNull, JNull => true
  | JBool x, JBool y => Bool.eqb x y
  | JNum x, JNum y => (x =? y)%Z
  | JNonFinite NaN, JNonFinite NaN => true
  | JNonFinite PosInfinity, JNonFinite PosInfinity => true
  | JNonFinite NegInfinity, JNonFinite NegInfinity => true
  | JStr x, JStr y => String.eqb x y
  | _, _ => false
  end.

Definition includes (items : list json) (v : json) : bool :=
  existsb (same_value_zero v) items.

(** *** gameState *)

Record Soul : Type := mkSoul {
  soul_id : string;
  soul_name : json;
  soul_locationId : json;
  soul_inventory : list json;
  soul_type : json
}.

Record Location : Type := mkLocation {
  location_id : string;
  location_name : string;
  location_description : json;
  location_exits : gmap string json
}.

Record Artifact : Type := mkArtifact {
  artifact_id : string;
  artifact_name : json;
  artifact_description : json;
  artifact_linkedToolName : json
}.

Record GameState : Type := mkGame {
  souls : list (string * Soul);
  locations : gmap string Location;
  artifacts : list (string * Artifact);
  worldLog : list string
}.

Definition gameState : GameState :=
  mkGame [] ∅ [] ["Welcome to the Infinite MMORPG!"].

(** [gameState.souls[id]], [gameState.locations[id]],
    [gameState.artifacts[id]] for a JSON value [id]. *)
Definition soul_at (g : GameState) (id : json) : Slot Soul :=
  slot (table_get (to_text id) (souls g)) (to_text id).

Definition location_at (g : GameState) (id : json) : Slot Location :=
  slot (locations g !! to_text id) (to_text id).

Definition artifact_at (g : GameState) (id : json) : Slot Artifact :=
  slot (table_get (to_text id) (artifacts g)) (to_text id).

(** *** logToWorld *)

Definition logToWorld (message : string) (g : GameState) : GameState :=
  let log := worldLog g ++ [message] in
  mkGame (souls g) (locations g) (artifacts g)
    (if 50 <? length log then tail log else log).

(** *** The game logic functions

    Each takes the JSON object of its parameters; [uuid] is what [uuidv4]
    answers when the function calls it.  A value used as the key of a table
    or put into a template is rendered first, which throws for a value that
    does not render: before the write when it is a key, behind it when it is
    a name in the message of the log. *)

(** The [name] of the member of [Object.prototype] that [key] names, as a
    template renders it: [Object] is the constructor, [Object.prototype]
    itself ([__proto__]) has no name, and the other members are functions
    named like their key. *)
Definition builtin_name (key : string) : string :=
  if String.eqb key "constructor" then "Object"
  else if String.eqb key "__proto__" then "undefined"
  else key.

(** [gameState.locations[id].name] in a template, for a location that the
    check found. *)
Definition location_label (found : Slot Location) (key : string) : string :=
  match found with
  | Own location => location_name location
  | _ => builtin_name key
  end.

(** [gameState.artifacts[id].name] in a template, for an artifact that the
    check found. *)
Definition artifact_label (found : Slot Artifact) (key : string) : Completion string :=
  match found with
  | Own artifact => to_string (artifact_name artifact)
  | _ => Returned (builtin_name key)
  end.

Definition _internal_create_soul (uuid : string) (params : JsValue) (g : GameState)
    : option (Result string * GameState) :=
  match params with
  | JsUndefined | JsData JNull => Some (Throws, g)
  | JsData p =>
      let type :=
        match own_property p "type" with
        | JsUndefined => JStr "generic"
        | JsData t => t
        end in
      match own_property p "name", own_property p "locationId" with
      | JsData name, JsData locationId =>
          if negb (truthy (JsData name)) || negb (truthy (JsData locationId)) then
            Some (Value "Error: Missing name or locationId for create_soul.", g)
          else if negb (renders locationId) then Some (Throws, g)
          else
            match location_at g locationId with
            | Absent =>
                Some (Value ("Error: Location '" +:+ to_text locationId +:+ "' not found."), g)
            | found =>
                if ordinary_id uuid then
                  let soulId := uuid in
                  let soul := mkSoul soulId name locationId [] type in
                  let g1 := mkGame (table_set soulId soul (souls g)) (locations g)
                              (artifacts g) (worldLog g) in
                  if renders name then
                    Some (Value ("Soul '" +:+ to_text name +:+ "' (ID: " +:+ soulId
                                   +:+ ") created successfully at location "
                                   +:+ to_text locationId +:+ "."),
                          logToWorld ("A new soul named '" +:+ to_text name
                                        +:+ "' appeared in "
                                        +:+ location_label found (to_text locationId)
                                        +:+ ".")
                            g1)
                  else Some (Throws, g1)
                else None
            end
      | _, _ => Some (Value "Error: Missing name or locationId for create_soul.", g)
      end
  end.

Definition _internal_create_location (params : JsValue) (g : GameState)
    : option (Result string * GameState) :=
  match params with
  | JsUndefined | JsData JNull => Some (Throws, g)
  | JsData p =>
      let name := own_property p "name" in
      let description := own_property p "description" in
      if negb (truthy name) || negb (truthy description) then
        Some (Value "Error: Missing name or description for create_location.", g)
      else
        match name, description with
        | JsData (JStr name), JsData description =>
            let locationId := replace_spaces false (toLowerCase name) in
            match location_at g (JStr locationId) with
            | Absent =>
                let location := mkLocation locationId name description ∅ in
                let g1 := mkGame (souls g) (<[locationId := location]> (locations g))
                            (artifacts g) (worldLog g) in
                Some (Value ("Location '" +:+ name +:+ "' (ID: " +:+ locationId
                               +:+ ") created successfully."),
                      logToWorld ("A new location called '" +:+ name +:+ "' was discovered.")
                        g1)
            | _ =>
                Some (Value ("Error: Location with ID '" +:+ locationId
                               +:+ "' already exists."), g)
            end
        | _, _ => Some (Throws, g)
        end
  end.

(** [exits[key] = target].  The key [__proto__] names the accessor of
    [Object.prototype]: the assignment adds no property (a primitive is
    ignored, an object becomes the prototype of [exits], which the server
    never reads through). *)
Definition set_exit (key : string) (target : json) (exits : gmap string json)
    : gmap string json :=
  if String.eqb key "__proto__" then exits else <[key := target]> exits.

Definition _internal_link_exit (params : JsValue) (g : GameState)
    : option (Result string * GameState) :=
  match params with
  | JsUndefined | JsData JNull => Some (Throws, g)
  | JsData p =>
      match own_property p "fromLocationId", own_property p "direction",
            own_property p "toLocationId" with
      | JsData fromLocationId, JsData direction, JsData toLocationId =>
          if negb (truthy (JsData fromLocationId)) || negb (truthy (JsData direction))
             || negb (truthy (JsData toLocationId))
          then Some (Value "Error: Missing parameters for link_exit.", g)
          else if negb (renders fromLocationId) then Some (Throws, g)
          else
            match location_at g fromLocationId with
            | Absent =>
                Some (Value ("Error: Origin location '" +:+ to_text fromLocationId
                               +:+ "' not found."), g)
            | origin =>
                if negb (renders toLocationId) then Some (Throws, g)
                else
                  match location_at g toLocationId with
                  | Absent =>
                      Some (Value ("Error: Destination location '"
                                     +:+ to_text toLocationId +:+ "' not found."), g)
                  | destination =>
                      match origin, direction with
                      | Own origin, JStr direction =>
                          let origin' :=
                            mkLocation (location_id origin) (location_name origin)
                              (location_description origin)
                              (set_exit (toLowerCase direction) toLocationId
                                 (location_exits origin)) in
                          let g1 :=
                            mkGame (souls g)
                              (<[to_text fromLocationId := origin']> (locations g))
                              (artifacts g) (worldLog g) in
                          Some (Value ("Exit '" +:+ direction +:+ "' added from "
                                         +:+ to_text fromLocationId +:+ " to "
                                         +:+ to_text toLocationId +:+ "."),
                                logToWorld ("A path opened from " +:+ location_name origin
                                              +:+ " " +:+ direction +:+ " to "
                                              +:+ location_label destination
                                                    (to_text toLocationId)
                                              +:+ ".")
                                  g1)
                      | _, _ => Some (Throws, g)
                      end
                  end
            end
      | _, _, _ => Some (Value "Error: Missing parameters for link_exit.", g)
      end
  end.

Definition _internal_create_artifact (uuid : string) (params : JsValue) (g : GameState)
    : option (Result string * GameState) :=
  match params with
  | JsUndefined | JsData JNull => Some (Throws, g)
  | JsData p =>
      match own_property p "name", own_property p "description",
            own_property p "linkedToolName" with
      | JsData name, JsData description, JsData linkedToolName =>
          if negb (truthy (JsData name)) || negb (truthy (JsData description))
             || negb (truthy (JsData linkedToolName))
          then Some (Value "Error: Missing name, description, or linkedToolName for create_artifact.", g)
          else if ordinary_id uuid then
            let artifactId := uuid in
            let artifact := mkArtifact artifactId name description linkedToolName in
            let g1 := mkGame (souls g) (locations g)
                        (table_set artifactId artifact (artifacts g)) (worldLog g) in
            if renders name then
              let g2 := logToWorld ("A powerful artifact known as '" +:+ to_text name
                                      +:+ "' has materialized.") g1 in
              if renders linkedToolName then
                Some (Value ("Artifact '" +:+ to_text name +:+ "' (ID: " +:+ artifactId
                               +:+ ") created, linked to tool '" +:+ to_text linkedToolName
                               +:+ "'."),
                      g2)
              else Some (Throws, g2)
            else Some (Throws, g1)
          else None
      | _, _, _ =>
          Some (Value "Error: Missing name, description, or linkedToolName for create_artifact.", g)
      end
  end.

Definition _internal_give_artifact_to_soul (params : JsValue) (g : GameState)
    : option (Result string * GameState) :=
  match params with
  | JsUndefined | JsData JNull => Some (Throws, g)
  | JsData p =>
      match own_property p "soulId", own_property p "artifactId" with
      | JsData soulId, JsData artifactId =>
          if negb (truthy (JsData soulId)) || negb (truthy (JsData artifactId)) then
            Some (Value "Error: Missing soulId or artifactId for give_artifact.", g)
          else if negb (renders soulId) then Some (Throws, g)
          else
            match soul_at g soulId with
            | Absent =>
                Some (Value ("Error: Soul '" +:+ to_text soulId +:+ "' not found."), g)
            | holder =>
                if negb (renders artifactId) then Some (Throws, g)
                else
                  match artifact_at g artifactId with
                  | Absent =>
                      Some (Value ("Error: Artifact '" +:+ to_text artifactId
                                     +:+ "' not found."), g)
                  | found =>
                      match holder with
                      | Own soul =>
                          let names :=
                            match to_string (soul_name soul),
                                  artifact_label found (to_text artifactId) with
                            | Returned soulName, Returned artifactName =>
                                Some (soulName, artifactName)
                            | _, _ => None
                            end in
                          if negb (includes (soul_inventory soul) artifactId) then
                            let soul' :=
                              mkSoul (soul_id soul) (soul_name soul) (soul_locationId soul)
                                (soul_inventory soul ++ [artifactId]) (soul_type soul) in
                            let g1 := mkGame (table_set (to_text soulId) soul' (souls g))
                                        (locations g) (artifacts g) (worldLog g) in
                            match names with
                            | Some (soulName, artifactName) =>
                                Some (Value ("Artifact '" +:+ artifactName
                                               +:+ "' given to soul '" +:+ soulName +:+ "'."),
                                      logToWorld (soulName +:+ " obtained the artifact '"
                                                    +:+ artifactName +:+ "'.") g1)
                            | None => Some (Throws, g1)
                            end
                          else
                            match names with
                            | Some (soulName, artifactName) =>
                                Some (Value ("Warning: Soul '" +:+ soulName
                                               +:+ "' already possesses artifact '"
                                               +:+ artifactName +:+ "'."), g)
                            | None => Some (Throws, g)
                            end
                      | _ => Some (Throws, g)
                      end
                  end
            end
      | _, _ => Some (Value "Error: Missing soulId or artifactId for give_artifact.", g)
      end
  end.

(** [Object.values(exits).includes(id)] *)
Definition leads_to (exits : gmap string json) (id : json) : bool :=
  includes (map snd (map_to_list exits)) id.

(** [currentLocation?.name || 'an unknown place'] *)
Definition old_location_name (current : Slot Location) (key : string) : string :=
  match current with
  | Own location =>
      if String.eqb (location_name location) "" then "an unknown place"
      else location_name location
  | Inherited =>
      if String.eqb key "__proto__" then "an unknown place" else builtin_name key
  | Absent => "an unknown place"
  end.

(** A soul that is a member of [Object.prototype] would be given a property
    [locationId]: that write to a built-in object is outside the model. *)
Definition _internal_move_soul (params : JsValue) (g : GameState)
    : option (Result string * GameState) :=
  match params with
  | JsUndefined | JsData JNull => Some (Throws, g)
  | JsData p =>
      match own_property p "soulId", own_property p "targetLocationId" with
      | JsData soulId, JsData targetLocationId =>
          if negb (truthy (JsData soulId)) || negb (truthy (JsData targetLocationId)) then
            Some (Value "Error: Missing soulId or targetLocationId for move_soul.", g)
          else if negb (renders soulId) then Some (Throws, g)
          else
            match soul_at g soulId with
            | Absent =>
                Some (Value ("Error: Soul '" +:+ to_text soulId +:+ "' not found."), g)
            | Inherited =>
                if negb (renders targetLocationId) then Some (Throws, g)
                else
                  match location_at g targetLocationId with
                  | Absent =>
                      Some (Value ("Error: Target location '"
                                     +:+ to_text targetLocationId +:+ "' not found."), g)
                  | _ => None
                  end
            | Own soul =>
                if negb (renders (soul_locationId soul)) then Some (Throws, g)
                else
                  let currentLocation := location_at g (soul_locationId soul) in
                  if negb (renders targetLocationId) then Some (Throws, g)
                  else
                    match location_at g targetLocationId with
                    | Absent =>
                        Some (Value ("Error: Target location '"
                                       +:+ to_text targetLocationId +:+ "' not found."), g)
                    | targetLocation =>
                        let reachable :=
                          match currentLocation with
                          | Own current =>
                              leads_to (location_exits current) targetLocationId
                          | _ => false
                          end in
                        let oldLocationName :=
                          old_location_name currentLocation
                            (to_text (soul_locationId soul)) in
                        let targetName :=
                          location_label targetLocation (to_text targetLocationId) in
                        let soul' :=
                          mkSoul (soul_id soul) (soul_name soul) targetLocationId
                            (soul_inventory soul) (soul_type soul) in
                        let g1 := mkGame (table_set (to_text soulId) soul' (souls g))
                                    (locations g) (artifacts g) (worldLog g) in
                        if renders (soul_name soul) then
                          Some (Value (to_text (soul_name soul)
                                         +:+ " moved successfully to " +:+ targetName
                                         +:+ "."),
                                logToWorld (to_text (soul_name soul) +:+ " moved from "
                                              +:+ oldLocationName +:+ " to "
                                              +:+ targetName +:+ ".") g1)
                        else Some (Throws, g1)
                    end
            end
      | _, _ => Some (Value "Error: Missing soulId or targetLocationId for move_soul.", g)
      end
  end.

(** *** The server around the tool manager *)

(** One entry of [availableActions]. *)
Record Action : Type := mkAction {
  action_artifactId : string;
  action_toolName : json;
  action_name : json;
  action_description : json
}.

(** What the server sends: to the socket of the player ([socket.emit]) or to
    every client ([io.emit]). *)
Inductive Message : Type :=
| actionResult (success : bool) (message : string)
| availableActions (actions : list Action)
| gameStateUpdateNeeded
| requestState.

Inductive Emit : Type :=
| ToSocket (m : Message)
| ToAll (m : Message).

Record ServerState (Embedding : Type) : Type := mkServer {
  game : GameState;
  manager : World Embedding;
  emitted : list Emit
}.
Arguments mkServer {Embedding} _ _ _.
Arguments game {Embedding} _.
Arguments manager {Embedding} _.
Arguments emitted {Embedding} _.

(** The actions of a soul: one for each artifact of its inventory that
    exists and is linked to a tool. *)
Definition available_action (g : GameState) (artifactId : json) : option Action :=
  match artifact_at g artifactId with
  | Own artifact =>
      if truthy (JsData (artifact_linkedToolName artifact)) then
        Some (mkAction (artifact_id artifact) (artifact_linkedToolName artifact)
                (artifact_name artifact) (artifact_description artifact))
      else None
  | _ => None
  end.

(** [sendAvailableActions(socket, soulId)]: what it emits.  Every
    identifier of the inventory is the key of a lookup, which throws when
    the identifier does not render. *)
Definition sendAvailableActions (g : GameState) (soulId : option string)
    : option (Result (list Emit)) :=
  match soulId with
  | None => Some (Value [])
  | Some soulId =>
      if String.eqb soulId "" then Some (Value [])
      else
        match soul_at g (JStr soulId) with
        | Absent => Some (Value [])
        | Inherited => None
        | Own soul =>
            if forallb renders (soul_inventory soul) then
              Some (Value [ToSocket (availableActions
                                       (omap (available_action g) (soul_inventory soul)))])
            else Some Throws
        end
  end.

(** [broadcastGameState()]: what it emits. *)
Definition broadcastGameState (g : GameState) : list Emit :=
  map (fun _ => ToAll gameStateUpdateNeeded)
    (filter (fun entry => same_value_zero (soul_type (snd entry)) (JStr "player"))
       (souls g))
  ++ [ToAll requestState].

(** [obj[key] = v] on the list of the own properties of an object. *)
Fixpoint set_property (key : string) (v : json) (fields : list (string * json))
    : list (string * json) :=
  match fields with
  | [] => [(key, v)]
  | (k, x) :: rest =>
      if String.eqb k key then (k, v) :: rest else (k, x) :: set_property key v rest
  end.

(** The properties that [...(args || {})] copies, when none is an array
    index. *)
Definition spread (args : JsValue) : option (list (string * json)) :=
  match args with
  | JsData (JObj fields) =>
      if forallb (fun kv => match index_of_key (fst kv) with
                            | Some _ => false
                            | None => true
                            end) fields
      then Some fields else None
  | JsData (JArr (_ :: _)) => None
  | JsData (JStr s) => if String.eqb s "" then Some [] else None
  | _ => Some []
  end.

(** [{ soulId: soulId, locationId: soul.locationId, ...(args || {}) }] *)
Definition toolArgs (soulId : string) (soul : Soul) (args : JsValue)
    : option json :=
  match spread args with
  | Some fields =>
      Some (JObj (fold_left (fun target kv => set_property (fst kv) (snd kv) target)
                    fields
                    [("soulId", JStr soulId); ("locationId", soul_locationId soul)]))
  | None => None
  end.

(** [artifact?.name || artifactId] in the message of a refusal. *)
Definition refused_label (found : Slot Artifact) (artifactId : json) : Completion string :=
  match found with
  | Own artifact =>
      if truthy (JsData (artifact_name artifact)) then to_string (artifact_name artifact)
      else Returned (to_text artifactId)
  | Inherited =>
      Returned (if String.eqb (to_text artifactId) "constructor" then "Object"
                else to_text artifactId)
  | Absent => Returned (to_text artifactId)
  end.

(** The report that the [catch] clause of [performAction] sends. *)
Definition critical : Emit :=
  ToSocket (actionResult false "A critical error occurred while performing the action.").

Section Server.
Context {Embedding : Type} (P : Platform Embedding).

Definition emit (events : list Emit) (s : ServerState Embedding)
    : ServerState Embedding :=
  mkServer (game s) (manager s) (emitted s ++ events).

(** The [catch] clause of [performAction], entered with an [Error] object or
    a value whose [.message] renders, after [before] was emitted: the
    critical report, then the actions, [sent] being how
    [sendAvailableActions] ends. *)
Definition report_failure (sent : Result (list Emit)) (w : World Embedding)
    (before : list Emit) (s : ServerState Embedding)
    : Result unit * ServerState Embedding :=
  match sent with
  | Value actions =>
      (Value tt, mkServer (game s) w (emitted s ++ before ++ [critical] ++ actions))
  | Throws => (Throws, mkServer (game s) w (emitted s ++ before ++ [critical]))
  end.

(** The rest of the [try] block for a result that is a string: the report,
    the broadcast after a success, the actions.  When
    [sendAvailableActions] throws, the [catch] clause is entered. *)
Definition report_result (sent : Result (list Emit)) (w : World Embedding)
    (executionResult : string) (s : ServerState Embedding)
    : Result unit * ServerState Embedding :=
  let success := negb (startsWith "Error:" executionResult) in
  let events :=
    [ToSocket (actionResult success executionResult)]
      ++ (if success then broadcastGameState (game s) else []) in
  match sent with
  | Value actions => (Value tt, mkServer (game s) w (emitted s ++ events ++ actions))
  | Throws => report_failure sent w events s
  end.

(** The [try] block of [performAction] from the [await] on: how the promise
    of [executeTool] settled decides.  A text is reported.  A result that is
    no text has no [startsWith] to call, and a rejection is thrown by
    [await]: the [catch] clause is entered, whose debug message reads
    [error.message] first; when that read throws, the handler throws with
    nothing sent.  What an exotic value does is outside the model. *)
Definition conclude (sent : Result (list Emit)) (w : World Embedding)
    (settled : Settled) (s : ServerState Embedding)
    : option (Result unit * ServerState Embedding) :=
  match settled with
  | Fulfilled (Plain (JsData (JStr executionResult))) =>
      Some (report_result sent w executionResult s)
  | Fulfilled (Plain _) => Some (report_failure sent w [] s)
  | Fulfilled Exotic => None
  | Rejected thrown =>
      match message_of thrown with
      | inl _ => Some (report_failure sent w [] s)
      | inr _ => Some (Throws, mkServer (game s) w (emitted s))
      end
  end.

(** The handler of [performAction] for the socket whose player soul is
    [playerSoulId].  The templates of the debug messages render the names
    they mention, and throw before the report when one does not render. *)
Definition performAction (playerSoulId : option string) (data : JsValue)
    (s : ServerState Embedding) : option (Result unit * ServerState Embedding) :=
  match data with
  | JsUndefined | JsData JNull => Some (Throws, s)
  | JsData d =>
      let artifactId := own_property d "artifactId" in
      let args := own_property d "args" in
      match playerSoulId with
      | None => Some (Value tt, s)
      | Some soulId =>
          if String.eqb soulId "" then Some (Value tt, s)
          else
            match soul_at (game s) (JStr soulId) with
            | Absent => Some (Value tt, s)
            | Inherited => None
            | Own soul =>
                match artifactId with
                | JsUndefined => Some (Value tt, s)
                | JsData artifactId =>
                    if negb (truthy (JsData artifactId)) then Some (Value tt, s)
                    else if negb (renders artifactId) then Some (Throws, s)
                    else
                      let found := artifact_at (game s) artifactId in
                      let absent := match found with Absent => true | _ => false end in
                      if negb (includes (soul_inventory soul) artifactId) || absent then
                        match to_string (soul_name soul), refused_label found artifactId with
                        | Returned _, Returned label =>
                            Some (Value tt,
                                  emit [ToSocket (actionResult false
                                                    ("You don't have the required artifact '"
                                                       +:+ label +:+ "'."))] s)
                        | _, _ => Some (Throws, s)
                        end
                      else
                        let linked :=
                          match found with
                          | Own artifact => JsData (artifact_linkedToolName artifact)
                          | _ => JsUndefined
                          end in
                        if negb (truthy linked) then
                          match artifact_label found (to_text artifactId) with
                          | Returned label =>
                              Some (Value tt,
                                    emit [ToSocket (actionResult false
                                                      ("Artifact '" +:+ label
                                                         +:+ "' seems inert."))] s)
                          | Raised _ => Some (Throws, s)
                          end
                        else
                          match linked, toolArgs soulId soul args,
                                sendAvailableActions (game s) (Some soulId) with
                          | JsData (JStr toolName), Some toolArgs, Some sent =>
                              match artifact_label found (to_text artifactId) with
                              | Raised _ => Some (Throws, s)
                              | Returned _ =>
                                  match Manager.executeTool P toolName (JsData toolArgs)
                                          (manager s) with
                                  | (Returned settled, w) => conclude sent w settled s
                                  | (Raised _, w) => Some (report_failure sent w [] s)
                                  end
                              end
                          | _, _, _ => None
                          end
                end
            end
      end
  end.

(** The [switch] of [processInitialPrompt] over the name of an
    [EXECUTE TOOL] line: the six bootstrap functions, or the tool manager,
    whose promise is awaited. *)
Definition bootstrap_tool (uuid : string) (name : string) (args : JsValue)
    (s : ServerState Embedding)
    : option (Result ToolValue * ServerState Embedding) :=
  let internal (run : GameState -> option (Result string * GameState)) :=
    match run (game s) with
    | Some (Value result, g) =>
        Some (Value (string_value result), mkServer g (manager s) (emitted s))
    | Some (Throws, g) => Some (Throws, mkServer g (manager s) (emitted s))
    | None => None
    end in
  if String.eqb name "create_soul" then internal (_internal_create_soul uuid args)
  else if String.eqb name "create_location" then internal (_internal_create_location args)
  else if String.eqb name "link_exit" then internal (_internal_link_exit args)
  else if String.eqb name "create_artifact" then internal (_internal_create_artifact uuid args)
  else if String.eqb name "give_artifact_to_soul" then
    internal (_internal_give_artifact_to_soul args)
  else if String.eqb name "move_soul" then internal (_internal_move_soul args)
  else
    match Manager.executeTool P name args (manager s) with
    | (Returned (Fulfilled result), w) =>
        Some (Value result, mkServer (game s) w (emitted s))
    | (Returned (Rejected _), w) | (Raised _, w) =>
        Some (Throws, mkServer (game s) w (emitted s))
    end.

End Server.

End Server.

(** *** Vocabulary of the properties of the server *)

(** The game state is intact: every record is kept under its own
    identifier, every soul stands in a location that exists and holds
    artifacts that exist, every exit leads to a location that exists, and
    the log has at most fifty entries. *)
Record intact (g : Server.GameState) : Prop := mkIntact {
  souls_keyed :
    Forall (fun entry => Server.soul_id (snd entry) = fst entry) (Server.souls g);
  artifacts_keyed :
    Forall (fun entry => Server.artifact_id (snd entry) = fst entry) (Server.artifacts g);
  locations_keyed :
    forall id location,
      Server.locations g !! id = Some location -> Server.location_id location = id;
  souls_located :
    Forall (fun entry =>
              is_Some (Server.locations g
                         !! Js.to_text (Server.soul_locationId (snd entry))))
      (Server.souls g);
  inventories_exist :
    Forall (fun entry =>
              Forall (fun artifactId =>
                        is_Some (Server.table_get (Js.to_text artifactId)
                                   (Server.artifacts g)))
                (Server.soul_inventory (snd entry)))
      (Server.souls g);
  exits_exist :
    forall id location direction target,
      Server.locations g !! id = Some location ->
      Server.location_exits location !! direction = Some target ->
      is_Some (Server.locations g !! Js.to_text target);
  log_bounded : length (Server.worldLog g) <= 50
}.

(** The value that the parameters give under [key] names no member of
    [Object.prototype]. *)
Definition plain_id (params : JsValue) (key : string) : bool :=
  match params with
  | JsData p =>
      match Js.own_property p key with
      | JsData id => negb (Js.Object_prototype_member (Js.to_text id))
      | JsUndefined => true
      end
  | JsUndefined => true
  end.

(** No identifier that a game logic function stores (the location of a
    soul, the destination of an exit, the artifact of an inventory) names a
    member of [Object.prototype]. *)
Definition plain_ids (params : JsValue) : bool :=
  forallb (plain_id params)
    [ "locationId"; "toLocationId"; "artifactId"; "targetLocationId" ].

(** The value that the parameters give under [key] renders. *)
Definition param_renders (params : JsValue) (key : string) : bool :=
  match params with
  | JsData p =>
      match Js.own_property p key with
      | JsData v => Js.renders v
      | JsUndefined => true
      end
  | JsUndefined => true
  end.

(** Every name that a message of a game logic function mentions renders:
    the [name] and [linkedToolName] of the parameters, the names of the
    souls and of the artifacts of the game. *)
Definition names_render (params : JsValue) (g : Server.GameState) : bool :=
  param_renders params "name" && param_renders params "linkedToolName"
  && forallb (fun entry => Js.renders (Server.soul_name (snd entry))) (Server.souls g)
  && forallb (fun entry => Js.renders (Server.artifact_name (snd entry)))
       (Server.artifacts g).

(** The six game logic functions, [uuid] being the answer of [uuidv4]. *)
Definition game_commands (uuid : string)
    : list (JsValue -> Server.GameState
            -> option (Server.Result string * Server.GameState)) :=
  [ Server._internal_create_soul uuid; Server._internal_create_location;
    Server._internal_link_exit; Server._internal_create_artifact uuid;
    Server._internal_give_artifact_to_soul; Server._internal_move_soul ].

(** The names that [processInitialPrompt] routes to the game logic
    functions. *)
Definition bootstrap_names : list string :=
  [ "create_soul"; "create_location"; "link_exit"; "create_artifact";
    "give_artifact_to_soul"; "move_soul" ].

(** Upper-case letters of ASCII. *)
Definition is_upper (c : ascii) : bool :=
  let n := nat_of_ascii c in (65 <=? n) && (n <=? 90).

(** The text reports a failure or a warning. *)
Definition alarming (s : string) : bool :=
  Text.startsWith "Error:" s || Text.startsWith "Warning:" s.

(** *** A village: two locations without an exit, a soul, an artifact *)

Module Village.
Import Server.

Definition aria : string := "11111111-1111-4111-8111-111111111111".
Definition stone : string := "22222222-2222-4222-8222-222222222222".

(** The state after a command, the state itself when the command is outside
    the model. *)
Definition after (run : GameState -> option (Result string * GameState))
    (g : GameState) : GameState :=
  match run g with
  | Some (_, g') => g'
  | None => g
  end.

Definition town_square : JsValue :=
  JsData (JObj [ ("name", JStr "Town Square");
                 ("description", JStr "The heart of the village") ]).

Definition old_mill : JsValue :=
  JsData (JObj [ ("name", JStr "Old  Mill");
                 ("description", JStr "A mill by the river") ]).

Definition new_soul : JsValue :=
  JsData (JObj [ ("name", JStr "Aria"); ("locationId", JStr "town_square") ]).

Definition new_artifact : JsValue :=
  JsData (JObj [ ("name", JStr "Greeting Stone");
                 ("description", JStr "A stone that greets");
                 ("linkedToolName", JStr "greet_soul") ]).

Definition gift : JsValue :=
  JsData (JObj [ ("soulId", JStr aria); ("artifactId", JStr stone) ]).

Definition path : JsValue :=
  JsData (JObj [ ("fromLocationId", JStr "town_square"); ("direction", JStr "North");
                 ("toLocationId", JStr "old_mill") ]).

Definition journey : JsValue :=
  JsData (JObj [ ("soulId", JStr aria); ("targetLocationId", JStr "old_mill") ]).

Definition founded : GameState :=
  after (_internal_create_location old_mill)
    (after (_internal_create_location town_square) gameState).

Definition settled : GameState :=
  after (_internal_create_artifact stone new_artifact)
    (after (_internal_create_soul aria new_soul) founded).

Definition equipped : GameState :=
  after (_internal_give_artifact_to_soul gift) settled.

(** What a client sends to use the stone, giving a name and another soul. *)
Definition use_stone : JsValue :=
  JsData (JObj [ ("artifactId", JStr stone);
                 ("args", JObj [ ("name", JStr "Bram"); ("soulId", JStr "someone-else") ]) ]).

(** The server with the village and the store of the [greet_soul]
    scenario. *)
Definition server : ServerState Scenario.Vec :=
  mkServer equipped Scenario.greet_world [].

End Village.


(** The report that the [catch] clause of [performAction] sends. *)
Definition critical_report : Server.Emit := Server.critical.


(** What the [switch] of [processInitialPrompt] makes of a settled promise:
    [await] yields the value or throws. *)
Definition awaited (settled : Settled) : Server.Result ToolValue :=
  match settled with
  | Fulfilled v => Server.Value v
  | Rejected _ => Server.Throws
  end.

(** * Properties *)

Import Text Sanitize Js Prompt Manager.

(** ** Scenario A and B of the specification, by evaluation *)

Example scenario_create :
  fst (createTool Scenario.platform (JsData (JStr "greet_soul"))
         (JsData (JStr "Return a greeting for a soul name"))
         (JsData Scenario.greet_schema) Scenario.empty_world)
  = Returned "Successfully created tool: greet_soul".
Proof. vm_compute. reflexivity. Qed.

Example scenario_execute :
  fst (executeTool Scenario.platform "greet_soul"
         (JsData (JObj [("name", JStr "Aria")])) Scenario.greet_world)
  = Returned (Fulfilled (string_value "Hello, Aria")).
Proof. vm_compute. reflexivity. Qed.

Example scenario_missing_argument :
  fst (executeTool Scenario.platform "greet_soul" (JsData (JObj [])) Scenario.greet_world)
  = Returned (Fulfilled (string_value "Error: Failed to execute tool greet_soul. Malformed code or unexpected runtime error. Missing required parameter 'name' for tool greet_soul.")).
Proof. vm_compute. reflexivity. Qed.

Example scenario_unknown :
  fst (executeTool Scenario.platform "does_not_exist" (JsData (JObj [])) Scenario.greet_world)
  = Returned (Fulfilled (string_value "Error: Tool 'does_not_exist' not found or definition is corrupted.")).
Proof. vm_compute. reflexivity. Qed.

(** A tool that throws [null]: the clause inside the wrapper throws in its
    turn, and the outer clause of [executeTool] answers. *)
Example scenario_throws_null :
  fst (executeTool Scenario.throwing "greet_soul"
         (JsData (JObj [("name", JStr "Aria")])) Scenario.greet_world)
  = Returned (Fulfilled (string_value "Error: Failed to execute tool greet_soul. Malformed code or unexpected runtime error. Cannot read properties of null (reading 'message')")).
Proof. vm_compute. reflexivity. Qed.

(** The reserved tool with a schema that has no [type]: the exception of
    [createTool] is turned into a text by [executeTool]. *)
Example scenario_untyped_schema :
  fst (executeTool Scenario.platform "tool_creation"
         (JsData (JObj [ ("new_tool_name", JStr "greet_soul");
                         ("new_tool_description", JStr "Return a greeting for a soul name");
                         ("new_tool_parameters", JObj []) ]))
         Scenario.empty_world)
  = Returned (Fulfilled (string_value "Error: Failed to execute tool_creation. Invalid parameters schema provided for new tool creation.")).
Proof. vm_compute. reflexivity. Qed.

Example scenario_listing :
  fst (getAvailableTools Scenario.platform "greeting" 5 Scenario.greet_world)
  = Returned [ TOOL_CREATION_TOOL_DEFINITION;
               mkDescriptor "greet_soul" "Return a greeting for a soul name"
                 Scenario.greet_schema ].
Proof. vm_compute. reflexivity. Qed.

Example sanitize_fenced :
  sanitizeGeneratedCode
    ("```javascript" +:+ nl +:+ "function greet(params) { return 'hi'; }" +:+ nl +:+ "```")
    "greet"
  = "function greet(params) { return 'hi'; }".
Proof. vm_compute. reflexivity. Qed.

Example json_roundtrip_tool_creation :
  RefJSON.parse (RefJSON.stringify (parameters TOOL_CREATION_TOOL_DEFINITION))
  = Returned (parameters TOOL_CREATION_TOOL_DEFINITION).
Proof. vm_compute. reflexivity. Qed.

(** ** The reference JSON round-trips *)

Module RefJSONFacts.
Import RefJSON.


Lemma app_cons (x : ascii) (a b : string) : String x a +:+ b = String x (a +:+ b).
Proof. reflexivity. Qed.

Lemma app_nil_l (a : string) : "" +:+ a = a.
Proof. reflexivity. Qed.

Lemma app_assoc (a b c : string) : (a +:+ b) +:+ c = a +:+ (b +:+ c).
Proof.
  induction a as [|x a IH]; [reflexivity|]. rewrite !app_cons. now rewrite IH.
Qed.

Lemma app_nil_r (a : string) : a +:+ "" = a.
Proof.
  induction a as [|x a IH]; [reflexivity|]. rewrite app_cons. now rewrite IH.
Qed.

Lemma length_app (a b : string) :
  String.length (a +:+ b) = String.length a + String.length b.
Proof.
  induction a as [|x a IH]; [reflexivity|]. rewrite app_cons. simpl. now rewrite IH.
Qed.


(** *** String literals *)






(** *** Numbers *)









(** *** Values *)
















End RefJSONFacts.

(** ** Text *)

Lemma eqb_false_ne (a b : string) : String.eqb a b = false -> a <> b.
Proof. intros H ->. rewrite String.eqb_refl in H. discriminate. Qed.

Lemma present_Some (f : option string) :
  present f = true -> exists s, f = Some s /\ s <> "".
Proof.
  destruct f as [s|]; simpl; [|discriminate].
  intros H. exists s. split; [reflexivity|].
  apply eqb_false_ne. now apply negb_true_iff.
Qed.

(** ** getAvailableTools *)

Section Resolver.
Context {Embedding : Type} (P : Platform Embedding).

(** The listing, without the world. *)
Lemma getAvailableTools_result (contextQuery : string) (count : nat)
    (w : World Embedding) :
  fst (getAvailableTools P contextQuery count w) =
  Returned
    match embedQuery P contextQuery with
    | Returned embedding =>
        match collection_query P (collection w) embedding count with
        | Returned (Some r) =>
            match qr_ids r with
            | Some (first :: _) =>
                match available_loop P first 0 r with
                | Returned more => TOOL_CREATION_TOOL_DEFINITION :: more
                | Raised _ => [TOOL_CREATION_TOOL_DEFINITION]
                end
            | _ => [TOOL_CREATION_TOOL_DEFINITION]
            end
        | _ => [TOOL_CREATION_TOOL_DEFINITION]
        end
    | Raised _ => [TOOL_CREATION_TOOL_DEFINITION]
    end.
Proof.
  unfold getAvailableTools, try_catch, bind, embed, query, lift, log, ret. simpl.
  destruct (embedQuery P contextQuery) as [embedding|e]; simpl; [|reflexivity].
  destruct (collection_query P (collection w) embedding count) as [[r|]|e];
    simpl; try reflexivity.
  destruct (qr_ids r) as [[|first others]|]; simpl; try reflexivity.
  destruct (available_loop P first 0 r) as [more|e]; reflexivity.
Qed.

(** A descriptor produced by one round of the loop comes from a result
    that is not the reserved tool and whose metadata is complete and
    parses. *)
Lemma available_entry_Some (toolId : string) (i : nat) (r : QueryResult)
    (t : ToolDescriptor) :
  available_entry P toolId i r = Returned (Some t) ->
  toolId <> reserved /\
  exists row rows md pj,
    qr_metadatas r = Some (row :: rows) /\ nth_error row i = Some (Some md) /\
    md_name md = Some (name t) /\ name t <> "" /\
    md_description md = Some (description t) /\ description t <> "" /\
    md_parameters_json md = Some pj /\ pj <> "" /\
    JSON_parse P pj = Returned (parameters t).
Proof.
  unfold available_entry, reserved.
  destruct (String.eqb toolId (name TOOL_CREATION_TOOL_DEFINITION)) eqn:Hid;
    [discriminate|].
  apply eqb_false_ne in Hid. intros H. split; [exact Hid|].
  destruct (qr_metadatas r) as [[|row rows]|]; try discriminate.
  destruct (nth_error row i) as [[md|]|] eqn:Hrow; try discriminate.
  destruct (md_name md) as [n|] eqn:Hn; try discriminate.
  destruct (md_description md) as [d|] eqn:Hd; try discriminate.
  destruct (md_parameters_json md) as [pj|] eqn:Hpj; try discriminate.
  destruct (present (Some n) && present (Some d) && present (Some pj)) eqn:Hp;
    [|discriminate].
  apply andb_true_iff in Hp as [Hp Hp3]. apply andb_true_iff in Hp as [Hp1 Hp2].
  apply present_Some in Hp1 as (? & [= <-] & Hn').
  apply present_Some in Hp2 as (? & [= <-] & Hd').
  apply present_Some in Hp3 as (? & [= <-] & Hpj').
  destruct (JSON_parse P pj) as [schema|e] eqn:Hparse; [|discriminate].
  injection H as <-. simpl.
  exists row, rows, md, pj. repeat split; assumption.
Qed.

(** One round never throws once the row of metadata exists. *)
Lemma available_entry_total (toolId : string) (i : nat) (r : QueryResult)
    (row : list (option Metadata)) (rows : list (list (option Metadata))) :
  qr_metadatas r = Some (row :: rows) ->
  exists found, available_entry P toolId i r = Returned found.
Proof.
  intros Hrow. unfold available_entry. rewrite Hrow.
  repeat (case_match; eauto).
Qed.

Lemma available_loop_sound (r : QueryResult) (ids : list string) :
  forall (i : nat) (more : list ToolDescriptor),
    available_loop P ids i r = Returned more ->
    forall t, In t more ->
      exists j id, nth_error ids j = Some id /\
                   available_entry P id (i + j) r = Returned (Some t).
Proof.
  induction ids as [|toolId rest IH]; simpl; intros i more H t Ht.
  - injection H as <-. destruct Ht.
  - destruct (available_entry P toolId i r) as [found|e] eqn:Hentry; [|discriminate].
    destruct (available_loop P rest (S i) r) as [more'|e] eqn:Hloop; [|discriminate].
    injection H as <-.
    assert (Hrest : In t more' -> exists j id, nth_error (toolId :: rest) j = Some id /\
                      available_entry P id (i + j) r = Returned (Some t)).
    { intros Hin. destruct (IH _ _ Hloop _ Hin) as (j & id & Hj & He).
      exists (S j), id. split; [exact Hj|].
      replace (i + S j) with (S i + j) by lia. exact He. }
    destruct found as [t'|]; [|auto].
    destruct Ht as [<-|Hin]; [|auto].
    exists 0, toolId. split; [reflexivity|].
    replace (i + 0) with i by lia. exact Hentry.
Qed.

Lemma available_loop_complete (r : QueryResult) (ids : list string) :
  forall (i : nat) (more : list ToolDescriptor),
    available_loop P ids i r = Returned more ->
    forall j id t, nth_error ids j = Some id ->
      available_entry P id (i + j) r = Returned (Some t) -> In t more.
Proof.
  induction ids as [|toolId rest IH]; simpl; intros i more H j id t Hj He.
  - destruct j; discriminate.
  - destruct (available_entry P toolId i r) as [found|e] eqn:Hentry; [|discriminate].
    destruct (available_loop P rest (S i) r) as [more'|e] eqn:Hloop; [|discriminate].
    injection H as <-.
    destruct j as [|j]; simpl in Hj.
    + injection Hj as ->. replace (i + 0) with i in He by lia.
      rewrite Hentry in He. injection He as ->. now left.
    + replace (i + S j) with (S i + j) in He by lia.
      pose proof (IH _ _ Hloop _ _ _ Hj He) as Hin.
      destruct found; [now right|exact Hin].
Qed.

Lemma available_loop_total (r : QueryResult) (row : list (option Metadata))
    (rows : list (list (option Metadata))) (ids : list string) :
  qr_metadatas r = Some (row :: rows) ->
  forall i, exists more, available_loop P ids i r = Returned more.
Proof.
  intros Hrow. induction ids as [|toolId rest IH]; simpl; intros i; [eauto|].
  destruct (available_entry_total toolId i r row rows Hrow) as [found ->].
  destruct (IH (S i)) as [more ->]. eauto.
Qed.

End Resolver.

(** ** Claims on getAvailableTools *)

(** C7.  When the embedding provider fails, or the query of the store
    fails, [getAvailableTools] does not raise: it returns the list whose only
    element is the descriptor of the reserved tool. *)
Theorem getAvailableTools_fails_soft {Embedding : Type} (P : Platform Embedding)
    (contextQuery : string) (count : nat) (w : World Embedding) :
  (exists e, embedQuery P contextQuery = Raised e) \/
  (exists embedding e,
     embedQuery P contextQuery = Returned embedding /\
     collection_query P (collection w) embedding count = Raised e) ->
  fst (getAvailableTools P contextQuery count w)
  = Returned [TOOL_CREATION_TOOL_DEFINITION].
Proof.
  intros H. rewrite getAvailableTools_result.
  destruct H as [[e ->]|(embedding & e & -> & ->)]; reflexivity.
Qed.

Lemma getAvailableTools_fails_soft_witness :
  fst (getAvailableTools Scenario.offline "greeting" 5 Scenario.greet_world)
  = Returned [TOOL_CREATION_TOOL_DEFINITION].
Proof.
  apply (getAvailableTools_fails_soft Scenario.offline "greeting" 5 Scenario.greet_world).
  left. exists (mkError "fetch failed"). reflexivity.
Defined.

(** C5.  For every context and every [count], the listing starts with the
    static descriptor of the reserved tool, and every later element was
    produced from a result of the query whose id is not the reserved name:
    results with the reserved id are skipped.  So, for a store that answers
    with records kept under their own name, no later element carries the
    reserved name: the reserved tool is listed exactly once. *)
Theorem getAvailableTools_reserved_first_once {Embedding : Type}
    (P : Platform Embedding) (contextQuery : string) (count : nat)
    (w : World Embedding) :
  exists rest,
    fst (getAvailableTools P contextQuery count w)
    = Returned (TOOL_CREATION_TOOL_DEFINITION :: rest) /\
    (forall t, In t rest ->
       exists embedding r first others i id,
         embedQuery P contextQuery = Returned embedding /\
         collection_query P (collection w) embedding count = Returned (Some r) /\
         qr_ids r = Some (first :: others) /\
         nth_error first i = Some id /\ id <> reserved /\
         available_entry P id i r = Returned (Some t)) /\
    ((forall embedding r,
        embedQuery P contextQuery = Returned embedding ->
        collection_query P (collection w) embedding count = Returned (Some r) ->
        keyed_by_name r) ->
     forall t, In t rest -> name t <> reserved).
Proof.
  rewrite getAvailableTools_result.
  assert (Hnone : exists rest : list ToolDescriptor,
    Returned (A:=list ToolDescriptor) [TOOL_CREATION_TOOL_DEFINITION]
    = Returned (TOOL_CREATION_TOOL_DEFINITION :: rest) /\
    (forall t, In t rest ->
       exists embedding r first others i id,
         embedQuery P contextQuery = Returned embedding /\
         collection_query P (collection w) embedding count = Returned (Some r) /\
         qr_ids r = Some (first :: others) /\
         nth_error first i = Some id /\ id <> reserved /\
         available_entry P id i r = Returned (Some t)) /\
    ((forall embedding r,
        embedQuery P contextQuery = Returned embedding ->
        collection_query P (collection w) embedding count = Returned (Some r) ->
        keyed_by_name r) ->
     forall t, In t rest -> name t <> reserved)).
  { exists []. split; [reflexivity|]. split; [intros t []|intros _ t []]. }
  destruct (embedQuery P contextQuery) as [embedding|e] eqn:Hembed; [|exact Hnone].
  destruct (collection_query P (collection w) embedding count) as [[r|]|e] eqn:Hquery;
    try exact Hnone.
  destruct (qr_ids r) as [[|first others]|] eqn:Hids; try exact Hnone.
  destruct (available_loop P first 0 r) as [more|e] eqn:Hloop; [|exact Hnone].
  clear Hnone. exists more. split; [reflexivity|].
  assert (Hfrom : forall t, In t more ->
            exists i id, nth_error first i = Some id /\ id <> reserved /\
                         available_entry P id i r = Returned (Some t)).
  { intros t Ht.
    destruct (available_loop_sound P r first 0 more Hloop t Ht) as (j & id & Hj & Hentry).
    exists j, id. split; [exact Hj|]. split; [|exact Hentry].
    apply available_entry_Some in Hentry as [Hid _]. exact Hid. }
  split.
  - intros t Ht. destruct (Hfrom t Ht) as (i & id & Hi & Hid & Hentry).
    exists embedding, r, first, others, i, id.
    split; [reflexivity|]. split; [exact Hquery|]. split; [exact Hids|].
    split; [exact Hi|]. split; [exact Hid|exact Hentry].
  - intros Hkeyed t Ht. destruct (Hfrom t Ht) as (i & id & Hi & Hid & Hentry).
    apply available_entry_Some in Hentry
      as (_ & row & rows & md & pj & Hrows & Hmd & Hname & _).
    pose proof (Hkeyed _ _ eq_refl Hquery _ _ _ _ _ _ _ Hids Hrows Hi Hmd) as Hkey.
    rewrite Hname in Hkey. injection Hkey as ->. exact Hid.
Qed.

Lemma getAvailableTools_reserved_first_once_witness :
  fst (getAvailableTools Scenario.platform "greeting" 5 Scenario.greet_world)
  = Returned [ TOOL_CREATION_TOOL_DEFINITION;
               mkDescriptor "greet_soul" "Return a greeting for a soul name"
                 Scenario.greet_schema ] /\
  name (mkDescriptor "greet_soul" "Return a greeting for a soul name"
          Scenario.greet_schema) <> reserved.
Proof.
  assert (Hvalue :
    fst (getAvailableTools Scenario.platform "greeting" 5 Scenario.greet_world)
    = Returned [ TOOL_CREATION_TOOL_DEFINITION;
                 mkDescriptor "greet_soul" "Return a greeting for a soul name"
                   Scenario.greet_schema ])
    by (vm_compute; reflexivity).
  destruct (getAvailableTools_reserved_first_once Scenario.platform "greeting" 5
              Scenario.greet_world) as (rest & Hlisting & _ & Hnames).
  rewrite Hvalue in Hlisting. injection Hlisting as <-.
  split; [exact Hvalue|].
  apply Hnames; [|left; reflexivity].
  clear Hvalue Hnames.
  intros embedding r _ Hquery. vm_compute in Hquery. injection Hquery as <-.
  intros first others row rows i id md Hids Hrows Hi Hmd.
  injection Hids as <- <-. injection Hrows as <- <-.
  destruct i as [|[|i]]; simpl in Hi, Hmd; try discriminate.
  injection Hi as <-. injection Hmd as <-. reflexivity.
Defined.

(** C10.  Every element after the reserved descriptor comes from a result of
    the query whose metadata has a non-empty name, description and
    serialized schema, the schema of the element being that text parsed; and
    a result whose metadata is incomplete or does not parse is left out
    without an error: the complete results around it are all listed. *)
Theorem getAvailableTools_lists_well_formed {Embedding : Type}
    (P : Platform Embedding) (contextQuery : string) (count : nat)
    (w : World Embedding) :
  exists rest,
    fst (getAvailableTools P contextQuery count w)
    = Returned (TOOL_CREATION_TOOL_DEFINITION :: rest) /\
    (forall t, In t rest ->
       name t <> "" /\ description t <> "" /\
       exists embedding r row rows i md pj,
         embedQuery P contextQuery = Returned embedding /\
         collection_query P (collection w) embedding count = Returned (Some r) /\
         qr_metadatas r = Some (row :: rows) /\
         nth_error row i = Some (Some md) /\
         md_name md = Some (name t) /\
         md_description md = Some (description t) /\
         md_parameters_json md = Some pj /\
         JSON_parse P pj = Returned (parameters t)) /\
    (forall embedding r first others row rows i id md n d pj schema,
       embedQuery P contextQuery = Returned embedding ->
       collection_query P (collection w) embedding count = Returned (Some r) ->
       qr_ids r = Some (first :: others) ->
       qr_metadatas r = Some (row :: rows) ->
       nth_error first i = Some id -> id <> reserved ->
       nth_error row i = Some (Some md) ->
       md_name md = Some n -> n <> "" ->
       md_description md = Some d -> d <> "" ->
       md_parameters_json md = Some pj -> pj <> "" ->
       JSON_parse P pj = Returned schema ->
       In (mkDescriptor n d schema) rest).
Proof.
  rewrite getAvailableTools_result.
  assert (Hnone :
    (forall embedding r first others,
       embedQuery P contextQuery = Returned embedding ->
       collection_query P (collection w) embedding count = Returned (Some r) ->
       qr_ids r = Some (first :: others) -> False) ->
    exists rest : list ToolDescriptor,
      Returned (A:=list ToolDescriptor) [TOOL_CREATION_TOOL_DEFINITION]
      = Returned (TOOL_CREATION_TOOL_DEFINITION :: rest) /\
      (forall t, In t rest ->
         name t <> "" /\ description t <> "" /\
         exists embedding r row rows i md pj,
           embedQuery P contextQuery = Returned embedding /\
           collection_query P (collection w) embedding count = Returned (Some r) /\
           qr_metadatas r = Some (row :: rows) /\
           nth_error row i = Some (Some md) /\
           md_name md = Some (name t) /\
           md_description md = Some (description t) /\
           md_parameters_json md = Some pj /\
           JSON_parse P pj = Returned (parameters t)) /\
      (forall embedding r first others row rows i id md n d pj schema,
         embedQuery P contextQuery = Returned embedding ->
         collection_query P (collection w) embedding count = Returned (Some r) ->
         qr_ids r = Some (first :: others) ->
         qr_metadatas r = Some (row :: rows) ->
         nth_error first i = Some id -> id <> reserved ->
         nth_error row i = Some (Some md) ->
         md_name md = Some n -> n <> "" ->
         md_description md = Some d -> d <> "" ->
         md_parameters_json md = Some pj -> pj <> "" ->
         JSON_parse P pj = Returned schema ->
         In (mkDescriptor n d schema) rest)).
  { intros Hno. exists []. split; [reflexivity|]. split; [intros t []|].
    intros embedding r first others row rows i id md n d pj schema He Hq Hi.
    destruct (Hno _ _ _ _ He Hq Hi). }
  destruct (embedQuery P contextQuery) as [embedding|e] eqn:Hembed;
    [|apply Hnone; intros; discriminate].
  destruct (collection_query P (collection w) embedding count) as [[r|]|e] eqn:Hquery;
    try (apply Hnone; intros; congruence).
  destruct (qr_ids r) as [[|first others]|] eqn:Hids;
    try (apply Hnone; intros; congruence).
  clear Hnone.
  destruct (available_loop P first 0 r) as [more|e] eqn:Hloop.
  - exists more. split; [reflexivity|]. split.
    + intros t Ht.
      destruct (available_loop_sound P r first 0 more Hloop t Ht) as (j & id & Hj & Hentry).
      apply available_entry_Some in Hentry
        as (_ & row & rows & md & pj & Hrows & Hmd & Hn & Hn' & Hd & Hd' & Hpj & _ & Hparse).
      repeat split; try assumption.
      exists embedding, r, row, rows, (0 + j), md, pj. repeat split; assumption.
    + intros embedding' r' first' others' row rows i id md n d pj schema
        [= <-] Hquery' Hids' Hrows Hi Hid Hmd Hn Hn' Hd Hd' Hpj Hpj' Hparse.
      rewrite Hquery in Hquery'. injection Hquery' as <-.
      rewrite Hids in Hids'. injection Hids' as <- <-.
      apply (available_loop_complete P r first 0 more Hloop i id); [exact Hi|].
      unfold available_entry. replace (0 + i) with i by lia.
      destruct (String.eqb id (name TOOL_CREATION_TOOL_DEFINITION)) eqn:Heq.
      { apply String.eqb_eq in Heq. contradiction. }
      rewrite Hrows, Hmd, Hn, Hd, Hpj. simpl.
      apply String.eqb_neq in Hn'. apply String.eqb_neq in Hd'.
      apply String.eqb_neq in Hpj'. rewrite Hn', Hd', Hpj'. simpl.
      rewrite Hparse. reflexivity.
  - exists []. split; [reflexivity|]. split; [intros t []|].
    intros embedding' r' first' others' row rows i id md n d pj schema
      [= <-] Hquery' Hids' Hrows.
    rewrite Hquery in Hquery'. injection Hquery' as <-.
    rewrite Hids in Hids'. injection Hids' as <- <-.
    destruct (available_loop_total P r row rows first Hrows 0) as [more Hmore].
    congruence.
Qed.

(** ** createTool *)

Section Registrar.
Context {Embedding : Type} (P : Platform Embedding).

Lemma generate_and_validate_world (toolName prompt : string) (w : World Embedding) :
  collection (snd (generate_and_validate P toolName prompt w)) = collection w /\
  toolsCache (snd (generate_and_validate P toolName prompt w)) = toolsCache w.
Proof.
  unfold generate_and_validate, bind, lift, log, raise, ret. simpl.
  destruct (chat_completion P prompt) as [content|e]; simpl; [|auto].
  repeat (case_match; simpl; auto).
Qed.

Lemma generate_and_validate_Returned (toolName prompt code : string)
    (w w' : World Embedding) :
  generate_and_validate P toolName prompt w = (Returned code, w') ->
  has_signature toolName code = true /\ new_Function P code = None /\
  exists content,
    chat_completion P prompt = Returned (Some content) /\
    trim content <> "" /\
    code = sanitizeGeneratedCode (trim content) toolName.
Proof.
  unfold generate_and_validate, bind, lift, log, raise, ret. simpl.
  destruct (chat_completion P prompt) as [content|e]; simpl; [|discriminate].
  destruct (String.eqb _ "") eqn:Hempty; [discriminate|].
  destruct (has_signature toolName _) eqn:Hsig; simpl; [|discriminate].
  destruct (new_Function P _) eqn:Hsyntax; [discriminate|].
  intros [= <- _].
  destruct content as [content|]; [|discriminate].
  split; [exact Hsig|]. split; [exact Hsyntax|].
  exists content. split; [reflexivity|]. split; [|reflexivity].
  now apply String.eqb_neq.
Qed.

(** What [store_tool] does, by cases on the store. *)
Lemma store_tool_cases (toolName toolDescription : string) (schema : json)
    (code : string) (w : World Embedding) :
  let r := try_catch (store_tool P toolName toolDescription schema code)
             (store_failed toolName) w in
  (collection (snd r) = collection w /\
   ((exists e, fst r = Returned ("Error: Failed to store tool " +:+ toolName
                          +:+ " in database. " +:+ message e)) \/
    (fst r = Returned ("Warning: Tool '" +:+ toolName +:+ "' already existed. Creation skipped.")
     /\ is_Some (collection w !! toolName) /\ get_fault P toolName = None
     /\ effects (snd r) = effects w ++ [EffStoreGet toolName]))) \/
  (exists embedding,
     fst r = Returned ("Successfully created tool: " +:+ toolName) /\
     collection w !! toolName = None /\
     get_fault P toolName = None /\
     collection (snd r) =
       <[toolName := mkEntry embedding
            (new_metadata P toolName toolDescription schema code)
            ("Tool definition for " +:+ toolName +:+ ": " +:+ toolDescription)]>
         (collection w)).
Proof.
  unfold store_tool, store_failed, try_catch, bind, collection_get, embed, collection_add,
    cache_delete, lift, log, ret. simpl.
  destruct (get_fault P toolName) as [e|] eqn:Hget; simpl.
  { left. split; [reflexivity|]. left. eauto. }
  destruct (collection w !! toolName) as [entry|] eqn:Hlookup; simpl.
  { left. split; [reflexivity|]. right. repeat split; eauto. }
  destruct (embedQuery P _) as [embedding|e] eqn:Hembed; simpl.
  2:{ left. split; [reflexivity|]. left. eauto. }
  destruct (add_fault P toolName) as [e|] eqn:Hadd; simpl.
  { left. split; [reflexivity|]. left. eauto. }
  right. exists embedding. repeat split; reflexivity.
Qed.


(** [createTool] either rejects the request before any effect, or
    generates, validates and stores. *)
Lemma createTool_cases (n d p : JsValue) (w : World Embedding) :
  (snd (createTool P n d p w) = w /\
   ((exists s, fst (createTool P n d p w) = Returned s /\ startsWith "Error:" s = true) \/
    (exists e, fst (createTool P n d p w) = Raised e /\
       (value_to_string n = Raised e \/
        exists toolName toolDescription,
          n = JsData (JStr toolName) /\ d = JsData (JStr toolDescription) /\
          generateToolCreationPrompt P toolName toolDescription p = Raised e)))) \/
  (exists toolName toolDescription schema prompt,
     n = JsData (JStr toolName) /\ d = JsData (JStr toolDescription) /\
     p = JsData schema /\ is_identifier toolName = true /\
     generateToolCreationPrompt P toolName toolDescription p = Returned prompt /\
     createTool P n d p w =
     match generate_and_validate P toolName prompt w with
     | (Returned code, w1) =>
         try_catch (store_tool P toolName toolDescription schema code)
           (store_failed toolName) w1
     | (Raised e, w1) =>
         (Returned (generation_failed toolName e), w1)
     end).
Proof.
  unfold createTool. unfold bind at 1, lift at 1.
  destruct (value_to_string n) as [rendered|e] eqn:Hrender.
  2:{ left. split; [reflexivity|]. right. exists e. split; [reflexivity|]. now left. }
  destruct (negb (truthy n) || negb (truthy d) || negb (truthy p)) eqn:Hmissing.
  { left. split; [reflexivity|]. left. eexists. split; reflexivity. }
  destruct n as [|[| | | |toolName| |]];
    try (left; split; [reflexivity|left; eexists; split; reflexivity]).
  destruct d as [|[| | | |toolDescription| |]];
    try (left; split; [reflexivity|left; eexists; split; reflexivity]).
  destruct p as [|schema];
    try (left; split; [reflexivity|left; eexists; split; reflexivity]).
  destruct (negb (String.eqb (typeof (JsData schema)) "object")) eqn:Htype.
  { left. split; [reflexivity|]. left. eexists. split; reflexivity. }
  destruct (negb (is_identifier toolName)) eqn:Hident.
  { left. split; [reflexivity|]. left. eexists. split; reflexivity. }
  apply negb_false_iff in Hident.
  unfold bind, lift, try_catch, ret.
  destruct (generateToolCreationPrompt P toolName toolDescription (JsData schema))
    as [prompt|e] eqn:Hprompt.
  2:{ left. split; [reflexivity|]. right. exists e. split; [reflexivity|]. right. eauto. }
  right. exists toolName, toolDescription, schema, prompt.
  repeat split; try assumption.
  destruct (generate_and_validate P toolName prompt w) as [[code|e] w1]; reflexivity.
Qed.
End Registrar.

Lemma has_signature_nonempty (toolName code : string) :
  has_signature toolName code = true -> code <> "".
Proof. intros H ->. discriminate H. Qed.

Lemma generate_and_validate_effects {Embedding : Type} (P : Platform Embedding)
    (toolName prompt : string) (w : World Embedding) :
  exists extra,
    effects (snd (generate_and_validate P toolName prompt w)) = effects w ++ extra /\
    Forall registrar_effect extra.
Proof.
  unfold generate_and_validate, bind, lift, log, raise, ret. simpl.
  destruct (chat_completion P prompt) as [content|e]; simpl;
    [|eexists; split; [reflexivity|repeat constructor]].
  destruct (String.eqb _ ""); simpl;
    [eexists; split; [reflexivity|repeat constructor]|].
  destruct (negb _); simpl;
    [eexists; split; [reflexivity|repeat constructor]|].
  destruct (new_Function P _); simpl; rewrite <- app_assoc;
    eexists; split; try reflexivity; repeat constructor.
Qed.

Lemma store_tool_effects {Embedding : Type} (P : Platform Embedding)
    (toolName toolDescription : string) (schema : json) (code : string)
    (w : World Embedding) :
  exists extra,
    effects (snd (try_catch (store_tool P toolName toolDescription schema code)
                    (store_failed toolName) w)) = effects w ++ extra /\
    Forall registrar_effect extra.
Proof.
  unfold store_tool, store_failed, try_catch, bind, collection_get, embed,
    collection_add, cache_delete, lift, log, ret. simpl.
  destruct (get_fault P toolName); simpl;
    [eexists; split; [reflexivity|repeat constructor]|].
  destruct (collection w !! toolName); simpl;
    [eexists; split; [reflexivity|repeat constructor]|].
  destruct (embedQuery P _); simpl; rewrite <- ?app_assoc;
    [|eexists; split; [reflexivity|repeat constructor]].
  destruct (add_fault P toolName); simpl; rewrite <- ?app_assoc;
    eexists; split; try reflexivity; repeat constructor.
Qed.

(** [createTool] adds effects of the registrar only: it runs no code. *)
Lemma createTool_effects {Embedding : Type} (P : Platform Embedding)
    (n d p : JsValue) (w : World Embedding) :
  exists extra,
    effects (snd (createTool P n d p w)) = effects w ++ extra /\
    Forall registrar_effect extra.
Proof.
  destruct (createTool_cases P n d p w)
    as [[Hsame _]|(tn & td & sc & pr & -> & -> & -> & _ & _ & Hrun)].
  { exists []. rewrite Hsame, app_nil_r. split; [reflexivity|constructor]. }
  rewrite Hrun. clear Hrun.
  destruct (generate_and_validate_effects P tn pr w) as (extra1 & H1 & Hall1).
  destruct (generate_and_validate P tn pr w) as [[c|e] w1]; simpl in H1;
    [|exists extra1; auto].
  destruct (store_tool_effects P tn td sc c w1) as (extra2 & H2 & Hall2).
  exists (extra1 ++ extra2). rewrite H2, H1, app_assoc. split; [reflexivity|].
  apply Forall_app. auto.
Qed.

Lemma createTool_keeps_keyed {Embedding : Type} (P : Platform Embedding)
    (n d p : JsValue) (w : World Embedding) :
  collection_keyed (collection w) ->
  collection_keyed (collection (snd (createTool P n d p w))).
Proof.
  intros Hkeyed.
  destruct (createTool_cases P n d p w)
    as [[Hsame _]|(tn & td & sc & pr & -> & -> & -> & _ & _ & Hrun)].
  { now rewrite Hsame. }
  rewrite Hrun. clear Hrun.
  pose proof (generate_and_validate_world P tn pr w) as [Hcoll _].
  destruct (generate_and_validate P tn pr w) as [[c|e] w1]; simpl in Hcoll;
    [|simpl; now rewrite Hcoll].
  destruct (store_tool_cases P tn td sc c w1)
    as [[Hsame _]|(embedding & _ & _ & _ & Hins)].
  { now rewrite Hsame, Hcoll. }
  rewrite Hins, Hcoll. intros id entry.
  destruct (decide (tn = id)) as [<-|Hne].
  - rewrite lookup_insert_eq. intros [= <-]. reflexivity.
  - rewrite lookup_insert_ne by exact Hne. apply Hkeyed.
Qed.

(** After a normal end of [ensureToolCreationTool] the reserved record is
    in the collection, and a keyed collection stays keyed. *)
Lemma ensureToolCreationTool_establishes {Embedding : Type}
    (P : Platform Embedding) (w w' : World Embedding) (u : unit) :
  ensureToolCreationTool P w = (Returned u, w') ->
  is_Some (collection w' !! reserved) /\
  (collection_keyed (collection w) -> collection_keyed (collection w')).
Proof.
  assert (Hinsert : forall entry : Entry Embedding,
    md_name (entry_metadata entry) = Some reserved ->
    is_Some (<[reserved := entry]> (collection w) !! reserved) /\
    (collection_keyed (collection w) ->
     collection_keyed (<[reserved := entry]> (collection w)))).
  { intros entry Hname. split; [rewrite lookup_insert_eq; eauto|].
    intros Hkeyed id entry'. destruct (decide (reserved = id)) as [<-|Hne].
    - rewrite lookup_insert_eq. now intros [= <-].
    - rewrite lookup_insert_ne by exact Hne. apply Hkeyed. }
  unfold ensureToolCreationTool, try_catch, bind, collection_get, embed,
    collection_add, lift, log, raise, ret.
  change (name TOOL_CREATION_TOOL_DEFINITION) with reserved.
  destruct (get_fault P reserved) as [e|]; cbn [fst snd collection].
  - destruct (embedQuery P _) as [embedding|e']; [|discriminate].
    destruct (add_fault P reserved); [discriminate|].
    intros [= _ <-]. apply Hinsert. reflexivity.
  - destruct (collection w !! reserved) as [entry|] eqn:Hentry;
      cbn [gr_ids length Nat.ltb Nat.leb].
    + intros [= _ <-]. cbn [collection]. rewrite Hentry. eauto.
    + destruct (embedQuery P _) as [embedding|e']; [|discriminate].
      destruct (add_fault P reserved); [discriminate|].
      intros [= _ <-]. apply Hinsert. reflexivity.
Qed.

(** ** Claims on createTool *)

(** What [createTool] writes, and what it does when a check fails. *)
Lemma createTool_checks {Embedding : Type}
    (P : Platform Embedding) (n d p : JsValue) (w : World Embedding) :
  (forall id entry,
     collection (snd (createTool P n d p w)) !! id = Some entry ->
     collection w !! id = Some entry \/
     exists code,
       md_code (entry_metadata entry) = Some code /\
       has_signature id code = true /\ new_Function P code = None) /\
  (forall toolName toolDescription prompt content,
     n = JsData (JStr toolName) -> d = JsData (JStr toolDescription) ->
     generateToolCreationPrompt P toolName toolDescription p = Returned prompt ->
     chat_completion P prompt = Returned (Some content) ->
     has_signature toolName (sanitizeGeneratedCode (trim content) toolName) = false \/
     new_Function P (sanitizeGeneratedCode (trim content) toolName) <> None ->
     collection (snd (createTool P n d p w)) = collection w /\
     exists s, fst (createTool P n d p w) = Returned s /\ startsWith "Error:" s = true).
Proof.
  destruct (createTool_cases P n d p w)
    as [[Hsame Hres]|(toolName & toolDescription & schema & prompt & -> & -> & -> & Hident & Hprompt & Hrun)].
  - split.
    + intros id entry. rewrite Hsame. now left.
    + intros toolName toolDescription prompt content -> -> Hprompt _ _.
      rewrite Hsame. split; [reflexivity|].
      destruct Hres as [Hres|(e & _ & [Hrender|(tn & td & [= <-] & [= <-] & Hraised)])];
        [exact Hres|discriminate Hrender|].
      congruence.
  - rewrite Hrun.
    pose proof (generate_and_validate_world P toolName prompt w) as [Hcoll _].
    destruct (generate_and_validate P toolName prompt w) as [[code|e] w1] eqn:Hgen;
      simpl in Hcoll.
    + apply generate_and_validate_Returned in Hgen
        as (Hsig & Hsyntax & content & Hchat & _ & ->).
      split.
      * intros id entry.
        destruct (store_tool_cases P toolName toolDescription schema
                    (sanitizeGeneratedCode (trim content) toolName) w1)
          as [[Hsame _]|(embedding & _ & _ & _ & Hins)].
        { rewrite Hsame, Hcoll. now left. }
        rewrite Hins. destruct (decide (toolName = id)) as [<-|Hne].
        -- rewrite lookup_insert_eq. intros [= <-]. right. eexists.
           split; [reflexivity|]. split; assumption.
        -- rewrite lookup_insert_ne by exact Hne. rewrite Hcoll. now left.
      * intros tn td prompt' content' [= <-] [= <-] Hprompt' Hchat' Hfail.
        rewrite Hprompt in Hprompt'. injection Hprompt' as <-.
        rewrite Hchat in Hchat'. injection Hchat' as <-.
        destruct Hfail as [Hfail|Hfail]; congruence.
    + split.
      * intros id entry. simpl. rewrite Hcoll. now left.
      * intros. simpl. split; [exact Hcoll|]. eexists. split; reflexivity.
Qed.


(** C2.  Whatever [createTool] adds to the collection carries code that
    passed the signature check and the syntax check of [new Function]; when
    the sanitized text of the provider fails one of the two checks,
    [createTool] returns a text that starts with [Error:] and leaves the
    collection as it was; and the checks run no code: the effects of
    [createTool] are the calls of the provider, of [new Function] as a
    parser, of the embedder and of the store. *)
Theorem createTool_persists_only_validated_code {Embedding : Type}
    (P : Platform Embedding) (n d p : JsValue) (w : World Embedding) :
  (forall id entry,
     collection (snd (createTool P n d p w)) !! id = Some entry ->
     collection w !! id = Some entry \/
     exists code,
       md_code (entry_metadata entry) = Some code /\
       has_signature id code = true /\ new_Function P code = None) /\
  (forall toolName toolDescription prompt content,
     n = JsData (JStr toolName) -> d = JsData (JStr toolDescription) ->
     generateToolCreationPrompt P toolName toolDescription p = Returned prompt ->
     chat_completion P prompt = Returned (Some content) ->
     has_signature toolName (sanitizeGeneratedCode (trim content) toolName) = false \/
     new_Function P (sanitizeGeneratedCode (trim content) toolName) <> None ->
     collection (snd (createTool P n d p w)) = collection w /\
     exists s, fst (createTool P n d p w) = Returned s /\ startsWith "Error:" s = true) /\
  (exists extra,
     effects (snd (createTool P n d p w)) = effects w ++ extra /\
     Forall registrar_effect extra).
Proof.
  destruct (createTool_checks P n d p w) as [Hwritten Hfailed].
  split; [exact Hwritten|]. split; [exact Hfailed|]. apply createTool_effects.
Qed.

Lemma createTool_persists_only_validated_code_witness :
  collection (snd (createTool Scenario.platform (JsData (JStr "farewell"))
                     (JsData (JStr "Say goodbye")) (JsData Scenario.greet_schema)
                     Scenario.greet_world))
  = collection Scenario.greet_world /\
  exists s,
    fst (createTool Scenario.platform (JsData (JStr "farewell"))
           (JsData (JStr "Say goodbye")) (JsData Scenario.greet_schema)
           Scenario.greet_world) = Returned s /\
    startsWith "Error:" s = true.
Proof.
  apply (proj1 (proj2 (createTool_persists_only_validated_code Scenario.platform
                  (JsData (JStr "farewell")) (JsData (JStr "Say goodbye"))
                  (JsData Scenario.greet_schema) Scenario.greet_world))
           "farewell" "Say goodbye" "Write the function farewell: Say goodbye"
           ("```javascript" +:+ nl +:+ Scenario.greet_code +:+ nl +:+ "```")).
  - reflexivity.
  - reflexivity.
  - vm_compute. reflexivity.
  - reflexivity.
  - left. vm_compute. reflexivity.
Defined.

(** A request that passes the validation runs the generation and, when
    that succeeds, the storing. *)
Lemma createTool_accepted {Embedding : Type} (P : Platform Embedding)
    (toolName toolDescription : string) (schema : json) (prompt : string)
    (w : World Embedding) :
  toolDescription <> "" ->
  is_identifier toolName = true ->
  generateToolCreationPrompt P toolName toolDescription (JsData schema) = Returned prompt ->
  createTool P (JsData (JStr toolName)) (JsData (JStr toolDescription)) (JsData schema) w =
  match generate_and_validate P toolName prompt w with
  | (Returned code, w1) =>
      try_catch (store_tool P toolName toolDescription schema code)
        (store_failed toolName) w1
  | (Raised e, w1) => (Returned (generation_failed toolName e), w1)
  end.
Proof.
  intros Hdesc Hident Hprompt. unfold createTool.
  destruct (negb (truthy (JsData (JStr toolName)))
            || negb (truthy (JsData (JStr toolDescription)))
            || negb (truthy (JsData schema))) eqn:Hmissing.
  { exfalso. apply orb_true_iff in Hmissing as [Hmissing|Hmissing];
      [apply orb_true_iff in Hmissing as [Hmissing|Hmissing]|];
      apply negb_true_iff in Hmissing.
    - simpl in Hmissing. apply negb_false_iff, String.eqb_eq in Hmissing.
      subst toolName. discriminate Hident.
    - simpl in Hmissing. apply negb_false_iff, String.eqb_eq in Hmissing.
      contradiction.
    - unfold generateToolCreationPrompt in Hprompt. rewrite Hmissing in Hprompt.
      discriminate Hprompt. }
  destruct (negb (String.eqb (typeof (JsData schema)) "object")) eqn:Htype.
  { exfalso. unfold generateToolCreationPrompt in Hprompt. rewrite Htype in Hprompt.
    destruct (negb (truthy (JsData schema))); discriminate Hprompt. }
  rewrite Hident. cbn [negb]. unfold bind, lift, try_catch, ret. rewrite Hprompt.
  destruct (generate_and_validate P toolName prompt w) as [[code|e] w1]; reflexivity.
Qed.

(** C4.  When the run of [createTool] reaches the re-check of the store and
    a record of that name exists, it returns the warning text, which does not
    start with [Error:]; the collection is unchanged and nothing is written:
    the only effect after validation is the lookup.  And on no path does
    [createTool] change or remove a record that exists. *)
Theorem createTool_existing_name_skipped {Embedding : Type}
    (P : Platform Embedding) (toolName toolDescription : string) (schema : json)
    (prompt code : string) (w w1 : World Embedding) :
  toolDescription <> "" ->
  is_identifier toolName = true ->
  generateToolCreationPrompt P toolName toolDescription (JsData schema) = Returned prompt ->
  generate_and_validate P toolName prompt w = (Returned code, w1) ->
  get_fault P toolName = None ->
  is_Some (collection w !! toolName) ->
  let r := createTool P (JsData (JStr toolName)) (JsData (JStr toolDescription))
             (JsData schema) w in
  fst r = Returned ("Warning: Tool '" +:+ toolName +:+ "' already existed. Creation skipped.") /\
  startsWith "Error:"
    ("Warning: Tool '" +:+ toolName +:+ "' already existed. Creation skipped.") = false /\
  collection (snd r) = collection w /\
  effects (snd r) = effects w1 ++ [EffStoreGet toolName] /\
  forall n d p id entry,
    collection w !! id = Some entry ->
    collection (snd (createTool P n d p w)) !! id = Some entry.
Proof.
  intros Hdesc Hident Hprompt Hgen Hget [old Hold] r.
  assert (Hkeep : forall n d p id entry,
    collection w !! id = Some entry ->
    collection (snd (createTool P n d p w)) !! id = Some entry).
  { intros n d p id entry Hentry.
    destruct (createTool_cases P n d p w)
      as [[Hsame _]|(tn & td & sc & pr & -> & -> & -> & _ & _ & Hrun)].
    { now rewrite Hsame. }
    rewrite Hrun.
    pose proof (generate_and_validate_world P tn pr w) as [Hcoll _].
    destruct (generate_and_validate P tn pr w) as [[c|e] w2]; simpl in Hcoll;
      [|simpl; now rewrite Hcoll].
    destruct (store_tool_cases P tn td sc c w2)
      as [[Hsame _]|(embedding & _ & Hnone & _ & Hins)].
    { now rewrite Hsame, Hcoll. }
    rewrite Hins. rewrite Hcoll in Hnone.
    rewrite lookup_insert_ne by congruence. now rewrite Hcoll. }
  subst r. rewrite (createTool_accepted P _ _ _ _ w Hdesc Hident Hprompt), Hgen.
  pose proof (generate_and_validate_world P toolName prompt w) as [Hcoll _].
  rewrite Hgen in Hcoll. simpl in Hcoll.
  unfold store_tool, try_catch, bind, collection_get, ret.
  rewrite Hget, Hcoll, Hold. simpl.
  repeat split; try reflexivity; try assumption.
Qed.

Lemma createTool_existing_name_skipped_witness :
  fst (createTool Scenario.platform (JsData (JStr "greet_soul"))
         (JsData (JStr "Return a greeting for a soul name"))
         (JsData Scenario.greet_schema) Scenario.greet_world)
  = Returned "Warning: Tool 'greet_soul' already existed. Creation skipped.".
Proof.
  refine (proj1 (createTool_existing_name_skipped Scenario.platform "greet_soul"
            "Return a greeting for a soul name" Scenario.greet_schema
            "Write the function greet_soul: Return a greeting for a soul name"
            Scenario.greet_code Scenario.greet_world
            (snd (generate_and_validate Scenario.platform "greet_soul"
                    "Write the function greet_soul: Return a greeting for a soul name"
                    Scenario.greet_world))
            _ _ _ _ _ _)).
  - discriminate.
  - reflexivity.
  - vm_compute. reflexivity.
  - vm_compute. reflexivity.
  - reflexivity.
  - vm_compute. eexists. reflexivity.
Defined.

(** ** getToolDefinition *)

(** [getToolDefinition] never raises, and its only effect is the lookup. *)
Lemma getToolDefinition_total {Embedding : Type} (P : Platform Embedding)
    (toolName : string) (w : World Embedding) :
  exists found,
    getToolDefinition P toolName w =
    (Returned found,
     mkWorld (collection w) (toolsCache w) (effects w ++ [EffStoreGet toolName])).
Proof.
  unfold getToolDefinition, try_catch, bind, collection_get, lift, ret.
  destruct (get_fault P toolName); [eauto|].
  destruct (collection w !! toolName) as [entry|]; simpl; [|eauto].
  destruct (md_code (entry_metadata entry)); [|eauto].
  destruct (md_parameters_json (entry_metadata entry)); [|eauto].
  destruct (negb _ || negb _); [eauto|].
  destruct (JSON_parse P _); eauto.
Qed.

(** The definition read for a record that is complete and parses. *)
Lemma getToolDefinition_found {Embedding : Type} (P : Platform Embedding)
    (toolName : string) (w : World Embedding) (entry : Entry Embedding)
    (code pj : string) (schema : json) :
  get_fault P toolName = None ->
  collection w !! toolName = Some entry ->
  md_code (entry_metadata entry) = Some code -> code <> "" ->
  md_parameters_json (entry_metadata entry) = Some pj -> pj <> "" ->
  JSON_parse P pj = Returned schema ->
  fst (getToolDefinition P toolName w) =
  Returned (Some {| def_name := md_name (entry_metadata entry);
                    def_description := md_description (entry_metadata entry);
                    def_parameters := schema;
                    def_code := code;
                    def_is_internal :=
                      match md_is_internal (entry_metadata entry) with
                      | Some b => b
                      | None => false
                      end |}).
Proof.
  intros Hget Hentry Hcode Hcode' Hpj Hpj' Hparse.
  unfold getToolDefinition, try_catch, bind, collection_get, lift, ret.
  rewrite Hget, Hentry. simpl. rewrite Hcode, Hpj. simpl.
  apply String.eqb_neq in Hcode'. apply String.eqb_neq in Hpj'.
  rewrite Hcode', Hpj'. simpl. rewrite Hparse. reflexivity.
Qed.




(** C3.  A schema that is an object without [type: 'object'] violates the
    precondition, and [createTool] raises: [generateToolCreationPrompt]
    throws outside the [try] blocks, so the promise of [createTool] is
    rejected instead of resolving to a text that starts with [Error:].  The
    world is left as it was. *)
Theorem createTool_raises_on_untyped_schema {Embedding : Type}
    (P : Platform Embedding) (w : World Embedding) :
  createTool P (JsData (JStr "greet_soul"))
    (JsData (JStr "Return a greeting for a soul name")) (JsData (JObj [])) w
  = (Raised (mkError "Invalid parameters schema provided for new tool creation."), w).
Proof. reflexivity. Qed.

(** ** executeTool *)

Section Executor.
Context {Embedding : Type} (P : Platform Embedding).

(** What the check of one required name reads. *)
Lemma reads_nullish_Returned (args : JsValue) (param : json) (b : bool) :
  reads_nullish P args param = Returned b ->
  renders param = true /\ lacks P args (to_text param) = b.
Proof.
  unfold reads_nullish, to_string, lacks.
  destruct args as [|[]]; try discriminate;
    (destruct (renders param); [|discriminate]); intros [= <-]; now split.
Qed.

(** The loop over the required names stops at the first one the arguments
    lack. *)
Lemma check_required_lacks (missing : string -> string) (args : JsValue)
    (required : list json) (p : json) :
  In p required -> lacks P args (to_text p) = true ->
  exists e, check_required P missing args required = Raised e.
Proof.
  induction required as [|q rest IH]; intros Hin Hlacks; [destruct Hin|].
  simpl. destruct (reads_nullish P args q) as [[|]|e] eqn:Hq; [eauto| |eauto].
  destruct Hin as [->|Hin]; [|auto].
  apply reads_nullish_Returned in Hq as [_ Hq]. congruence.
Qed.


(** Only an object has an own property [required] that is an array. *)
Lemma required_array_truthy (schema : json) (items : list json) :
  own_property schema "required" = JsData (JArr items) ->
  truthy (JsData schema) = true.
Proof.
  destruct schema as [| | | |s| |]; try discriminate; reflexivity.
Qed.

(** When the arguments lack a required name, the [try] block throws
    before any effect. *)
Lemma execute_stored_lacks (toolName toolCode : string) (schema : json)
    (args : JsValue) (w : World Embedding) (items : list json) (p : json) :
  own_property schema "required" = JsData (JArr items) ->
  In p items -> lacks P args (to_text p) = true ->
  exists e, execute_stored P toolName toolCode schema args w = (Raised e, w).
Proof.
  intros Hreq Hin Hlacks. unfold execute_stored.
  rewrite (required_array_truthy _ _ Hreq), Hreq. simpl.
  unfold bind, lift.
  destruct (check_required_lacks
              (fun param => "Missing required parameter '" +:+ param
                              +:+ "' for tool " +:+ toolName +:+ ".")
              args items p Hin Hlacks) as [e ->].
  eauto.
Qed.

(** A normal end of the [try] block: the check passed, the code was
    compiled and invoked, and the block ends as the wrapper does. *)
Lemma execute_stored_Returned (toolName toolCode : string) (schema : json)
    (args : JsValue) (w w' : World Embedding) (ended : WrapperEnd) :
  execute_stored P toolName toolCode schema args w = (Returned ended, w') ->
  required_check P toolName schema args = Returned tt /\
  ended = wrapper_body toolName (run_wrapper P toolName toolCode args) /\
  w' = logged w [EffCompile toolName toolCode; EffInvoke toolName args].
Proof.
  unfold execute_stored, required_check.
  match goal with |- context [if ?c then _ else _] => destruct c end.
  - unfold bind at 1 2, lift at 1.
    destruct (iterate "schema.required" _) as [params|e]; [|discriminate].
    unfold lift at 1.
    destruct (check_required P _ args params) as [[]|e]; [|discriminate].
    unfold bind, log, lift, raise, ret, logged.
    destruct (run_wrapper P toolName toolCode args) eqn:Hrun; simpl;
      try discriminate; intros [= <- <-]; rewrite <- ?app_assoc; auto.
  - unfold bind, log, lift, raise, ret, logged.
    destruct (run_wrapper P toolName toolCode args) eqn:Hrun; simpl;
      try discriminate; intros [= <- <-]; rewrite <- ?app_assoc; auto.
Qed.

(** A normal end of the [try] block of the reserved tool is a normal end
    of [createTool] on the three arguments. *)
Lemma execute_creation_Returned (args : JsValue) (w w' : World Embedding)
    (s : string) :
  execute_creation P args w = (Returned s, w') ->
  exists n d p,
    property args "new_tool_name" = Returned n /\
    property args "new_tool_description" = Returned d /\
    property args "new_tool_parameters" = Returned p /\
    createTool P n d p w = (Returned s, w').
Proof.
  unfold execute_creation, bind, lift, raise.
  destruct (iterate "required" _) as [params|e]; [|discriminate].
  destruct (check_required P _ args params) as [u|e]; [|discriminate].
  destruct (property args "new_tool_name") as [n|e]; [|discriminate].
  destruct (property args "new_tool_description") as [d|e]; [|discriminate].
  destruct (property args "new_tool_parameters") as [p|e]; [|discriminate].
  destruct (negb _ || negb _ || negb _); [discriminate|].
  intros H. exists n, d, p. auto.
Qed.

End Executor.

(** ** Claims on executeTool *)

(** The promise of [executeTool] settles: it is fulfilled with a text, or,
    for a stored tool that passed the checks, it settles as the run of the
    wrapper makes it. *)
Lemma executeTool_outcome {Embedding : Type} (P : Platform Embedding)
    (toolName : string) (args : JsValue) (w : World Embedding) :
  exists r w',
    executeTool P toolName args w = (Returned r, w') /\
    (fulfilled_with_text r = true \/
     toolName <> reserved /\
     exists definition,
       fst (getToolDefinition P toolName w) = Returned (Some definition) /\
       def_is_internal definition = false /\
       required_check P toolName (def_parameters definition) args = Returned tt /\
       r = finish_stored toolName
             (wrapper_body toolName
                (run_wrapper P toolName (def_code definition) args))).
Proof.
  unfold executeTool.
  destruct (String.eqb toolName (name TOOL_CREATION_TOOL_DEFINITION)) eqn:Hname.
  - unfold bind, try_catch, ret.
    destruct (execute_creation P args w) as [[s|e] w'];
      eexists _, _; (split; [reflexivity|now left]).
  - apply String.eqb_neq in Hname.
    destruct (getToolDefinition_total P toolName w) as [found Hfound].
    unfold bind at 1. rewrite Hfound.
    destruct found as [definition|];
      [|eexists _, _; split; [reflexivity|now left]].
    destruct (def_is_internal definition) eqn:Hinternal;
      [eexists _, _; split; [reflexivity|now left]|].
    destruct (String.eqb (def_code definition) "");
      [eexists _, _; split; [reflexivity|now left]|].
    unfold bind, try_catch, ret.
    match goal with |- context [execute_stored P ?a ?b ?c ?d ?w1] =>
      destruct (execute_stored P a b c d w1) as [[ended|e] w'] eqn:Hrun end.
    + eexists _, _. split; [reflexivity|].
      apply execute_stored_Returned in Hrun as (Hcheck & -> & _).
      right. split; [exact Hname|]. exists definition.
      split; [reflexivity|auto].
    + eexists _, _. split; [reflexivity|now left].
Qed.

(** [createTool] answers a missing argument with an error text, when the
    name renders. *)
Lemma createTool_nullish {Embedding : Type} (P : Platform Embedding)
    (n d p : JsValue) (w : World Embedding) (rendered : string) :
  value_to_string n = Returned rendered ->
  nullish n = true \/ nullish d = true \/ nullish p = true ->
  createTool P n d p w =
  (Returned "Error: Missing required arguments for tool creation (name, description, parameters).", w).
Proof.
  intros Hrender H. unfold createTool, bind, lift. rewrite Hrender.
  assert (Hfalsy : forall v, nullish v = true -> truthy v = false).
  { intros [|[]]; simpl; congruence. }
  destruct H as [H|[H|H]]; apply Hfalsy in H; rewrite H; simpl;
    rewrite ?orb_true_r; reflexivity.
Qed.

(** C1.  [executeTool] does not always return a string.  The provider
    answers the request for [greet_soul] with the definition followed by the
    statement [return 42;]: [createTool] accepts the text, which starts with
    the signature and parses as the body of a function, and stores it.
    [executeTool] splices the stored text into the body of its wrapper,
    where the [return] ends the wrapper before the result is converted: the
    promise of [executeTool] is fulfilled with the number 42.  And a function
    that throws an object whose [message] is an accessor that throws [null]
    makes both [catch] clauses throw when they read [.message]: the promise
    of [executeTool] is rejected with a [TypeError].  And an [async]
    function that throws is not awaited: the result is the text of its
    promise, which does not start with [Error:]. *)
Theorem executeTool_returns_what_the_code_returns :
  fst (createTool Scenario.spliced (JsData (JStr "greet_soul"))
         (JsData (JStr "Return a greeting for a soul name"))
         (JsData Scenario.greet_schema) Scenario.empty_world)
  = Returned "Successfully created tool: greet_soul" /\
  fst (executeTool Scenario.spliced "greet_soul"
         (JsData (JObj [("name", JStr "Aria")])) Scenario.spliced_world)
  = Returned (Fulfilled (Plain (JsData (JNum 42)))) /\
  fst (createTool Scenario.hostile (JsData (JStr "greet_soul"))
         (JsData (JStr "Return a greeting for a soul name"))
         (JsData Scenario.greet_schema) Scenario.empty_world)
  = Returned "Successfully created tool: greet_soul" /\
  fst (executeTool Scenario.hostile "greet_soul"
         (JsData (JObj [("name", JStr "Aria")])) Scenario.hostile_world)
  = Returned (Rejected
                (ThrownError "Cannot read properties of null (reading 'message')")) /\
  fst (createTool Scenario.asynchronous (JsData (JStr "greet_soul"))
         (JsData (JStr "Return a greeting for a soul name"))
         (JsData Scenario.greet_schema) Scenario.empty_world)
  = Returned "Successfully created tool: greet_soul" /\
  fst (executeTool Scenario.asynchronous "greet_soul"
         (JsData (JObj [("name", JStr "Aria")])) Scenario.async_world)
  = Returned (Fulfilled (string_value "[object Promise]")).
Proof.
  split; [vm_compute; reflexivity|].
  split; [vm_compute; reflexivity|].
  split; [vm_compute; reflexivity|].
  split; [vm_compute; reflexivity|].
  split; [vm_compute; reflexivity|].
  vm_compute. reflexivity.
Qed.

(** C6.  A required name that the arguments do not bind does not always
    stop [executeTool].  The schema stored for [greet_soul] requires the
    parameter [constructor]; the arguments are the empty object, which has
    no property of that name.  The check reads [args['constructor']] through
    the prototype chain and finds the function [Object], so it passes: the
    stored code is compiled and invoked, and the result is the greeting, not
    a text that starts with [Error:]. *)
Theorem executeTool_runs_without_required_constructor :
  fst (createTool Scenario.platform (JsData (JStr "greet_soul"))
         (JsData (JStr "Return a greeting for a soul name"))
         (JsData Scenario.inherited_schema) Scenario.empty_world)
  = Returned "Successfully created tool: greet_soul" /\
  lacks_own (JsData (JObj [])) "constructor" = true /\
  executeTool Scenario.platform "greet_soul" (JsData (JObj [])) Scenario.inherited_world
  = (Returned (Fulfilled (string_value "Hello, undefined")),
     logged Scenario.inherited_world
       [ EffStoreGet "greet_soul";
         EffCompile "greet_soul" Scenario.greet_code;
         EffInvoke "greet_soul" (JsData (JObj [])) ]).
Proof.
  split; [vm_compute; reflexivity|].
  split; [reflexivity|].
  vm_compute. reflexivity.
Qed.

(** ** sanitizeGeneratedCode *)

(** The expression [/^(async\s+)?function\s+/] is anchored: [search] finds
    it at index 0 or not at all. *)
Lemma search_function_anchored (s : string) (i : nat) :
  search_from function_re 0 s = Some i -> i = 0.
Proof.
  assert (Hlater : forall t pos, search_from function_re (S pos) t = None).
  { induction t as [|c t IH]; intros pos; simpl; [reflexivity|apply IH]. }
  destruct s as [|c s]; simpl.
  - destruct (function_re 0 ""); [now intros [= <-]|discriminate].
  - destruct (function_re 0 (String c s)); [now intros [= <-]|].
    rewrite Hlater. discriminate.
Qed.

(** So the text is never cut: the result is the trimmed text without its
    fences, or that text wrapped in a function shell. *)
Lemma sanitizeGeneratedCode_cases (code functionName : string) :
  let text := trim (delete_matches fence_re 0 0 code) in
  sanitizeGeneratedCode code functionName = text \/
  sanitizeGeneratedCode code functionName
  = "function " +:+ functionName +:+ "(params) {" +:+ nl +:+ text +:+ nl +:+ "}".
Proof.
  intros text. unfold sanitizeGeneratedCode. fold text.
  destruct (negb _ && negb _); [|now left].
  destruct (search_from function_re 0 text) as [i|] eqn:Hsearch; [|now right].
  apply search_function_anchored in Hsearch as ->. left. now destruct text.
Qed.

(** C8.  Text that puts commentary before the function definition is not
    cut at the [function] token: the anchored expression does not find the
    token behind the commentary, and the whole text, commentary included, is
    wrapped in a function shell, although a definition of the requested
    function is in it. *)
Theorem sanitizeGeneratedCode_keeps_leading_commentary :
  sanitizeGeneratedCode
    ("Here is the function:" +:+ nl +:+ "function greet(params) { return 'hi'; }")
    "greet"
  = "function greet(params) {" +:+ nl
      +:+ "Here is the function:" +:+ nl
      +:+ "function greet(params) { return 'hi'; }" +:+ nl +:+ "}"
  /\ sanitizeGeneratedCode
       ("Here is the function:" +:+ nl +:+ "function greet(params) { return 'hi'; }")
       "greet"
     <> "function greet(params) { return 'hi'; }".
Proof. split; [vm_compute; reflexivity|vm_compute; discriminate]. Qed.

(** * Further properties *)

Import Lifecycle.

(** ** Text: prefixes *)

Lemma prefix_split (p s : string) :
  String.prefix p s = true -> exists r, s = p +:+ r.
Proof.
  revert s. induction p as [|a p IH]; intros s H.
  - exists s. reflexivity.
  - destruct s as [|b s]; [discriminate H|]. simpl in H.
    destruct (Ascii.ascii_dec a b) as [<-|]; [|discriminate H].
    destruct (IH s H) as [r ->]. exists r. reflexivity.
Qed.

Lemma prefix_app (p r : string) : String.prefix p (p +:+ r) = true.
Proof.
  induction p as [|a p IH]; [now destruct r|].
  rewrite RefJSONFacts.app_cons. simpl.
  destruct (Ascii.ascii_dec a a); [exact IH|contradiction].
Qed.

Lemma prefix_app_l (p q s : string) :
  String.prefix (p +:+ q) s = true -> String.prefix p s = true.
Proof.
  intros H. destruct (prefix_split _ _ H) as [r ->].
  rewrite RefJSONFacts.app_assoc. apply prefix_app.
Qed.

Lemma after_prefix_app (p r : string) : after_prefix p (p +:+ r) = Some r.
Proof.
  induction p as [|a p IH]; [reflexivity|].
  rewrite RefJSONFacts.app_cons. simpl. now rewrite Ascii.eqb_refl.
Qed.

Lemma function_kw_function (r : string) :
  function_kw ("function " +:+ r) <> None.
Proof.
  unfold function_kw.
  change ("function " +:+ r) with ("function" +:+ String " " r).
  rewrite after_prefix_app.
  change (span_space (String " " r)) with (S (span_space r)).
  discriminate.
Qed.

(** A text that starts with [function ] or with [async function ] matches
    [/^(async\s+)?function\s+/]. *)
Lemma function_re_function (r : string) :
  function_re 0 ("function " +:+ r) <> None.
Proof.
  unfold function_re. change (0 =? 0) with true. cbv iota.
  change (after_prefix "async" ("function " +:+ r)) with (@None string).
  cbv iota. apply function_kw_function.
Qed.

Lemma function_re_async (r : string) :
  function_re 0 ("async function " +:+ r) <> None.
Proof.
  unfold function_re. change (0 =? 0) with true. cbv iota.
  change ("async function " +:+ r) with ("async" +:+ String " " ("function " +:+ r)).
  rewrite after_prefix_app.
  change (span_space (String " " ("function " +:+ r))) with 1.
  change (1 <=? 1) with true. cbv iota.
  change (drop 1 (String " " ("function " +:+ r))) with ("function " +:+ r).
  pose proof (function_kw_function r) as H.
  destruct (function_kw ("function " +:+ r)); [discriminate|contradiction].
Qed.

(** ** sanitizeGeneratedCode *)

Lemma search_function_re (s : string) :
  search_from function_re 0 s =
  match function_re 0 s with Some _ => Some 0 | None => None end.
Proof.
  assert (Hlater : forall t pos, search_from function_re (S pos) t = None).
  { induction t as [|c t IH]; intros pos; simpl; [reflexivity|apply IH]. }
  destruct s as [|c s]; simpl.
  - destruct (function_re 0 ""); reflexivity.
  - destruct (function_re 0 (String c s)); [reflexivity|apply Hlater].
Qed.

(** A text that starts with the signature of a function starts with a
    function keyword. *)
Lemma leading_function_keyword (functionName text : string) :
  startsWith ("function " +:+ functionName) text = true \/
  startsWith ("async function " +:+ functionName) text = true ->
  function_re 0 text <> None.
Proof.
  unfold startsWith. intros [H|H]; apply prefix_split in H as [r ->];
    rewrite RefJSONFacts.app_assoc.
  - apply function_re_function.
  - apply function_re_async.
Qed.

(** X1.  [sanitizeGeneratedCode] never cuts the text: with the fences
    deleted and the white space trimmed, the text is returned as it is when
    it starts with [function] (or [async function]) and white space, and is
    otherwise wrapped whole in a function shell of the requested name.  The
    requested name decides nothing but the name of the shell. *)
Theorem sanitizeGeneratedCode_keeps_or_wraps (code functionName : string) :
  let text := trim (delete_matches fence_re 0 0 code) in
  sanitizeGeneratedCode code functionName =
  match function_re 0 text with
  | Some _ => text
  | None =>
      "function " +:+ functionName +:+ "(params) {" +:+ nl +:+ text +:+ nl +:+ "}"
  end.
Proof.
  intros text. unfold sanitizeGeneratedCode. fold text.
  pose proof (leading_function_keyword functionName text) as Hkeyword.
  destruct (startsWith ("function " +:+ functionName) text).
  { destruct (function_re 0 text); [reflexivity|]. destruct Hkeyword; auto. }
  destruct (startsWith ("async function " +:+ functionName) text).
  { destruct (function_re 0 text); [reflexivity|]. destruct Hkeyword; auto. }
  cbn [negb andb]. rewrite search_function_re.
  destruct (function_re 0 text); [now destruct text|reflexivity].
Qed.

(** X2.  Text that does not start with a function keyword always passes the
    signature check of [createTool]: the shell that [sanitizeGeneratedCode]
    puts around it starts with [function <name>(params)], whatever the text
    is. *)
Theorem sanitizeGeneratedCode_wrapped_has_signature (code functionName : string) :
  function_re 0 (trim (delete_matches fence_re 0 0 code)) = None ->
  has_signature functionName (sanitizeGeneratedCode code functionName) = true.
Proof.
  intros Hnone. unfold sanitizeGeneratedCode.
  set (text := trim (delete_matches fence_re 0 0 code)) in *.
  pose proof (leading_function_keyword functionName text) as Hkeyword.
  destruct (startsWith ("function " +:+ functionName) text); [destruct Hkeyword; auto|].
  destruct (startsWith ("async function " +:+ functionName) text);
    [destruct Hkeyword; auto|].
  cbn [negb andb]. rewrite search_function_re, Hnone.
  unfold has_signature, startsWith.
  replace ("function " +:+ functionName +:+ "(params) {" +:+ nl +:+ text +:+ nl +:+ "}")
    with (("function " +:+ functionName +:+ "(params)")
            +:+ (" {" +:+ nl +:+ text +:+ nl +:+ "}"))
    by (rewrite !RefJSONFacts.app_assoc; reflexivity).
  rewrite prefix_app. reflexivity.
Qed.

Lemma sanitizeGeneratedCode_wrapped_has_signature_witness :
  has_signature "greet" (sanitizeGeneratedCode "return 'hi';" "greet") = true.
Proof.
  apply (sanitizeGeneratedCode_wrapped_has_signature "return 'hi';" "greet").
  vm_compute. reflexivity.
Defined.

(** *** Fenced text *)

Lemma delete_matches_skip (m : matcher) (n : nat) :
  forall pos s, delete_matches m n pos s = delete_matches m 0 (pos + n) (drop n s).
Proof.
  induction n as [|n IH]; intros pos s.
  - rewrite Nat.add_0_r. now destruct s.
  - destruct s as [|c r]; [reflexivity|]. simpl. rewrite IH.
    now replace (S pos + n) with (pos + S n) by lia.
Qed.

Lemma drop_add (a b : nat) : forall s, drop (a + b) s = drop b (drop a s).
Proof.
  induction a as [|a IH]; intros s; [now destruct s|].
  destruct s as [|c r]; [now destruct b|]. apply IH.
Qed.

Lemma fence_re_other (c : ascii) (t : string) (pos : nat) :
  Ascii.eqb "`" c = false -> fence_re pos (String c t) = None.
Proof.
  intros H. unfold fence_re, open_fence, close_fence. cbn [after_prefix].
  rewrite H. now destruct (pos =? 0).
Qed.

Lemma no_backtick_untouched (t : string) :
  no_backtick t = true ->
  forall pos, delete_matches fence_re 0 pos t = t.
Proof.
  induction t as [|c t IH]; intros H pos; [reflexivity|].
  unfold no_backtick in H. simpl in H. apply andb_true_iff in H as [Hc Ht].
  apply negb_true_iff in Hc. rewrite Ascii.eqb_sym in Hc.
  cbn [delete_matches]. rewrite (fence_re_other _ _ _ Hc).
  now rewrite (IH Ht).
Qed.

Lemma no_backtick_closing_fence (t : string) :
  no_backtick t = true ->
  forall pos, delete_matches fence_re 0 (S pos) (t +:+ "```") = t.
Proof.
  induction t as [|c t IH]; intros H pos; [reflexivity|].
  unfold no_backtick in H. simpl in H. apply andb_true_iff in H as [Hc Ht].
  apply negb_true_iff in Hc. rewrite Ascii.eqb_sym in Hc.
  rewrite RefJSONFacts.app_cons. cbn [delete_matches].
  rewrite (fence_re_other _ _ _ Hc). now rewrite (IH Ht).
Qed.

Lemma all_chars_app (p : ascii -> bool) (a b : string) :
  all_chars p (a +:+ b) = all_chars p a && all_chars p b.
Proof.
  induction a as [|c a IH]; [reflexivity|].
  rewrite RefJSONFacts.app_cons. simpl. now rewrite IH, andb_assoc.
Qed.

Lemma all_chars_drop (p : ascii -> bool) (n : nat) :
  forall s, all_chars p s = true -> all_chars p (drop n s) = true.
Proof.
  induction n as [|n IH]; intros s H; [now destruct s|].
  destruct s as [|c r]; [reflexivity|].
  simpl in H. apply andb_true_iff in H as [_ H]. now apply IH.
Qed.

Lemma trimStart_cons_space (c : ascii) (s : string) :
  is_space c = true -> trimStart (String c s) = trimStart s.
Proof. intros H. unfold trimStart. simpl. now rewrite H. Qed.

Lemma trimStart_cons_other (c : ascii) (s : string) :
  is_space c = false -> trimStart (String c s) = String c s.
Proof. intros H. unfold trimStart. simpl. now rewrite H. Qed.

Lemma trimStart_app (u v : string) :
  span_space v = 0 -> trimStart (u +:+ v) = trimStart u +:+ v.
Proof.
  intros Hv. induction u as [|c u IH].
  - unfold trimStart. rewrite RefJSONFacts.app_nil_l, Hv. now destruct v.
  - rewrite RefJSONFacts.app_cons. destruct (is_space c) eqn:Hc.
    + now rewrite !trimStart_cons_space.
    + rewrite !trimStart_cons_other by exact Hc. now rewrite RefJSONFacts.app_cons.
Qed.

Lemma trimStart_idempotent (s : string) : trimStart (trimStart s) = trimStart s.
Proof.
  induction s as [|c s IH]; [reflexivity|].
  destruct (is_space c) eqn:Hc.
  - now rewrite !trimStart_cons_space.
  - now rewrite !trimStart_cons_other.
Qed.

Lemma trimEnd_app_space (c : ascii) (x : string) :
  is_space c = true -> trimEnd (x +:+ String c "") = trimEnd x.
Proof.
  intros Hc. induction x as [|a x IH].
  - simpl. now rewrite Hc.
  - rewrite RefJSONFacts.app_cons. simpl. now rewrite IH.
Qed.

Lemma trim_app_space (c : ascii) (u : string) :
  is_space c = true -> trim (u +:+ String c "") = trim u.
Proof.
  intros Hc. unfold trim. induction u as [|a u IH].
  - rewrite RefJSONFacts.app_nil_l. now rewrite trimStart_cons_space.
  - rewrite RefJSONFacts.app_cons. destruct (is_space a) eqn:Ha.
    + now rewrite !trimStart_cons_space.
    + rewrite !trimStart_cons_other by exact Ha.
      rewrite <- RefJSONFacts.app_cons. now apply trimEnd_app_space.
Qed.

(** What the fence expression leaves of a fenced block. *)
Lemma delete_matches_fenced (fence body : string) :
  In fence ["```javascript"; "```js"; "```"] ->
  no_backtick body = true ->
  delete_matches fence_re 0 0 (fence +:+ nl +:+ body +:+ nl +:+ "```")
  = trimStart (body +:+ nl).
Proof.
  intros Hfence Hbody.
  assert (Hrest : forall n,
    delete_matches fence_re n 1
      (drop 1 (fence +:+ nl +:+ body +:+ nl +:+ "```"))
    = delete_matches fence_re 0 (S n) (drop (S n) (fence +:+ nl +:+ body +:+ nl +:+ "```"))).
  { intros n. rewrite delete_matches_skip. 
    change (S n) with (1 + n) at 2. now rewrite drop_add. }
  assert (Htail : forall pos,
    delete_matches fence_re 0 (S pos) (trimStart (body +:+ nl +:+ "```"))
    = trimStart (body +:+ nl)).
  { intros pos. rewrite <- RefJSONFacts.app_assoc.
    rewrite trimStart_app by reflexivity.
    apply no_backtick_closing_fence. unfold trimStart, no_backtick.
    apply all_chars_drop. rewrite all_chars_app. fold (no_backtick body).
    now rewrite Hbody. }
  set (rest := body +:+ nl +:+ "```") in *.
  destruct Hfence as [<-|[<-|[<-|[]]]].
  - change (delete_matches fence_re 0 0 ("```javascript" +:+ nl +:+ rest))
      with (delete_matches fence_re (13 + span_space rest) 1
              (drop 1 ("```javascript" +:+ nl +:+ rest))).
    rewrite Hrest.
    change (S (13 + span_space rest)) with (14 + span_space rest).
    rewrite drop_add. apply Htail.
  - change (delete_matches fence_re 0 0 ("```js" +:+ nl +:+ rest))
      with (delete_matches fence_re (5 + span_space rest) 1
              (drop 1 ("```js" +:+ nl +:+ rest))).
    rewrite Hrest.
    change (S (5 + span_space rest)) with (6 + span_space rest).
    rewrite drop_add. apply Htail.
  - change (delete_matches fence_re 0 0 ("```" +:+ nl +:+ rest))
      with (delete_matches fence_re (3 + span_space rest) 1
              (drop 1 ("```" +:+ nl +:+ rest))).
    rewrite Hrest.
    change (S (3 + span_space rest)) with (4 + span_space rest).
    rewrite drop_add. apply Htail.
Qed.

(** X3.  A block fenced with [```javascript], [```js] or [```] on a line of
    its own and closed by [```] on a line of its own, whose body has no back
    quote, is sanitized to what the body alone is sanitized to. *)
Theorem sanitizeGeneratedCode_unwraps_fenced_block (fence body functionName : string) :
  In fence ["```javascript"; "```js"; "```"] ->
  no_backtick body = true ->
  sanitizeGeneratedCode (fence +:+ nl +:+ body +:+ nl +:+ "```") functionName
  = sanitizeGeneratedCode body functionName.
Proof.
  intros Hfence Hbody.
  assert (Htext : trim (delete_matches fence_re 0 0 (fence +:+ nl +:+ body +:+ nl +:+ "```"))
                  = trim (delete_matches fence_re 0 0 body)).
  { rewrite (delete_matches_fenced _ _ Hfence Hbody).
    rewrite (no_backtick_untouched _ Hbody).
    unfold trim at 1. rewrite trimStart_idempotent.
    apply (trim_app_space (ascii_of_nat 10)). reflexivity. }
  unfold sanitizeGeneratedCode. now rewrite Htext.
Qed.

Lemma sanitizeGeneratedCode_unwraps_fenced_block_witness :
  sanitizeGeneratedCode
    ("```js" +:+ nl +:+ "function greet(params) { return 'hi'; }" +:+ nl +:+ "```") "greet"
  = sanitizeGeneratedCode "function greet(params) { return 'hi'; }" "greet".
Proof.
  apply (sanitizeGeneratedCode_unwraps_fenced_block "```js"
           "function greet(params) { return 'hi'; }" "greet").
  - right. left. reflexivity.
  - reflexivity.
Defined.

Lemma drop_length (s : string) : drop (String.length s) s = "".
Proof. induction s as [|c s IH]; [reflexivity|exact IH]. Qed.

(** A text of white space only trims to the empty text. *)
Lemma trim_all_space (s : string) : all_space s = true -> trim s = "".
Proof.
  unfold all_space, trim, trimStart. intros H. apply Nat.eqb_eq in H.
  now rewrite <- H, drop_length.
Qed.

(** ** ensureToolCreationTool and initialize *)

Section Bootstrap.
Context {Embedding : Type} (P : Platform Embedding).

Let text := embedded_text reserved (description TOOL_CREATION_TOOL_DEFINITION).
Let record (embedding : Embedding) : Entry Embedding :=
  mkEntry embedding (reserved_metadata P)
    (document_text reserved (description TOOL_CREATION_TOOL_DEFINITION)).

(** The run of [ensureToolCreationTool], by cases on the collaborators. *)
Lemma ensureToolCreationTool_run (w : World Embedding) :
  ensureToolCreationTool P w =
  match get_fault P reserved, collection w !! reserved with
  | None, Some _ => (Returned tt, logged w [EffStoreGet reserved])
  | _, _ =>
      match embedQuery P text with
      | Raised e => (Raised e, logged w [EffStoreGet reserved; EffEmbed text])
      | Returned embedding =>
          match add_fault P reserved with
          | Some e =>
              (Raised e,
               logged w [EffStoreGet reserved; EffEmbed text; EffStoreAdd reserved])
          | None =>
              (Returned tt,
               mkWorld (<[reserved := record embedding]> (collection w)) (toolsCache w)
                 (effects w ++ [EffStoreGet reserved; EffEmbed text; EffStoreAdd reserved]))
          end
      end
  end.
Proof.
  unfold ensureToolCreationTool, try_catch, bind, collection_get, embed,
    collection_add, lift, log, raise, ret, logged, text, record, embedded_text,
    document_text.
  change (name TOOL_CREATION_TOOL_DEFINITION) with reserved.
  destruct (get_fault P reserved) as [e|]; cbn [fst snd collection toolsCache effects].
  - destruct (embedQuery P _) as [embedding|e']; simpl; rewrite <- ?app_assoc;
      [|reflexivity].
    destruct (add_fault P reserved); simpl; rewrite <- ?app_assoc; reflexivity.
  - destruct (collection w !! reserved) as [entry|];
      cbn [gr_ids length Nat.ltb Nat.leb]; [reflexivity|].
    destruct (embedQuery P _) as [embedding|e']; simpl; rewrite <- ?app_assoc;
      [|reflexivity].
    destruct (add_fault P reserved); simpl; rewrite <- ?app_assoc; reflexivity.
Qed.

Lemma initialize_run (connection : Completion unit) (w : World Embedding) :
  initialize P connection w =
  match connection with
  | Returned _ => ensureToolCreationTool P w
  | Raised e => (Raised e, w)
  end.
Proof.
  unfold initialize, try_catch, bind, lift, raise.
  destruct connection as [u|e]; [|reflexivity].
  now destruct (ensureToolCreationTool P w) as [[?|?] ?].
Qed.

End Bootstrap.

(** X4.  When [ensureToolCreationTool] ends normally, the reserved record
    is in the collection, every record under another name is as it was, a
    reserved record that the lookup found is as it was, the cache is
    untouched, and a collection keyed by name stays keyed by name. *)
Theorem ensureToolCreationTool_adds_only_reserved {Embedding : Type}
    (P : Platform Embedding) (w w' : World Embedding) (u : unit) :
  ensureToolCreationTool P w = (Returned u, w') ->
  is_Some (collection w' !! reserved) /\
  (forall id, id <> reserved -> collection w' !! id = collection w !! id) /\
  (get_fault P reserved = None ->
   forall entry, collection w !! reserved = Some entry ->
     collection w' !! reserved = Some entry) /\
  toolsCache w' = toolsCache w /\
  (collection_keyed (collection w) -> collection_keyed (collection w')).
Proof.
  rewrite ensureToolCreationTool_run.
  assert (Hwrite : forall embedding trace,
    let c := <[reserved := mkEntry embedding (reserved_metadata P)
                 (document_text reserved (description TOOL_CREATION_TOOL_DEFINITION))]>
               (collection w) in
    (get_fault P reserved = None -> collection w !! reserved = None) ->
    (Returned tt, mkWorld c (toolsCache w) trace) = (Returned u, w') ->
    is_Some (collection w' !! reserved) /\
    (forall id, id <> reserved -> collection w' !! id = collection w !! id) /\
    (get_fault P reserved = None ->
     forall entry, collection w !! reserved = Some entry ->
       collection w' !! reserved = Some entry) /\
    toolsCache w' = toolsCache w /\
    (collection_keyed (collection w) -> collection_keyed (collection w'))).
  { intros embedding trace c Habsent [= _ <-]. cbn [collection toolsCache].
    split; [subst c; rewrite lookup_insert_eq; eauto|].
    split; [intros id Hid; subst c; now rewrite lookup_insert_ne|].
    split; [intros Hget entry Hentry; rewrite (Habsent Hget) in Hentry; discriminate|].
    split; [reflexivity|].
    intros Hkeyed id entry. subst c. destruct (decide (reserved = id)) as [<-|Hne].
    - rewrite lookup_insert_eq. now intros [= <-].
    - rewrite lookup_insert_ne by exact Hne. apply Hkeyed. }
  destruct (get_fault P reserved) as [e|] eqn:Hget.
  - destruct (embedQuery P _) as [embedding|e']; [|discriminate].
    destruct (add_fault P reserved); [discriminate|].
    apply Hwrite. discriminate.
  - destruct (collection w !! reserved) as [entry|] eqn:Hentry.
    + intros [= _ <-]. unfold logged. cbn [collection toolsCache].
      rewrite Hentry. repeat split; eauto.
    + destruct (embedQuery P _) as [embedding|e']; [|discriminate].
      destruct (add_fault P reserved); [discriminate|].
      apply Hwrite. reflexivity.
Qed.

Lemma ensureToolCreationTool_adds_only_reserved_witness :
  is_Some (collection (snd (ensureToolCreationTool Scenario.platform Scenario.greet_world))
             !! reserved) /\
  collection (snd (ensureToolCreationTool Scenario.platform Scenario.greet_world))
    !! "greet_soul"
  = collection Scenario.greet_world !! "greet_soul".
Proof.
  destruct (ensureToolCreationTool_adds_only_reserved Scenario.platform
              Scenario.greet_world
              (snd (ensureToolCreationTool Scenario.platform Scenario.greet_world)) tt)
    as (Hpresent & Hothers & _).
  - vm_compute. reflexivity.
  - split; [exact Hpresent|]. apply Hothers. discriminate.
Defined.

(** X5.  [ensureToolCreationTool] is idempotent: after a run that ended
    normally, a second run on a store whose lookup works only looks the
    record up; it asks for no embedding and writes nothing. *)
Theorem ensureToolCreationTool_second_run_only_looks_up {Embedding : Type}
    (P : Platform Embedding) (w w' : World Embedding) (u : unit) :
  ensureToolCreationTool P w = (Returned u, w') ->
  get_fault P reserved = None ->
  ensureToolCreationTool P w' = (Returned tt, logged w' [EffStoreGet reserved]).
Proof.
  intros Hfirst Hget.
  assert (Hpresent : is_Some (collection w' !! reserved)).
  { rewrite ensureToolCreationTool_run, Hget in Hfirst.
    destruct (collection w !! reserved) as [entry|] eqn:Hentry.
    - injection Hfirst as _ <-. unfold logged. cbn [collection]. rewrite Hentry. eauto.
    - destruct (embedQuery P _) as [embedding|e']; [|discriminate].
      destruct (add_fault P reserved); [discriminate|].
      injection Hfirst as _ <-. cbn [collection]. rewrite lookup_insert_eq. eauto. }
  rewrite ensureToolCreationTool_run, Hget.
  destruct Hpresent as [entry ->]. reflexivity.
Qed.

Lemma ensureToolCreationTool_second_run_only_looks_up_witness :
  let w' := snd (ensureToolCreationTool Scenario.platform Scenario.empty_world) in
  ensureToolCreationTool Scenario.platform w'
  = (Returned tt, logged w' [EffStoreGet reserved]).
Proof.
  intros w'.
  apply (ensureToolCreationTool_second_run_only_looks_up Scenario.platform
           Scenario.empty_world w' tt).
  - vm_compute. reflexivity.
  - reflexivity.
Defined.

(** X6.  [initialize] raises exactly when [getOrCreateCollection] fails,
    or when the reserved record is not found (absent, or the lookup failed)
    and then the embedding request or the write fails; the error is the one
    of the step that failed, and the collection and the cache are as they
    were.  A failed lookup alone does not make it raise. *)
Theorem initialize_raises_iff {Embedding : Type} (P : Platform Embedding)
    (connection : Completion unit) (w : World Embedding) (e : JsError) :
  (fst (initialize P connection w) = Raised e <->
   connection = Raised e \/
   (exists u, connection = Returned u) /\
   (get_fault P reserved <> None \/ collection w !! reserved = None) /\
   (embedQuery P (embedded_text reserved (description TOOL_CREATION_TOOL_DEFINITION))
    = Raised e \/
    (exists embedding,
       embedQuery P (embedded_text reserved (description TOOL_CREATION_TOOL_DEFINITION))
       = Returned embedding) /\
    add_fault P reserved = Some e)) /\
  (fst (initialize P connection w) = Raised e ->
   collection (snd (initialize P connection w)) = collection w /\
   toolsCache (snd (initialize P connection w)) = toolsCache w).
Proof.
  rewrite initialize_run. destruct connection as [u|e0].
  2:{ split; [|auto]. split.
      - intros [= ->]. now left.
      - intros [[= ->]|[[u Hu] _]]; [reflexivity|discriminate]. }
  rewrite ensureToolCreationTool_run.
  assert (Hwrite :
    get_fault P reserved <> None \/ collection w !! reserved = None ->
    let r :=
      match embedQuery P (embedded_text reserved (description TOOL_CREATION_TOOL_DEFINITION)) with
      | Raised e1 =>
          (Raised e1,
           logged w [EffStoreGet reserved;
                     EffEmbed (embedded_text reserved (description TOOL_CREATION_TOOL_DEFINITION))])
      | Returned embedding =>
          match add_fault P reserved with
          | Some e1 =>
              (Raised e1,
               logged w [EffStoreGet reserved;
                         EffEmbed (embedded_text reserved (description TOOL_CREATION_TOOL_DEFINITION));
                         EffStoreAdd reserved])
          | None =>
              (Returned tt,
               mkWorld (<[reserved := mkEntry embedding (reserved_metadata P)
                            (document_text reserved (description TOOL_CREATION_TOOL_DEFINITION))]>
                          (collection w)) (toolsCache w)
                 (effects w ++ [EffStoreGet reserved;
                                EffEmbed (embedded_text reserved (description TOOL_CREATION_TOOL_DEFINITION));
                                EffStoreAdd reserved]))
          end
      end in
    (fst r = Raised e <->
     Returned u = Raised e \/
     (exists u0, Returned u = Returned u0) /\
     (get_fault P reserved <> None \/ collection w !! reserved = None) /\
     (embedQuery P (embedded_text reserved (description TOOL_CREATION_TOOL_DEFINITION))
      = Raised e \/
      (exists embedding,
         embedQuery P (embedded_text reserved (description TOOL_CREATION_TOOL_DEFINITION))
         = Returned embedding) /\
      add_fault P reserved = Some e)) /\
    (fst r = Raised e ->
     collection (snd r) = collection w /\ toolsCache (snd r) = toolsCache w)).
  { intros Hcase.
    destruct (embedQuery P _) as [embedding|e'] eqn:Hembed.
    - destruct (add_fault P reserved) as [a|] eqn:Hadd; cbn [fst snd].
      + split; [|intros _; split; reflexivity]. split.
        * intros [= <-]. right. split; [eauto|]. split; [exact Hcase|].
          right. split; [eauto|reflexivity].
        * intros [H|(_ & _ & [H|[_ H]])];
            [discriminate H|discriminate H|congruence].
      + split; [|discriminate]. split; [discriminate|].
        intros [H|(_ & _ & [H|[_ H]])]; discriminate.
    - cbn [fst snd]. split; [|intros _; split; reflexivity]. split.
      + intros [= <-]. right. split; [eauto|]. split; [exact Hcase|].
        left. reflexivity.
      + intros [H|(_ & _ & [H|[[emb H'] _]])];
          [discriminate|congruence|discriminate]. }
  destruct (get_fault P reserved) as [g|] eqn:Hget.
  { apply Hwrite. left. discriminate. }
  destruct (collection w !! reserved) as [entry|] eqn:Hentry.
  2:{ apply Hwrite. now right. }
  cbn [fst snd]. split; [|discriminate]. split; [discriminate|].
  intros [H|(_ & [H|H] & _)]; [discriminate|contradiction|discriminate].
Qed.

Lemma scenario_initialize_offline :
  fst (initialize Scenario.offline (Returned tt) Scenario.empty_world)
  = Raised (mkError "fetch failed").
Proof. vm_compute. reflexivity. Qed.

(** X7.  After [initialize] ended normally on a collection without the
    reserved record, [getToolDefinition('tool_creation')] returns the
    bootstrap definition: the static name, description and schema, the
    placeholder code, and the internal flag set; provided the lookup works
    and the engine's JSON round-trips the static schema. *)
Theorem initialize_then_reserved_definition {Embedding : Type}
    (P : Platform Embedding) (connection : Completion unit)
    (w w' : World Embedding) (u : unit) :
  initialize P connection w = (Returned u, w') ->
  collection w !! reserved = None ->
  get_fault P reserved = None ->
  JSON_stringify P (parameters TOOL_CREATION_TOOL_DEFINITION) <> "" ->
  JSON_parse P (JSON_stringify P (parameters TOOL_CREATION_TOOL_DEFINITION))
  = Returned (parameters TOOL_CREATION_TOOL_DEFINITION) ->
  fst (getToolDefinition P reserved w') =
  Returned (Some {| def_name := Some reserved;
                    def_description := Some (description TOOL_CREATION_TOOL_DEFINITION);
                    def_parameters := parameters TOOL_CREATION_TOOL_DEFINITION;
                    def_code := "// Internal ToolCreationManager function: tool_creation";
                    def_is_internal := true |}).
Proof.
  intros Hrun Habsent Hget Htext Hparse.
  rewrite initialize_run in Hrun. destruct connection as [u0|e]; [|discriminate].
  rewrite ensureToolCreationTool_run, Hget, Habsent in Hrun.
  destruct (embedQuery P _) as [embedding|e]; [|discriminate].
  destruct (add_fault P reserved); [discriminate|].
  injection Hrun as _ <-.
  apply (getToolDefinition_found P reserved _
           (mkEntry embedding (reserved_metadata P)
              (document_text reserved (description TOOL_CREATION_TOOL_DEFINITION)))
           "// Internal ToolCreationManager function: tool_creation"
           (JSON_stringify P (parameters TOOL_CREATION_TOOL_DEFINITION))
           (parameters TOOL_CREATION_TOOL_DEFINITION) Hget).
  - cbn [collection]. apply lookup_insert_eq.
  - reflexivity.
  - discriminate.
  - reflexivity.
  - exact Htext.
  - exact Hparse.
Qed.

Lemma initialize_then_reserved_definition_witness :
  fst (getToolDefinition Scenario.platform reserved
         (snd (initialize Scenario.platform (Returned tt) Scenario.empty_world))) =
  Returned (Some {| def_name := Some reserved;
                    def_description := Some (description TOOL_CREATION_TOOL_DEFINITION);
                    def_parameters := parameters TOOL_CREATION_TOOL_DEFINITION;
                    def_code := "// Internal ToolCreationManager function: tool_creation";
                    def_is_internal := true |}).
Proof.
  refine (initialize_then_reserved_definition Scenario.platform (Returned tt)
            Scenario.empty_world
            (snd (initialize Scenario.platform (Returned tt) Scenario.empty_world))
            tt _ _ _ _ _).
  - vm_compute. reflexivity.
  - reflexivity.
  - reflexivity.
  - vm_compute. discriminate.
  - vm_compute. reflexivity.
Defined.

(** ** getToolDefinition *)

(** X8.  [getToolDefinition] never raises and its only effect is the
    lookup.  It returns a definition exactly when the lookup works and finds
    a record whose code and serialized schema are present and not empty and
    whose schema parses; the definition carries the parsed schema, the stored
    name, description and code, and the internal flag, [false] when the
    record has none. *)
Theorem getToolDefinition_reads_complete_records {Embedding : Type}
    (P : Platform Embedding) (toolName : string) (w : World Embedding) :
  (exists found,
     getToolDefinition P toolName w
     = (Returned found, logged w [EffStoreGet toolName])) /\
  forall definition,
    fst (getToolDefinition P toolName w) = Returned (Some definition) <->
    get_fault P toolName = None /\
    exists entry code pj,
      collection w !! toolName = Some entry /\
      md_code (entry_metadata entry) = Some code /\ code <> "" /\
      md_parameters_json (entry_metadata entry) = Some pj /\ pj <> "" /\
      JSON_parse P pj = Returned (def_parameters definition) /\
      def_name definition = md_name (entry_metadata entry) /\
      def_description definition = md_description (entry_metadata entry) /\
      def_code definition = code /\
      def_is_internal definition
      = match md_is_internal (entry_metadata entry) with
        | Some b => b
        | None => false
        end.
Proof.
  split; [apply getToolDefinition_total|].
  intros definition. split.
  - unfold getToolDefinition, try_catch, bind, collection_get, lift, ret.
    destruct (get_fault P toolName) eqn:Hget; [discriminate|].
    destruct (collection w !! toolName) as [entry|] eqn:Hentry; simpl; [|discriminate].
    destruct (md_code (entry_metadata entry)) as [code|] eqn:Hcode; [|discriminate].
    destruct (md_parameters_json (entry_metadata entry)) as [pj|] eqn:Hpj; [|discriminate].
    unfold present. destruct (String.eqb code "") eqn:Hcode'; simpl; [discriminate|].
    destruct (String.eqb pj "") eqn:Hpj'; simpl; [discriminate|].
    destruct (JSON_parse P pj) as [schema|e] eqn:Hparse; simpl; [|discriminate].
    intros [= <-]. split; [reflexivity|]. exists entry, code, pj. simpl.
    apply String.eqb_neq in Hcode'. apply String.eqb_neq in Hpj'.
    repeat split; try assumption; reflexivity.
  - intros (Hget & entry & code & pj & Hentry & Hcode & Hcode' & Hpj & Hpj' & Hparse
            & Hn & Hd & Hc & Hi).
    rewrite (getToolDefinition_found P toolName w entry code pj
               (def_parameters definition) Hget Hentry Hcode Hcode' Hpj Hpj' Hparse).
    destruct definition as [dn dd dp dc di]. simpl in *. now subst.
Qed.

(** ** generateToolCreationPrompt *)

Lemma value_to_string_renders (v : JsValue) :
  (value_renders v = true /\ exists rendered, value_to_string v = Returned rendered) \/
  (value_renders v = false /\ exists e, value_to_string v = Raised e).
Proof.
  destruct v as [|d]; [left; split; [reflexivity|eexists; reflexivity]|].
  unfold value_renders, value_to_string, to_string.
  destruct (renders d); [left|right]; split; try reflexivity; eexists; reflexivity.
Qed.

(** One entry is read without a throw exactly when its value can be
    described. *)
Lemma read_entry_describable (value : json) :
  (describable value = true /\ read_entry value = Returned tt) \/
  (describable value = false /\ exists e, read_entry value = Raised e).
Proof.
  assert (Hdescribe : forall type description,
    (value_renders type && (negb (truthy description) || value_renders description)
     = true /\ describe type description = Returned tt) \/
    (value_renders type && (negb (truthy description) || value_renders description)
     = false /\ exists e, describe type description = Raised e)).
  { intros type description. unfold describe.
    destruct (value_to_string_renders type) as [[-> [r ->]]|[-> [e ->]]];
      [|right; split; [reflexivity|eexists; reflexivity]].
    destruct (truthy description); [|left; split; reflexivity].
    destruct (value_to_string_renders description) as [[-> [r' ->]]|[-> [e ->]]];
      [left; split; reflexivity|right; split; [reflexivity|eexists; reflexivity]]. }
  unfold describable.
  destruct value;
    try (right; split; [reflexivity|eexists; reflexivity]);
    cbn [is_null negb andb read_entry]; apply Hdescribe.
Qed.

Lemma read_entries_forallb (entries : list (string * json)) :
  (forallb (fun kv => describable (snd kv)) entries = true /\
   read_entries entries = Returned tt) \/
  (forallb (fun kv => describable (snd kv)) entries = false /\
   exists e, read_entries entries = Raised e).
Proof.
  induction entries as [|[k v] rest IH]; [left; split; reflexivity|].
  cbn [forallb read_entries snd].
  destruct (read_entry_describable v) as [[-> ->]|[-> [e ->]]];
    [|right; split; [reflexivity|eexists; reflexivity]].
  exact IH.
Qed.

Lemma forallb_imap_snd {A : Type} (p : A -> bool) (l : list A) :
  forall g : nat -> string,
    forallb (fun kv => p (snd kv)) (imap (fun i x => (g i, x)) l) = forallb p l.
Proof.
  induction l as [|x l IH]; intros g; [reflexivity|].
  simpl. f_equal. apply (IH (fun i => g (S i))).
Qed.

(** The elements of [required] are joined without a throw exactly when the
    value is an array whose elements render, or is falsy. *)
Lemma join_required_result (required : JsValue) :
  (joinable required = true /\ join_required required = Returned tt) \/
  (joinable required = false /\ exists e, join_required required = Raised e).
Proof.
  unfold joinable, join_required, to_string.
  destruct required as [|[|b|z|x|s|items|o]]; cbn [truthy negb renders];
    try (left; split; reflexivity);
    try (right; split; [reflexivity|eexists; reflexivity]).
  - destruct b; [right|left]; split; try reflexivity. eexists; reflexivity.
  - destruct (negb (z =? 0)%Z); [right|left]; split; try reflexivity.
    eexists; reflexivity.
  - destruct x; [left|right|right]; split; try reflexivity; eexists; reflexivity.
  - destruct (negb (String.eqb s "")); [right|left]; split; try reflexivity.
    eexists; reflexivity.
  - destruct (forallb renders items); [left|right]; split; try reflexivity.
    eexists; reflexivity.
Qed.

(** The prompt is produced for the well-formed schemas and for no other
    value. *)
Lemma generateToolCreationPrompt_result {Embedding : Type} (P : Platform Embedding)
    (name description : string) (schema : json) :
  (well_formed_schema schema = true /\
   generateToolCreationPrompt P name description (JsData schema)
   = Returned (prompt_text P name description schema)) \/
  (well_formed_schema schema = false /\
   exists e, generateToolCreationPrompt P name description (JsData schema) = Raised e).
Proof.
  unfold generateToolCreationPrompt, well_formed_schema.
  destruct (is_string "object" (own_property schema "type")) eqn:Htype.
  2:{ right. split; [reflexivity|]. cbn [negb]. rewrite orb_true_r.
      destruct schema; eexists; reflexivity. }
  destruct schema as [|b|z|x|s|items|fields]; try (cbv in Htype; discriminate Htype).
  cbn [truthy negb orb typeof andb]. change (String.eqb "object" "object") with true.
  cbn [negb orb].
  destruct (own_property (JObj fields) "properties") as [|[|b|z|x|s|items|props]] eqn:Hprops;
    cbn [typeof negb]; try (right; split; [reflexivity|eexists; reflexivity]).
  - cbn [Object_entries].
    rewrite <- (forallb_imap_snd describable items text_of_nat).
    destruct (read_entries_forallb (imap (fun i x => (text_of_nat i, x)) items))
      as [[-> ->]|[-> [e ->]]];
      [|right; split; [reflexivity|eexists; reflexivity]].
    cbn [andb].
    destruct (join_required_result (own_property (JObj fields) "required"))
      as [[-> ->]|[-> [e ->]]];
      [left; split; reflexivity|right; split; [reflexivity|eexists; reflexivity]].
  - cbn [Object_entries].
    destruct (read_entries_forallb props) as [[-> ->]|[-> [e ->]]];
      [|right; split; [reflexivity|eexists; reflexivity]].
    cbn [andb].
    destruct (join_required_result (own_property (JObj fields) "required"))
      as [[-> ->]|[-> [e ->]]];
      [left; split; reflexivity|right; split; [reflexivity|eexists; reflexivity]].
Qed.

(** X9.  [generateToolCreationPrompt] returns the prompt exactly for the
    well-formed schemas ([type] is ['object'], [properties] is an object or
    array whose members are not [null] and have a [type] and a
    [description] that render, [required] is an array of elements that
    render or is falsy), and throws for every other value. *)
Theorem generateToolCreationPrompt_accepts_well_formed {Embedding : Type}
    (P : Platform Embedding) (name description : string) (parameters : JsValue) :
  match generateToolCreationPrompt P name description parameters with
  | Returned prompt =>
      exists schema,
        parameters = JsData schema /\ well_formed_schema schema = true /\
        prompt = prompt_text P name description schema
  | Raised _ =>
      forall schema, parameters = JsData schema -> well_formed_schema schema = false
  end.
Proof.
  destruct parameters as [|schema]; [intros schema; discriminate|].
  destruct (generateToolCreationPrompt_result P name description schema)
    as [[Hwf ->]|[Hwf [e ->]]].
  - exists schema. auto.
  - now intros ? [= <-].
Qed.

(** A [description] that no template renders makes the function throw,
    although the schema has the shape that the check asks for. *)
Lemma generateToolCreationPrompt_unrendered_description :
  generateToolCreationPrompt Scenario.platform "greet_soul" "Return a greeting"
    (JsData (JObj [ ("type", JStr "object");
                    ("properties",
                     JObj [ ("name", JObj [ ("type", JStr "string");
                                            ("description",
                                             JObj [("toString", JNum 1)]) ]) ]) ]))
  = Raised (mkError "Cannot convert object to primitive value").
Proof. vm_compute. reflexivity. Qed.

(** ** createTool *)

Section Creation.
Context {Embedding : Type} (P : Platform Embedding).

(** The run of the generation and validation steps. *)
Lemma generate_and_validate_run (toolName prompt : string) (w : World Embedding) :
  generate_and_validate P toolName prompt w =
  match chat_completion P prompt with
  | Raised e => (Raised e, logged w [EffGenerate prompt])
  | Returned content =>
      let text := match content with Some c => trim c | None => "" end in
      let code := sanitizeGeneratedCode text toolName in
      if String.eqb text "" then
        (Raised (mkError "LLM returned empty code."), logged w [EffGenerate prompt])
      else if negb (has_signature toolName code) then
        (Raised (mkError
           ("Generated code does not start with the expected function signature 'function "
              +:+ toolName +:+ "(params) {...}' or 'async function " +:+ toolName
              +:+ "(params) {...}'. Got: " +:+ take 100 code +:+ "...")),
         logged w [EffGenerate prompt])
      else
        match new_Function P code with
        | Some syntaxError =>
            (Raised (mkError
               ("Generated code has syntax errors: " +:+ message syntaxError +:+ nl
                  +:+ "Code:" +:+ nl +:+ code)),
             logged w [EffGenerate prompt; EffSyntaxCheck code])
        | None => (Returned code, logged w [EffGenerate prompt; EffSyntaxCheck code])
        end
  end.
Proof.
  unfold generate_and_validate, bind, lift, log, raise, ret, logged.
  cbn [fst snd collection toolsCache effects].
  destruct (chat_completion P prompt) as [content|e']; [|reflexivity].
  cbv zeta.
  destruct (String.eqb _ ""); [reflexivity|].
  destruct (negb (has_signature toolName _)); [reflexivity|].
  cbn [fst snd collection toolsCache effects]. rewrite <- app_assoc.
  destruct (new_Function P _); reflexivity.
Qed.

(** The run of the storing step. *)
Lemma store_tool_run (toolName toolDescription : string) (schema : json)
    (code : string) (w : World Embedding) :
  try_catch (store_tool P toolName toolDescription schema code)
    (store_failed toolName) w =
  match get_fault P toolName with
  | Some e =>
      (Returned ("Error: Failed to store tool " +:+ toolName +:+ " in database. "
                   +:+ message e),
       logged w [EffStoreGet toolName])
  | None =>
      match collection w !! toolName with
      | Some _ =>
          (Returned ("Warning: Tool '" +:+ toolName +:+ "' already existed. Creation skipped."),
           logged w [EffStoreGet toolName])
      | None =>
          match embedQuery P (embedded_text toolName toolDescription) with
          | Raised e =>
              (Returned ("Error: Failed to store tool " +:+ toolName +:+ " in database. "
                           +:+ message e),
               logged w [EffStoreGet toolName;
                         EffEmbed (embedded_text toolName toolDescription)])
          | Returned embedding =>
              match add_fault P toolName with
              | Some e =>
                  (Returned ("Error: Failed to store tool " +:+ toolName
                               +:+ " in database. " +:+ message e),
                   logged w [EffStoreGet toolName;
                             EffEmbed (embedded_text toolName toolDescription);
                             EffStoreAdd toolName])
              | None =>
                  (Returned ("Successfully created tool: " +:+ toolName),
                   mkWorld
                     (<[toolName := mkEntry embedding
                          (new_metadata P toolName toolDescription schema code)
                          (document_text toolName toolDescription)]> (collection w))
                     (delete toolName (toolsCache w))
                     (effects w ++ [EffStoreGet toolName;
                                    EffEmbed (embedded_text toolName toolDescription);
                                    EffStoreAdd toolName]))
              end
          end
      end
  end.
Proof.
  unfold store_tool, store_failed, try_catch, bind, collection_get, embed, collection_add,
    cache_delete, lift, log, ret, logged, embedded_text, document_text.
  destruct (get_fault P toolName) as [e|]; [reflexivity|].
  destruct (collection w !! toolName) as [entry|]; [reflexivity|].
  cbn [gr_ids length Nat.ltb Nat.leb fst snd collection toolsCache effects].
  destruct (embedQuery P _) as [embedding|e]; simpl; rewrite <- ?app_assoc;
    [|reflexivity].
  destruct (add_fault P toolName) as [e|]; simpl; rewrite <- ?app_assoc; reflexivity.
Qed.

End Creation.

Lemma collection_logged {Embedding : Type} (w : World Embedding) (trace : list Effect) :
  collection (logged w trace) = collection w.
Proof. reflexivity. Qed.

Lemma success_not_error (toolName : string) :
  startsWith "Error:" ("Successfully created tool: " +:+ toolName) = false.
Proof. reflexivity. Qed.

Lemma success_injective (a b : string) :
  "Successfully created tool: " +:+ a = "Successfully created tool: " +:+ b -> a = b.
Proof. intros H. now injection H. Qed.

Local Ltac unchanged :=
  left; split; [reflexivity|]; split; [reflexivity|];
  let H := fresh in intros ? H; discriminate H.

(** X10.  [createTool] is all or nothing.  Either the collection and the
    cache are as they were and the result is not a success text, or the
    result is the success text for the requested name, which was absent, the
    collection is the old one with the new record under that name, and the
    cache has lost its entry for that name. *)
Theorem createTool_all_or_nothing {Embedding : Type} (P : Platform Embedding)
    (n d p : JsValue) (w : World Embedding) :
  let r := createTool P n d p w in
  (collection (snd r) = collection w /\ toolsCache (snd r) = toolsCache w /\
   forall toolName, fst r <> Returned ("Successfully created tool: " +:+ toolName)) \/
  (exists toolName toolDescription schema embedding code,
     n = JsData (JStr toolName) /\ d = JsData (JStr toolDescription) /\
     p = JsData schema /\
     fst r = Returned ("Successfully created tool: " +:+ toolName) /\
     collection w !! toolName = None /\
     embedQuery P (embedded_text toolName toolDescription) = Returned embedding /\
     collection (snd r)
     = <[toolName := mkEntry embedding
           (new_metadata P toolName toolDescription schema code)
           (document_text toolName toolDescription)]> (collection w) /\
     toolsCache (snd r) = delete toolName (toolsCache w)).
Proof.
  intros r. subst r.
  destruct (createTool_cases P n d p w)
    as [[Hsame Hres]|(tn & td & sc & pr & -> & -> & -> & _ & _ & Hrun)].
  { left. rewrite Hsame. split; [reflexivity|]. split; [reflexivity|].
    intros toolName Hok.
    destruct Hres as [(s & Hs & Hprefix)|(e & He & _)]; [|congruence].
    rewrite Hs in Hok. injection Hok as ->.
    rewrite success_not_error in Hprefix. discriminate. }
  rewrite Hrun. clear Hrun.
  rewrite generate_and_validate_run.
  destruct (chat_completion P pr) as [content|e'].
  2:{ unchanged. }
  cbv zeta.
  destruct (String.eqb _ "").
  { unchanged. }
  destruct (negb (has_signature tn _)).
  { unchanged. }
  destruct (new_Function P _).
  { unchanged. }
  rewrite store_tool_run.
  destruct (get_fault P tn).
  { unchanged. }
  rewrite collection_logged.
  destruct (collection w !! tn) eqn:Hentry.
  { unchanged. }
  destruct (embedQuery P _) as [embedding|e1] eqn:Hembed.
  2:{ unchanged. }
  destruct (add_fault P tn).
  { unchanged. }
  right. exists tn, td, sc, embedding. eexists.
  repeat split; try reflexivity; assumption.
Qed.

Local Ltac step_done :=
  cbn [fst snd]; unfold logged; cbn [effects]; rewrite <- ?app_assoc;
  split; [reflexivity|];
  repeat split; intros; try lia; try assumption; try reflexivity;
  match goal with H : _ = Returned _ |- _ => discriminate H end.

(** X11.  On a request that passed the validation, the effects of
    [createTool] are a prefix of: ask the provider, check the syntax, look
    the name up, embed, write.  The syntax check is reached only by code
    with the expected signature, the store only by code that parsed, the
    embedding only when the name was looked up and is absent; and a success
    text means all five steps ran. *)
Theorem createTool_steps_in_order {Embedding : Type} (P : Platform Embedding)
    (toolName toolDescription : string) (schema : json) (prompt : string)
    (w : World Embedding) :
  toolDescription <> "" ->
  is_identifier toolName = true ->
  generateToolCreationPrompt P toolName toolDescription (JsData schema) = Returned prompt ->
  let r := createTool P (JsData (JStr toolName)) (JsData (JStr toolDescription))
             (JsData schema) w in
  exists k code,
    effects (snd r)
    = effects w ++ firstn k (creation_steps toolName toolDescription prompt code) /\
    1 <= k <= 5 /\
    (2 <= k -> has_signature toolName code = true) /\
    (3 <= k -> new_Function P code = None) /\
    (4 <= k -> get_fault P toolName = None /\ collection w !! toolName = None) /\
    (fst r = Returned ("Successfully created tool: " +:+ toolName) -> k = 5).
Proof.
  intros Hdesc Hident Hprompt r. subst r.
  rewrite (createTool_accepted P _ _ _ _ w Hdesc Hident Hprompt).
  rewrite generate_and_validate_run.
  destruct (chat_completion P prompt) as [content|e'].
  2:{ exists 1, "". step_done. }
  cbv zeta.
  destruct (String.eqb _ ""); [exists 1, ""; step_done|].
  destruct (has_signature toolName _) eqn:Hsig; cbn [negb]; [|exists 1, ""; step_done].
  destruct (new_Function P _) eqn:Hsyntax; [eexists 2, _; step_done|].
  rewrite store_tool_run, collection_logged.
  destruct (get_fault P toolName) eqn:Hget; [eexists 3, _; step_done|].
  destruct (collection w !! toolName) eqn:Hentry; [eexists 3, _; step_done|].
  destruct (embedQuery P _) as [embedding|e1]; [|eexists 4, _; step_done].
  destruct (add_fault P toolName); eexists 5, _; step_done.
Qed.

Lemma createTool_steps_in_order_witness :
  exists k code,
    effects Scenario.greet_world
    = firstn k (creation_steps "greet_soul" "Return a greeting for a soul name"
                  "Write the function greet_soul: Return a greeting for a soul name" code) /\
    k = 5.
Proof.
  destruct (createTool_steps_in_order Scenario.platform "greet_soul"
              "Return a greeting for a soul name" Scenario.greet_schema
              "Write the function greet_soul: Return a greeting for a soul name"
              Scenario.empty_world)
    as (k & code & Heffects & _ & _ & _ & _ & Hk).
  - discriminate.
  - reflexivity.
  - vm_compute. reflexivity.
  - exists k, code. split; [exact Heffects|]. apply Hk. vm_compute. reflexivity.
Defined.

(** X12.  When the provider answers without content, or with white space
    only, [createTool] returns the error text of the empty completion, and
    asking the provider was its only effect: nothing is checked, looked up
    or written. *)
Theorem createTool_empty_completion {Embedding : Type} (P : Platform Embedding)
    (toolName toolDescription : string) (schema : json) (prompt : string)
    (w : World Embedding) :
  toolDescription <> "" ->
  is_identifier toolName = true ->
  generateToolCreationPrompt P toolName toolDescription (JsData schema) = Returned prompt ->
  chat_completion P prompt = Returned None \/
  (exists content, chat_completion P prompt = Returned (Some content) /\
                   all_space content = true) ->
  createTool P (JsData (JStr toolName)) (JsData (JStr toolDescription)) (JsData schema) w
  = (Returned ("Error: Failed to generate or validate code for tool " +:+ toolName
                 +:+ ". LLM returned empty code."),
     logged w [EffGenerate prompt]).
Proof.
  intros Hdesc Hident Hprompt Hempty.
  rewrite (createTool_accepted P _ _ _ _ w Hdesc Hident Hprompt).
  rewrite generate_and_validate_run.
  destruct Hempty as [->|(content & -> & Hspace)]; [reflexivity|].
  cbv zeta. rewrite (trim_all_space _ Hspace). reflexivity.
Qed.

Lemma createTool_empty_completion_witness :
  createTool Scenario2.silent (JsData (JStr "greet_soul"))
    (JsData (JStr "Return a greeting for a soul name")) (JsData Scenario.greet_schema)
    Scenario.empty_world
  = (Returned "Error: Failed to generate or validate code for tool greet_soul. LLM returned empty code.",
     logged Scenario.empty_world
       [EffGenerate "Write the function greet_soul: Return a greeting for a soul name"]).
Proof.
  apply (createTool_empty_completion Scenario2.silent "greet_soul"
           "Return a greeting for a soul name" Scenario.greet_schema
           "Write the function greet_soul: Return a greeting for a soul name"
           Scenario.empty_world).
  - discriminate.
  - reflexivity.
  - vm_compute. reflexivity.
  - right. eexists. split; [reflexivity|]. reflexivity.
Defined.

(** A request that passed the validation ends normally. *)
Lemma createTool_accepted_returns {Embedding : Type} (P : Platform Embedding)
    (toolName toolDescription : string) (schema : json) (prompt : string)
    (w : World Embedding) :
  toolDescription <> "" ->
  is_identifier toolName = true ->
  generateToolCreationPrompt P toolName toolDescription (JsData schema) = Returned prompt ->
  exists s, fst (createTool P (JsData (JStr toolName)) (JsData (JStr toolDescription))
                   (JsData schema) w) = Returned s.
Proof.
  intros Hdesc Hident Hprompt.
  rewrite (createTool_accepted P _ _ _ _ w Hdesc Hident Hprompt).
  rewrite generate_and_validate_run.
  destruct (chat_completion P prompt) as [content|e']; [|eexists; reflexivity].
  cbv zeta.
  destruct (String.eqb _ ""); [eexists; reflexivity|].
  destruct (negb (has_signature toolName _)); [eexists; reflexivity|].
  destruct (new_Function P _); [eexists; reflexivity|].
  rewrite store_tool_run.
  destruct (get_fault P toolName); [eexists; reflexivity|].
  destruct (collection _ !! toolName); [eexists; reflexivity|].
  destruct (embedQuery P _); [|eexists; reflexivity].
  destruct (add_fault P toolName); eexists; reflexivity.
Qed.

Lemma createTool_empty_description {Embedding : Type} (P : Platform Embedding)
    (toolName : string) (p : JsValue) (w : World Embedding) :
  createTool P (JsData (JStr toolName)) (JsData (JStr "")) p w
  = (Returned "Error: Missing required arguments for tool creation (name, description, parameters).", w).
Proof.
  unfold createTool, bind, lift. cbn [value_to_string to_string renders].
  cbn [truthy String.eqb negb]. now rewrite orb_true_r.
Qed.

Lemma is_identifier_nonempty (s : string) : is_identifier s = true -> s <> "".
Proof. now intros H ->. Qed.

(** X13.  [createTool] raises exactly when the name does not render, so
    that the template of the first debug message throws, or when the name
    is an identifier, the description is a non-empty string, and the
    parameters are an object or array that is not a well-formed schema; and
    then it leaves the world as it was. *)
Theorem createTool_raises_iff {Embedding : Type} (P : Platform Embedding)
    (n d p : JsValue) (w : World Embedding) :
  ((exists e, fst (createTool P n d p w) = Raised e) <->
   value_renders n = false \/
   exists toolName toolDescription schema,
     n = JsData (JStr toolName) /\ d = JsData (JStr toolDescription) /\
     p = JsData schema /\
     is_identifier toolName = true /\ toolDescription <> "" /\
     typeof p = "object" /\ schema <> JNull /\
     well_formed_schema schema = false) /\
  ((exists e, fst (createTool P n d p w) = Raised e) -> snd (createTool P n d p w) = w).
Proof.
  split.
  2:{ intros [e He].
      destruct (createTool_cases P n d p w)
        as [[Hsame _]|(tn & td & sc & pr & -> & -> & -> & Hident & Hprompt & _)];
        [exact Hsame|].
      assert (Hdesc : td <> "").
      { intros ->. rewrite createTool_empty_description in He. discriminate He. }
      destruct (createTool_accepted_returns P tn td sc pr w Hdesc Hident Hprompt) as [s Hs].
      congruence. }
  split.
  - intros [e He].
    destruct (createTool_cases P n d p w)
      as [[_ [(s & Hs & _)|(e' & _ & [Hrender|(tn & td & -> & -> & Hraised)])]]
         |(tn & td & sc & pr & -> & -> & -> & Hident & Hprompt & _)].
    + congruence.
    + left. destruct (value_to_string_renders n) as [[_ [r Hr]]|[Hn _]];
        [congruence|exact Hn].
    + right. destruct p as [|schema].
      { rewrite (createTool_nullish P _ _ _ w tn) in He by auto. discriminate He. }
      destruct (String.eqb td "") eqn:Hdesc.
      { apply String.eqb_eq in Hdesc as ->.
        rewrite createTool_empty_description in He. discriminate He. }
      apply String.eqb_neq in Hdesc.
      unfold createTool, bind at 1, lift at 1 in He.
      cbn [value_to_string to_string renders] in He.
      destruct (is_identifier tn) eqn:Hident.
      2:{ destruct (negb (truthy (JsData (JStr tn))) || negb (truthy (JsData (JStr td)))
                    || negb (truthy (JsData schema))); [discriminate He|].
          destruct (negb (String.eqb (typeof (JsData schema)) "object")); discriminate He. }
      destruct (truthy (JsData schema)) eqn:Htruthy.
      2:{ cbn [negb] in He. rewrite orb_true_r in He. discriminate He. }
      destruct (String.eqb (typeof (JsData schema)) "object") eqn:Htype.
      2:{ destruct (negb (truthy (JsData (JStr tn))) || negb (truthy (JsData (JStr td)))
                    || negb true); discriminate He. }
      exists tn, td, schema. apply String.eqb_eq in Htype.
      repeat split; try assumption; try reflexivity.
      * intros ->. discriminate Htruthy.
      * destruct (generateToolCreationPrompt_result P tn td schema)
          as [[_ Hok]|[Hwf _]]; [congruence|exact Hwf].
    + assert (Hdesc : td <> "").
      { intros ->. rewrite createTool_empty_description in He. discriminate He. }
      destruct (createTool_accepted_returns P tn td sc pr w Hdesc Hident Hprompt) as [s Hs].
      congruence.
  - intros [Hrender|(tn & td & schema & -> & -> & -> & Hident & Hdesc & Htype & Hnull & Hwf)].
    { destruct (value_to_string_renders n) as [[Hn _]|[_ [e He]]]; [congruence|].
      exists e. unfold createTool, bind, lift. now rewrite He. }
    destruct (generateToolCreationPrompt_result P tn td schema)
      as [[Hwf' _]|[_ [e He]]]; [congruence|].
    exists e. unfold createTool, bind at 1, lift at 1.
    cbn [value_to_string to_string renders].
    assert (Htruthy : truthy (JsData schema) = true).
    { destruct schema as [| | |[]| | |]; try reflexivity; try discriminate Htype.
      contradiction. }
    apply String.eqb_neq in Hdesc. pose proof (is_identifier_nonempty _ Hident) as Hname.
    apply String.eqb_neq in Hname.
    cbn [truthy]. rewrite Hname, Hdesc. fold (truthy (JsData schema)). rewrite Htruthy.
    cbn [negb orb]. rewrite Htype. change (String.eqb "object" "object") with true.
    cbn [negb]. rewrite Hident. cbn [negb].
    unfold bind, lift. rewrite He. reflexivity.
Qed.

(** A name that no template renders makes [createTool] raise at its first
    statement, before any check. *)
Lemma createTool_unrendered_name :
  createTool Scenario.platform (JsData (JObj [("toString", JNum 1)]))
    (JsData (JStr "Return a greeting for a soul name"))
    (JsData Scenario.greet_schema) Scenario.empty_world
  = (Raised (mkError "Cannot convert object to primitive value"),
     Scenario.empty_world).
Proof. vm_compute. reflexivity. Qed.

(** X14.  A second creation under the name of a tool never writes again.
    After a call of [createTool] that reported success, the same request,
    whatever the provider and the store answer this time, leaves the
    collection and the cache as the first call left them and returns an
    error text or the warning; it returns the warning when the answer of the
    provider passes the checks again and the store answers the lookup. *)
Theorem createTool_again_is_skipped {Embedding : Type} (P1 P2 : Platform Embedding)
    (toolName toolDescription : string) (schema : json) (w : World Embedding) :
  fst (createTool P1 (JsData (JStr toolName)) (JsData (JStr toolDescription))
         (JsData schema) w)
  = Returned ("Successfully created tool: " +:+ toolName) ->
  forall again,
    again = createTool P2 (JsData (JStr toolName)) (JsData (JStr toolDescription))
              (JsData schema)
              (snd (createTool P1 (JsData (JStr toolName))
                      (JsData (JStr toolDescription)) (JsData schema) w)) ->
    collection (snd again)
    = collection (snd (createTool P1 (JsData (JStr toolName))
                         (JsData (JStr toolDescription)) (JsData schema) w)) /\
    toolsCache (snd again)
    = toolsCache (snd (createTool P1 (JsData (JStr toolName))
                         (JsData (JStr toolDescription)) (JsData schema) w)) /\
    (exists s, fst again = Returned s /\
       (startsWith "Error:" s = true \/
        s = "Warning: Tool '" +:+ toolName +:+ "' already existed. Creation skipped.")) /\
    (forall content,
       chat_completion P2 (prompt_text P2 toolName toolDescription schema)
       = Returned (Some content) ->
       trim content <> "" ->
       has_signature toolName (sanitizeGeneratedCode (trim content) toolName) = true ->
       new_Function P2 (sanitizeGeneratedCode (trim content) toolName) = None ->
       get_fault P2 toolName = None ->
       fst again
       = Returned ("Warning: Tool '" +:+ toolName +:+ "' already existed. Creation skipped.")).
Proof.
  intros Hok again ->.
  destruct (createTool_cases P1 (JsData (JStr toolName)) (JsData (JStr toolDescription))
              (JsData schema) w)
    as [[_ [(s & Hs & Hprefix)|(e & He & _)]]
       |(tn & td & sc & prompt & [= <-] & [= <-] & [= <-] & Hident & Hprompt & _)].
  { rewrite Hs in Hok. injection Hok as ->.
    rewrite success_not_error in Hprefix. discriminate. }
  { congruence. }
  assert (Hdesc : toolDescription <> "").
  { intros ->. rewrite createTool_empty_description in Hok. discriminate Hok. }
  assert (Hprompt2 : generateToolCreationPrompt P2 toolName toolDescription (JsData schema)
                     = Returned (prompt_text P2 toolName toolDescription schema)).
  { destruct (generateToolCreationPrompt_result P1 toolName toolDescription schema)
      as [[Hwf _]|[_ [e He]]]; [|congruence].
    destruct (generateToolCreationPrompt_result P2 toolName toolDescription schema)
      as [[_ H2]|[Hwf2 _]]; [exact H2|congruence]. }
  assert (Hentry : is_Some (collection
            (snd (createTool P1 (JsData (JStr toolName)) (JsData (JStr toolDescription))
                    (JsData schema) w)) !! toolName)).
  { revert Hok.
    rewrite !(createTool_accepted P1 _ _ _ _ _ Hdesc Hident Hprompt).
    rewrite !generate_and_validate_run.
    destruct (chat_completion P1 prompt) as [content|e']; [|discriminate].
    cbv zeta.
    destruct (String.eqb _ ""); [discriminate|].
    destruct (negb (has_signature toolName _)); [discriminate|].
    destruct (new_Function P1 _); [discriminate|].
    rewrite !store_tool_run.
    destruct (get_fault P1 toolName); [discriminate|].
    rewrite collection_logged.
    destruct (collection w !! toolName); [discriminate|].
    destruct (embedQuery P1 _) as [embedding|e1]; [|discriminate].
    destruct (add_fault P1 toolName); [discriminate|].
    intros _. cbn [fst snd collection]. rewrite lookup_insert_eq. eauto. }
  destruct Hentry as [entry Hentry]. clear Hok Hprompt.
  revert Hentry.
  generalize (snd (createTool P1 (JsData (JStr toolName)) (JsData (JStr toolDescription))
                     (JsData schema) w)).
  intros w1 Hentry.
  rewrite (createTool_accepted P2 _ _ _ _ w1 Hdesc Hident Hprompt2).
  rewrite generate_and_validate_run.
  destruct (chat_completion P2 _) as [content|e'].
  2:{ repeat split; [eexists; split; [reflexivity|now left]|discriminate]. }
  cbv zeta.
  destruct (String.eqb _ "") eqn:Hempty.
  { repeat split; [eexists; split; [reflexivity|now left]|].
    intros c [= ->] Hc. apply String.eqb_eq in Hempty. contradiction. }
  destruct (negb (has_signature toolName _)) eqn:Hsig.
  { repeat split; [eexists; split; [reflexivity|now left]|].
    intros c [= ->] _ Hc. rewrite Hc in Hsig. discriminate Hsig. }
  destruct (new_Function P2 _) eqn:Hsyntax.
  { repeat split; [eexists; split; [reflexivity|now left]|].
    intros c [= ->] _ _ Hc. congruence. }
  rewrite store_tool_run.
  destruct (get_fault P2 toolName).
  { repeat split; [eexists; split; [reflexivity|now left]|discriminate]. }
  rewrite collection_logged, Hentry.
  repeat split. eexists. split; [reflexivity|now right].
Qed.

Lemma createTool_again_is_skipped_witness :
  fst (createTool Scenario.platform (JsData (JStr "greet_soul"))
         (JsData (JStr "Return a greeting for a soul name"))
         (JsData Scenario.greet_schema) Scenario.greet_world)
  = Returned "Warning: Tool 'greet_soul' already existed. Creation skipped.".
Proof.
  refine (proj2 (proj2 (proj2
            (createTool_again_is_skipped Scenario.platform Scenario.platform
               "greet_soul" "Return a greeting for a soul name" Scenario.greet_schema
               Scenario.empty_world _ _ eq_refl)))
            ("```javascript" +:+ nl +:+ Scenario.greet_code +:+ nl +:+ "```")
            _ _ _ _ _).
  - vm_compute. reflexivity.
  - reflexivity.
  - vm_compute. discriminate.
  - vm_compute. reflexivity.
  - reflexivity.
  - reflexivity.
Defined.

(** ** executeTool *)

Section Execution.
Context {Embedding : Type} (P : Platform Embedding).

(** The run of the [try] block of the dynamic execution. *)
Lemma execute_stored_run (toolName toolCode : string) (schema : json)
    (args : JsValue) (w : World Embedding) :
  execute_stored P toolName toolCode schema args w =
  match required_check P toolName schema args with
  | Raised e => (Raised e, w)
  | Returned _ =>
      match run_wrapper P toolName toolCode args with
      | WrapperSyntaxError e => (Raised e, logged w [EffCompile toolName toolCode])
      | run =>
          (Returned (wrapper_body toolName run),
           logged w [EffCompile toolName toolCode; EffInvoke toolName args])
      end
  end.
Proof.
  unfold execute_stored, required_check, bind, lift, log, raise, ret, logged.
  destruct (truthy (JsData schema) && truthy (own_property schema "required")).
  - destruct (iterate _ _) as [params|e]; [|reflexivity].
    destruct (check_required P _ args params) as [u|e]; [|reflexivity].
    cbn [fst snd collection toolsCache effects].
    destruct (run_wrapper P toolName toolCode args); cbn; rewrite <- ?app_assoc;
      reflexivity.
  - cbn [fst snd collection toolsCache effects].
    destruct (run_wrapper P toolName toolCode args); cbn; rewrite <- ?app_assoc;
      reflexivity.
Qed.

(** A name that renders and that the arguments do not lack passes the
    check. *)
Lemma reads_nullish_found (args : JsValue) (param : json) :
  renders param = true -> lacks P args (to_text param) = false ->
  reads_nullish P args param = Returned false.
Proof.
  unfold reads_nullish, to_string, lacks. intros -> H.
  destruct args as [|[]]; try discriminate H; now rewrite H.
Qed.

Lemma check_required_present (missing : string -> string) (args : JsValue)
    (required : list json) :
  (forall p, In p required ->
     renders p = true /\ lacks P args (to_text p) = false) ->
  check_required P missing args required = Returned tt.
Proof.
  induction required as [|q rest IH]; intros H; [reflexivity|].
  simpl. destruct (H q (or_introl eq_refl)) as [Hrenders Hq].
  rewrite (reads_nullish_found args q Hrenders Hq).
  apply IH. intros p Hp. apply H. now right.
Qed.


Lemma required_check_present (toolName : string) (schema : json) (args : JsValue) :
  own_property schema "required" = JsUndefined \/
  (exists items,
     own_property schema "required" = JsData (JArr items) /\
     forall p, In p items ->
       renders p = true /\ lacks P args (to_text p) = false) ->
  required_check P toolName schema args = Returned tt.
Proof.
  unfold required_check. intros [->|(items & -> & Hall)].
  - now rewrite andb_false_r.
  - destruct (truthy (JsData schema)); [|reflexivity]. simpl.
    now apply check_required_present.
Qed.

(** The run of [executeTool] on a name that is not the reserved one. *)
Lemma executeTool_stored_run (toolName : string) (args : JsValue) (w : World Embedding) :
  toolName <> reserved ->
  exists found,
    getToolDefinition P toolName w = (Returned found, logged w [EffStoreGet toolName]) /\
    executeTool P toolName args w =
    match found with
    | None =>
        (Returned (Fulfilled (string_value
           ("Error: Tool '" +:+ toolName +:+ "' not found or definition is corrupted."))),
         logged w [EffStoreGet toolName])
    | Some definition =>
        if def_is_internal definition then
          (Returned (Fulfilled (string_value
             ("Error: Cannot execute internal tool '" +:+ toolName +:+ "' directly."))),
           logged w [EffStoreGet toolName])
        else if String.eqb (def_code definition) "" then
          (Returned (Fulfilled (string_value
             ("Error: Invalid or missing code for tool '" +:+ toolName +:+ "'."))),
           logged w [EffStoreGet toolName])
        else
          match required_check P toolName (def_parameters definition) args with
          | Raised e =>
              (Returned (Fulfilled (string_value (wrapper_failed toolName (message e)))),
               logged w [EffStoreGet toolName])
          | Returned _ =>
              match run_wrapper P toolName (def_code definition) args with
              | WrapperSyntaxError e =>
                  (Returned (Fulfilled
                     (string_value (wrapper_failed toolName (message e)))),
                   logged w [EffStoreGet toolName;
                             EffCompile toolName (def_code definition)])
              | run =>
                  (Returned (finish_stored toolName (wrapper_body toolName run)),
                   logged w [EffStoreGet toolName;
                             EffCompile toolName (def_code definition);
                             EffInvoke toolName args])
              end
          end
    end.
Proof.
  intros Hname. destruct (getToolDefinition_total P toolName w) as [found Hfound].
  exists found. split; [exact Hfound|].
  unfold executeTool. apply String.eqb_neq in Hname. unfold reserved in Hname.
  rewrite Hname. unfold bind at 1. rewrite Hfound.
  destruct found as [definition|]; [|reflexivity].
  destruct (def_is_internal definition); [reflexivity|].
  destruct (String.eqb (def_code definition) ""); [reflexivity|].
  unfold bind, try_catch, ret. rewrite execute_stored_run.
  destruct (required_check P toolName (def_parameters definition) args); [|reflexivity].
  destruct (run_wrapper P toolName (def_code definition) args) as [e|t|r| |r|t];
    unfold logged; cbn [collection toolsCache effects]; rewrite <- ?app_assoc;
    reflexivity.
Qed.

End Execution.


(** What the check of the reserved tool reads for an argument that is
    present. *)
Lemma reads_nullish_present {Embedding : Type} (P : Platform Embedding)
    (args : JsValue) (key : string) (v : JsValue) :
  property args key = Returned v -> nullish v = false ->
  reads_nullish P args (JStr key) = Returned false.
Proof.
  intros Hread Hv. apply reads_nullish_found; [reflexivity|].
  unfold lacks, misses. cbn [to_text].
  destruct args as [|d]; [discriminate Hread|].
  assert (Hown : own_property d key = v).
  { destruct d; try discriminate Hread; now injection Hread. }
  destruct d; try discriminate Hread; rewrite Hown;
    (destruct v; [discriminate Hv|exact Hv]).
Qed.

(** X16.  On the reserved name with the three arguments present and of the
    right types, [executeTool] is [createTool]: it returns what [createTool]
    returns and leaves the world [createTool] leaves; when [createTool]
    throws, the error becomes the text
    [Error: Failed to execute tool_creation. <message>]. *)
Theorem executeTool_reserved_delegates {Embedding : Type} (P : Platform Embedding)
    (args n d p : JsValue) (w : World Embedding) :
  property args "new_tool_name" = Returned n ->
  property args "new_tool_description" = Returned d ->
  property args "new_tool_parameters" = Returned p ->
  typeof n = "string" -> typeof d = "string" ->
  typeof p = "object" -> nullish p = false ->
  executeTool P reserved args w =
  match createTool P n d p w with
  | (Returned s, w') => (Returned (Fulfilled (string_value s)), w')
  | (Raised e, w') =>
      (Returned (Fulfilled (string_value
         ("Error: Failed to execute tool_creation. " +:+ message e))), w')
  end.
Proof.
  intros Hn Hd Hp Htn Htd Htp Hnull.
  assert (Hstring : forall v, typeof v = "string" -> nullish v = false).
  { intros [|[]]; try discriminate; reflexivity. }
  unfold executeTool, try_catch, execute_creation, bind, lift, raise, ret.
  change (String.eqb reserved (name TOOL_CREATION_TOOL_DEFINITION)) with true.
  change (iterate "required"
            (own_property (parameters TOOL_CREATION_TOOL_DEFINITION) "required"))
    with (Returned (A:=list json)
            [JStr "new_tool_name"; JStr "new_tool_description"; JStr "new_tool_parameters"]).
  cbn [check_required].
  rewrite (reads_nullish_present P args _ n Hn (Hstring n Htn)).
  rewrite (reads_nullish_present P args _ d Hd (Hstring d Htd)).
  rewrite (reads_nullish_present P args _ p Hp Hnull).
  rewrite Hn, Hd, Hp, Htn, Htd, Htp.
  cbn -[createTool]. destruct (createTool P n d p w) as [[s|e] w']; reflexivity.
Qed.

Lemma executeTool_reserved_delegates_witness :
  executeTool Scenario.platform reserved
    (JsData (JObj [ ("new_tool_name", JStr "greet_soul");
                    ("new_tool_description", JStr "Return a greeting for a soul name");
                    ("new_tool_parameters", JObj []) ]))
    Scenario.empty_world
  = (Returned (Fulfilled (string_value
       "Error: Failed to execute tool_creation. Invalid parameters schema provided for new tool creation.")),
     Scenario.empty_world).
Proof.
  apply (executeTool_reserved_delegates Scenario.platform
           (JsData (JObj [ ("new_tool_name", JStr "greet_soul");
                           ("new_tool_description", JStr "Return a greeting for a soul name");
                           ("new_tool_parameters", JObj []) ]))
           (JsData (JStr "greet_soul"))
           (JsData (JStr "Return a greeting for a soul name"))
           (JsData (JObj [])) Scenario.empty_world); reflexivity.
Defined.


(** X17.  What [createTool] stored is what [executeTool] runs.  After a
    successful creation, in any later world that still holds the record,
    when the store answers the lookup and the engine's JSON reads the schema
    back, executing the tool with arguments on which every required name is
    found looks the name up, compiles exactly the code that was validated,
    invokes it once with the arguments, and settles as the run of the
    wrapper makes it: with what the code hands back, or with an error text,
    or rejected. *)
Theorem createTool_then_executeTool {Embedding : Type} (P1 P2 : Platform Embedding)
    (toolName toolDescription : string) (schema : json) (args : JsValue)
    (w w2 : World Embedding) :
  fst (createTool P1 (JsData (JStr toolName)) (JsData (JStr toolDescription))
         (JsData schema) w)
  = Returned ("Successfully created tool: " +:+ toolName) ->
  toolName <> reserved ->
  collection w2 !! toolName
  = collection (snd (createTool P1 (JsData (JStr toolName))
                       (JsData (JStr toolDescription)) (JsData schema) w))
      !! toolName ->
  get_fault P2 toolName = None ->
  JSON_stringify P1 schema <> "" ->
  JSON_parse P2 (JSON_stringify P1 schema) = Returned schema ->
  own_property schema "required" = JsUndefined \/
  (exists items,
     own_property schema "required" = JsData (JArr items) /\
     forall p, In p items ->
       renders p = true /\ lacks P2 args (to_text p) = false) ->
  exists code,
    has_signature toolName code = true /\ new_Function P1 code = None /\
    executeTool P2 toolName args w2 =
    match run_wrapper P2 toolName code args with
    | WrapperSyntaxError e =>
        (Returned (Fulfilled (string_value (wrapper_failed toolName (message e)))),
         logged w2 [EffStoreGet toolName; EffCompile toolName code])
    | run =>
        (Returned (finish_stored toolName (wrapper_body toolName run)),
         logged w2 [EffStoreGet toolName; EffCompile toolName code;
                    EffInvoke toolName args])
    end.
Proof.
  intros Hok Hname Hsame Hget Htext Hparse Hargs.
  destruct (createTool_cases P1 (JsData (JStr toolName)) (JsData (JStr toolDescription))
              (JsData schema) w)
    as [[_ [(s & Hs & Hprefix)|(e & He & _)]]
       |(tn & td & sc & prompt & [= <-] & [= <-] & [= <-] & Hident & Hprompt & _)].
  { rewrite Hs in Hok. injection Hok as ->.
    rewrite success_not_error in Hprefix. discriminate. }
  { congruence. }
  assert (Hdesc : toolDescription <> "").
  { intros ->. rewrite createTool_empty_description in Hok. discriminate Hok. }
  revert Hok Hsame.
  rewrite !(createTool_accepted P1 _ _ _ _ _ Hdesc Hident Hprompt).
  rewrite generate_and_validate_run.
  destruct (chat_completion P1 prompt) as [content|e']; [|discriminate].
  cbv zeta.
  destruct (String.eqb _ ""); [discriminate|].
  set (code := sanitizeGeneratedCode _ toolName).
  destruct (has_signature toolName code) eqn:Hsig; cbn [negb]; [|discriminate].
  destruct (new_Function P1 code) eqn:Hsyntax; [discriminate|].
  rewrite store_tool_run.
  destruct (get_fault P1 toolName); [discriminate|].
  rewrite collection_logged.
  destruct (collection w !! toolName); [discriminate|].
  destruct (embedQuery P1 _) as [embedding|e1]; [|discriminate].
  destruct (add_fault P1 toolName); [discriminate|].
  intros _. cbn [fst snd collection]. rewrite lookup_insert_eq. intros Hentry.
  exists code. split; [exact Hsig|]. split; [exact Hsyntax|].
  destruct (executeTool_stored_run P2 toolName args w2 Hname) as (found & Hfound & ->).
  pose proof (getToolDefinition_found P2 toolName w2 _ code (JSON_stringify P1 schema)
                schema Hget Hentry eq_refl (has_signature_nonempty _ _ Hsig)
                eq_refl Htext Hparse) as Hdef.
  rewrite Hfound in Hdef. cbn [fst] in Hdef. injection Hdef as ->.
  cbn [def_is_internal def_code def_parameters new_metadata md_is_internal].
  apply has_signature_nonempty, String.eqb_neq in Hsig. rewrite Hsig.
  rewrite (required_check_present P2 toolName schema args Hargs).
  reflexivity.
Qed.

Lemma createTool_then_executeTool_witness :
  exists code,
    has_signature "greet_soul" code = true /\
    new_Function Scenario.platform code = None /\
    executeTool Scenario.platform "greet_soul" (JsData (JObj [("name", JStr "Aria")]))
      Scenario.greet_world =
    match run_wrapper Scenario.platform "greet_soul" code
            (JsData (JObj [("name", JStr "Aria")])) with
    | WrapperSyntaxError e =>
        (Returned (Fulfilled (string_value (wrapper_failed "greet_soul" (message e)))),
         logged Scenario.greet_world
           [EffStoreGet "greet_soul"; EffCompile "greet_soul" code])
    | run =>
        (Returned (finish_stored "greet_soul" (wrapper_body "greet_soul" run)),
         logged Scenario.greet_world
           [EffStoreGet "greet_soul"; EffCompile "greet_soul" code;
            EffInvoke "greet_soul" (JsData (JObj [("name", JStr "Aria")]))])
    end.
Proof.
  refine (createTool_then_executeTool Scenario.platform Scenario.platform "greet_soul"
            "Return a greeting for a soul name" Scenario.greet_schema
            (JsData (JObj [("name", JStr "Aria")])) Scenario.empty_world
            Scenario.greet_world _ _ _ _ _ _ _).
  - vm_compute. reflexivity.
  - discriminate.
  - reflexivity.
  - reflexivity.
  - vm_compute. discriminate.
  - vm_compute. reflexivity.
  - right. exists [JStr "name"]. split; [reflexivity|].
    intros p [<-|[]]. split; reflexivity.
Defined.

(** ** getAvailableTools *)

Lemma available_loop_length {Embedding : Type} (P : Platform Embedding)
    (r : QueryResult) (ids : list string) :
  forall i more, available_loop P ids i r = Returned more -> length more <= length ids.
Proof.
  induction ids as [|toolId rest IH]; simpl; intros i more H.
  - injection H as <-. reflexivity.
  - destruct (available_entry P toolId i r) as [found|e]; [|discriminate].
    destruct (available_loop P rest (S i) r) as [more'|e] eqn:Hloop; [|discriminate].
    injection H as <-. pose proof (IH _ _ Hloop). destruct found; simpl; lia.
Qed.

(** X18.  [getAvailableTools] only reads: the collection and the cache are
    as they were, its effects are the embedding request and at most one
    query, and it returns between one descriptor and one more than the
    number of identifiers the query answered with. *)
Theorem getAvailableTools_bounded_read_only {Embedding : Type}
    (P : Platform Embedding) (contextQuery : string) (count bound : nat)
    (w : World Embedding) :
  (forall embedding r first others,
     embedQuery P contextQuery = Returned embedding ->
     collection_query P (collection w) embedding count = Returned (Some r) ->
     qr_ids r = Some (first :: others) -> length first <= bound) ->
  exists tools trace,
    getAvailableTools P contextQuery count w
    = (Returned tools, logged w (EffEmbed contextQuery :: trace)) /\
    (trace = [] \/ trace = [EffStoreQuery count]) /\
    1 <= length tools <= 1 + bound.
Proof.
  intros Hbound.
  unfold getAvailableTools, try_catch, bind, embed, query, lift, log, ret, logged.
  cbn [fst snd collection toolsCache effects].
  destruct (embedQuery P contextQuery) as [embedding|e] eqn:Hembed.
  2:{ eexists _, []. split; [reflexivity|]. split; [now left|]. simpl. lia. }
  simpl.
  destruct (collection_query P (collection w) embedding count) as [[r|]|e] eqn:Hquery.
  2,3: eexists _, [_]; cbn; rewrite <- ?app_assoc; (split; [reflexivity|]);
    split; [now right|simpl; lia].
  destruct (qr_ids r) as [[|first others]|] eqn:Hids.
  1,3: eexists _, [_]; cbn; rewrite <- ?app_assoc; (split; [reflexivity|]);
    split; [now right|simpl; lia].
  destruct (available_loop P first 0 r) as [more|e] eqn:Hloop.
  - eexists _, [_]. cbn. rewrite <- ?app_assoc. split; [reflexivity|].
    split; [now right|].
    pose proof (available_loop_length P r first 0 more Hloop).
    pose proof (Hbound _ _ _ _ eq_refl Hquery Hids). simpl. lia.
  - eexists _, [_]. cbn. rewrite <- ?app_assoc. split; [reflexivity|].
    split; [now right|]. simpl. lia.
Qed.

Lemma getAvailableTools_bounded_read_only_witness :
  exists tools trace,
    getAvailableTools Scenario.platform "greeting" 5 Scenario.greet_world
    = (Returned tools, logged Scenario.greet_world (EffEmbed "greeting" :: trace)) /\
    (trace = [] \/ trace = [EffStoreQuery 5]) /\
    1 <= length tools <= 1 + 5.
Proof.
  apply (getAvailableTools_bounded_read_only Scenario.platform "greeting" 5 5
           Scenario.greet_world).
  generalize (collection Scenario.greet_world). intros c embedding r first others _.
  change (collection_query Scenario.platform c embedding 5)
    with (Returned (A:=option QueryResult) (Some (Scenario.all_records c 5))).
  intros [= <-] [= <- _]. rewrite length_map. apply firstn_le_length.
Defined.

Import Server.

(** ** The game server *)

(** *** Tables *)

Lemma table_get_set_eq {A : Type} (key : string) (a : A) (t : list (string * A)) :
  table_get key (table_set key a t) = Some a.
Proof.
  induction t as [|[k x] rest IH]; simpl.
  - now rewrite String.eqb_refl.
  - destruct (String.eqb k key) eqn:Hk; simpl; rewrite Hk; [reflexivity|exact IH].
Qed.

Lemma table_get_set_ne {A : Type} (key other : string) (a : A) (t : list (string * A)) :
  key <> other -> table_get other (table_set key a t) = table_get other t.
Proof.
  intros Hne. induction t as [|[k x] rest IH]; simpl.
  - apply String.eqb_neq in Hne. now rewrite Hne.
  - destruct (String.eqb k key) eqn:Hk; simpl.
    + apply String.eqb_eq in Hk as ->. apply String.eqb_neq in Hne. now rewrite Hne.
    + now rewrite IH.
Qed.

Lemma table_get_set_is_Some {A : Type} (key other : string) (a : A)
    (t : list (string * A)) :
  is_Some (table_get other t) -> is_Some (table_get other (table_set key a t)).
Proof.
  destruct (decide (key = other)) as [<-|Hne].
  - rewrite table_get_set_eq. eauto.
  - now rewrite table_get_set_ne.
Qed.

(** A table after a write holds its old entries and the one written. *)
Lemma table_set_Forall {A : Type} (Q : string * A -> Prop) (key : string) (a : A)
    (t : list (string * A)) :
  Forall Q t -> Q (key, a) -> Forall Q (table_set key a t).
Proof.
  intros Ht Ha. induction Ht as [|[k x] rest Hx Hrest IH]; simpl.
  - now constructor.
  - destruct (String.eqb k key) eqn:Hk.
    + apply String.eqb_eq in Hk as ->. now constructor.
    + now constructor.
Qed.

Lemma table_get_Forall {A : Type} (Q : string * A -> Prop) (key : string) (a : A)
    (t : list (string * A)) :
  Forall Q t -> table_get key t = Some a -> Q (key, a).
Proof.
  intros Ht. induction Ht as [|[k x] rest Hx Hrest IH]; simpl; [discriminate|].
  destruct (String.eqb k key) eqn:Hk; [|exact IH].
  apply String.eqb_eq in Hk as ->. now intros [= <-].
Qed.

Lemma slot_Own {A : Type} (own : option A) (key : string) (a : A) :
  slot own key = Own a -> own = Some a.
Proof.
  unfold slot. destruct own; [now intros [= ->]|]. destruct (inherited key); discriminate.
Qed.

(** *** logToWorld *)

Lemma logToWorld_bounded (message : string) (g : GameState) :
  length (worldLog g) <= 50 -> length (worldLog (logToWorld message g)) <= 50.
Proof.
  intros H. unfold logToWorld. cbn [worldLog].
  destruct (50 <? length (worldLog g ++ [message])) eqn:Hlong.
  - destruct (worldLog g ++ [message]) eqn:Hlog; simpl; [lia|].
    apply (f_equal length) in Hlog. rewrite length_app in Hlog. simpl in Hlog. lia.
  - apply Nat.ltb_ge in Hlong. exact Hlong.
Qed.

(** X19.  [logToWorld] puts the message last and drops at most the oldest
    entry; a log of at most fifty entries stays at most fifty long, and a
    log shorter than fifty only grows by the message.  Souls, locations and
    artifacts are untouched. *)
Theorem logToWorld_keeps_last_fifty (message : string) (g : GameState) :
  let g' := logToWorld message g in
  last (worldLog g') = Some message /\
  (exists dropped,
     worldLog g ++ [message] = dropped ++ worldLog g' /\ length dropped <= 1) /\
  (length (worldLog g) <= 50 -> length (worldLog g') <= 50) /\
  (length (worldLog g) < 50 -> worldLog g' = worldLog g ++ [message]) /\
  souls g' = souls g /\ locations g' = locations g /\ artifacts g' = artifacts g.
Proof.
  intros g'. subst g'. split; [|split; [|split; [|split]]].
  - unfold logToWorld. cbn [worldLog].
    destruct (50 <? length (worldLog g ++ [message])) eqn:Hlong; [|apply last_snoc].
    apply Nat.ltb_lt in Hlong. rewrite length_app in Hlong. simpl in Hlong.
    destruct (worldLog g) as [|first rest]; simpl in *; [lia|]. apply last_snoc.
  - unfold logToWorld. cbn [worldLog].
    destruct (50 <? length (worldLog g ++ [message])).
    + destruct (worldLog g ++ [message]) as [|first rest].
      * exists []. split; [reflexivity|simpl; lia].
      * exists [first]. split; [reflexivity|simpl; lia].
    + exists []. split; [reflexivity|simpl; lia].
  - apply logToWorld_bounded.
  - intros Hshort. unfold logToWorld. cbn [worldLog].
    destruct (50 <? length (worldLog g ++ [message])) eqn:Hlong; [|reflexivity].
    apply Nat.ltb_lt in Hlong. rewrite length_app in Hlong. simpl in Hlong. lia.
  - repeat split.
Qed.

(** *** The game state stays intact *)

Lemma logToWorld_intact (message : string) (g : GameState) :
  intact g -> intact (logToWorld message g).
Proof.
  intros [I1 I2 I3 I4 I5 I6 I7]. constructor; try assumption.
  now apply logToWorld_bounded.
Qed.

Lemma location_at_Own (g : GameState) (id : json) (location : Location) :
  location_at g id = Own location -> locations g !! to_text id = Some location.
Proof. apply slot_Own. Qed.

Lemma soul_at_Own (g : GameState) (id : json) (soul : Soul) :
  soul_at g id = Own soul -> table_get (to_text id) (souls g) = Some soul.
Proof. apply slot_Own. Qed.

Lemma artifact_at_Own (g : GameState) (id : json) (artifact : Artifact) :
  artifact_at g id = Own artifact ->
  table_get (to_text id) (artifacts g) = Some artifact.
Proof. apply slot_Own. Qed.

Lemma lookup_insert_keeps {A : Type} (m : gmap string A) (key other : string) (a : A) :
  is_Some (m !! other) -> is_Some (<[key := a]> m !! other).
Proof.
  intros H. destruct (decide (key = other)) as [<-|Hne].
  - rewrite lookup_insert_eq. eauto.
  - now rewrite lookup_insert_ne.
Qed.


Lemma slot_Inherited {A : Type} (own : option A) (key : string) :
  slot own key = Inherited -> Object_prototype_member key = true.
Proof.
  unfold slot, inherited. destruct own; [discriminate|].
  destruct (Object_prototype_member key); [reflexivity|discriminate].
Qed.

(** An identifier that names no member of [Object.prototype] finds a record
    of the table or nothing. *)
Lemma plain_ids_own (p id : json) (key : string) :
  plain_ids (JsData p) = true ->
  In key [ "locationId"; "toLocationId"; "artifactId"; "targetLocationId" ] ->
  own_property p key = JsData id ->
  Object_prototype_member (to_text id) = false.
Proof.
  unfold plain_ids. rewrite forallb_forall. intros Hplain Hkey Hid.
  specialize (Hplain key Hkey). unfold plain_id in Hplain. rewrite Hid in Hplain.
  now apply negb_true_iff in Hplain.
Qed.

(** The lookup reached a member of [Object.prototype] with an identifier of
    the parameters: the hypothesis on the parameters excludes it. *)
Local Ltac builtin_excluded Hplain :=
  exfalso;
  match goal with
  | Hs : location_at _ ?id = Inherited, Hp : own_property _ ?key = JsData ?id |- _ =>
      apply slot_Inherited in Hs;
      rewrite (plain_ids_own _ id key Hplain ltac:(simpl; tauto) Hp) in Hs;
      discriminate Hs
  | Hs : artifact_at _ ?id = Inherited, Hp : own_property _ ?key = JsData ?id |- _ =>
      apply slot_Inherited in Hs;
      rewrite (plain_ids_own _ id key Hplain ltac:(simpl; tauto) Hp) in Hs;
      discriminate Hs
  end.

Local Ltac own_facts :=
  repeat match goal with
  | H : location_at _ _ = Own _ |- _ => apply location_at_Own in H
  | H : soul_at _ _ = Own _ |- _ => apply soul_at_Own in H
  | H : artifact_at _ _ = Own _ |- _ => apply artifact_at_Own in H
  end.

(** The entry point of the six proofs: what is left are the fields of
    [intact] that the write touches. *)
Local Ltac written Hg :=
  try apply logToWorld_intact;
  destruct Hg as [I1 I2 I3 I4 I5 I6 I7]; own_facts;
  constructor; cbn [souls artifacts locations worldLog]; try assumption.

Lemma _internal_create_soul_intact (uuid : string) (params : JsValue)
    (g g' : GameState) (result : Result string) :
  plain_ids params = true ->
  intact g -> _internal_create_soul uuid params g = Some (result, g') -> intact g'.
Proof.
  intros Hplain Hg. unfold _internal_create_soul. intros H.
  repeat case_match; simplify_eq; try assumption.
  all: try builtin_excluded Hplain.
  all: written Hg.
  all: apply table_set_Forall; [assumption|]; cbn; eauto.
Qed.

Lemma _internal_create_location_intact (params : JsValue) (g g' : GameState)
    (result : Result string) :
  intact g -> _internal_create_location params g = Some (result, g') -> intact g'.
Proof.
  intros Hg. unfold _internal_create_location. intros H.
  repeat case_match; simplify_eq; try assumption.
  written Hg.
  - intros id location.
    match goal with |- <[?k := _]> _ !! _ = _ -> _ =>
      destruct (decide (k = id)) as [<-|Hne] end.
    + rewrite lookup_insert_eq. now intros [= <-].
    + rewrite lookup_insert_ne by exact Hne. apply I3.
  - eapply Forall_impl; [exact I4|]. intros entry. apply lookup_insert_keeps.
  - intros id location direction target.
    match goal with |- <[?k := _]> _ !! _ = _ -> _ =>
      destruct (decide (k = id)) as [<-|Hne] end.
    + rewrite lookup_insert_eq. intros [= <-]. cbn. rewrite lookup_empty. discriminate.
    + rewrite lookup_insert_ne by exact Hne. intros Hl Hd.
      apply lookup_insert_keeps. exact (I6 _ _ _ _ Hl Hd).
Qed.

(** What an exit leads to after [exits[key] = target]. *)
Lemma set_exit_lookup (key direction : string) (target t : json)
    (exits : gmap string json) :
  set_exit key target exits !! direction = Some t ->
  t = target \/ exits !! direction = Some t.
Proof.
  unfold set_exit. destruct (String.eqb key "__proto__"); [now right|].
  destruct (decide (key = direction)) as [<-|Hne].
  - rewrite lookup_insert_eq. intros [= <-]. now left.
  - rewrite lookup_insert_ne by exact Hne. now right.
Qed.

Lemma _internal_link_exit_intact (params : JsValue) (g g' : GameState)
    (result : Result string) :
  plain_ids params = true ->
  intact g -> _internal_link_exit params g = Some (result, g') -> intact g'.
Proof.
  intros Hplain Hg. unfold _internal_link_exit. intros H.
  repeat case_match; simplify_eq; try assumption.
  all: try builtin_excluded Hplain.
  written Hg.
  - intros id location.
    match goal with |- <[?k := _]> _ !! _ = _ -> _ =>
      destruct (decide (k = id)) as [<-|Hne] end.
    + rewrite lookup_insert_eq. intros [= <-]. cbn. eauto.
    + rewrite lookup_insert_ne by exact Hne. apply I3.
  - eapply Forall_impl; [exact I4|]. intros entry. apply lookup_insert_keeps.
  - intros id location exit target.
    match goal with |- <[?k := _]> _ !! _ = _ -> _ =>
      destruct (decide (k = id)) as [<-|Hne] end.
    + rewrite lookup_insert_eq. intros [= <-]. cbn. intros Hd.
      apply lookup_insert_keeps.
      apply set_exit_lookup in Hd as [->|Hd]; eauto.
    + rewrite lookup_insert_ne by exact Hne. intros Hl Hd.
      apply lookup_insert_keeps. exact (I6 _ _ _ _ Hl Hd).
Qed.

Lemma _internal_create_artifact_intact (uuid : string) (params : JsValue)
    (g g' : GameState) (result : Result string) :
  intact g -> _internal_create_artifact uuid params g = Some (result, g') -> intact g'.
Proof.
  intros Hg. unfold _internal_create_artifact. intros H.
  repeat case_match; simplify_eq; try assumption.
  all: written Hg.
  all: try (apply table_set_Forall; [assumption|reflexivity]).
  all: eapply Forall_impl; [exact I5|]; intros entry Hentry;
    eapply Forall_impl; [exact Hentry|]; intros artifactId;
    apply table_get_set_is_Some.
Qed.

Lemma _internal_give_artifact_to_soul_intact (params : JsValue) (g g' : GameState)
    (result : Result string) :
  plain_ids params = true ->
  intact g -> _internal_give_artifact_to_soul params g = Some (result, g') -> intact g'.
Proof.
  intros Hplain Hg. unfold _internal_give_artifact_to_soul. intros H.
  repeat case_match; simplify_eq; try assumption.
  all: try builtin_excluded Hplain.
  all: written Hg.
  all: match goal with Hs : table_get _ (souls _) = Some ?soul |- _ =>
    pose proof (table_get_Forall _ _ _ _ I1 Hs) as Hkey;
    pose proof (table_get_Forall _ _ _ _ I4 Hs) as Hplace;
    pose proof (table_get_Forall _ _ _ _ I5 Hs) as Hheld end.
  all: apply table_set_Forall; [assumption|]; try assumption.
  all: cbn; apply Forall_app; split; [exact Hheld|]; constructor; [eauto|constructor].
Qed.

Lemma _internal_move_soul_intact (params : JsValue) (g g' : GameState)
    (result : Result string) :
  plain_ids params = true ->
  intact g -> _internal_move_soul params g = Some (result, g') -> intact g'.
Proof.
  intros Hplain Hg. unfold _internal_move_soul. intros H.
  repeat case_match; simplify_eq; try assumption.
  all: try builtin_excluded Hplain.
  all: written Hg.
  all: match goal with Hs : table_get _ (souls _) = Some ?soul |- _ =>
    pose proof (table_get_Forall _ _ _ _ I1 Hs) as Hkey;
    pose proof (table_get_Forall _ _ _ _ I5 Hs) as Hheld end.
  all: apply table_set_Forall; try assumption; cbn; eauto.
Qed.

(** X20.  The six game logic functions keep the game state intact, also
    when they throw halfway, as long as no identifier that they store names
    a member of [Object.prototype]: records stay under their own
    identifiers, souls stay in locations that exist and hold artifacts that
    exist, exits lead to locations that exist, and the log keeps at most
    fifty entries. *)
Theorem game_commands_keep_intact (uuid : string)
    (run : JsValue -> GameState -> option (Result string * GameState))
    (params : JsValue) (g g' : GameState) (result : Result string) :
  In run (game_commands uuid) ->
  plain_ids params = true ->
  intact g ->
  run params g = Some (result, g') ->
  intact g'.
Proof.
  intros Hrun Hplain Hg H. unfold game_commands in Hrun.
  destruct Hrun as [<-|[<-|[<-|[<-|[<-|[<-|[]]]]]]].
  - exact (_internal_create_soul_intact _ _ _ _ _ Hplain Hg H).
  - exact (_internal_create_location_intact _ _ _ _ Hg H).
  - exact (_internal_link_exit_intact _ _ _ _ Hplain Hg H).
  - exact (_internal_create_artifact_intact _ _ _ _ _ Hg H).
  - exact (_internal_give_artifact_to_soul_intact _ _ _ _ Hplain Hg H).
  - exact (_internal_move_soul_intact _ _ _ _ Hplain Hg H).
Qed.

Lemma gameState_intact : intact gameState.
Proof.
  constructor; cbn; try constructor; try lia.
  - intros id location. rewrite lookup_empty. discriminate.
  - intros id location direction target. rewrite lookup_empty. discriminate.
Qed.

Lemma game_commands_keep_intact_witness : intact Village.founded.
Proof.
  apply (game_commands_keep_intact Village.aria _internal_create_location
           Village.old_mill
           (Village.after (_internal_create_location Village.town_square) gameState)
           Village.founded
           (Value "Location 'Old  Mill' (ID: old_mill) created successfully.")).
  - right. left. reflexivity.
  - reflexivity.
  - apply (_internal_create_location_intact Village.town_square gameState _
             (Value "Location 'Town Square' (ID: town_square) created successfully.")
             gameState_intact).
    vm_compute. reflexivity.
  - vm_compute. reflexivity.
Defined.

(** Where the identifier names a member of [Object.prototype] the check of
    the location passes, and the soul is put in a location that does not
    exist: [create_soul] with the [locationId] [constructor], in the game
    without locations. *)
Lemma _internal_create_soul_in_no_location :
  exists g',
    _internal_create_soul Village.aria
      (JsData (JObj [ ("name", JStr "Aria"); ("locationId", JStr "constructor") ]))
      gameState
    = Some (Value ("Soul 'Aria' (ID: " +:+ Village.aria
                     +:+ ") created successfully at location constructor."), g') /\
    worldLog g' = worldLog gameState ++ ["A new soul named 'Aria' appeared in Object."] /\
    ~ intact g'.
Proof.
  eexists. split; [vm_compute; reflexivity|]. split; [reflexivity|].
  intros [_ _ _ Hlocated _ _ _]. cbn in Hlocated.
  apply Forall_cons_1 in Hlocated as [[location Hlocation] _].
  vm_compute in Hlocation. discriminate Hlocation.
Qed.

(** *** Failures change nothing *)

(** A text that starts with a word without blanks, after a name and a
    blank: the name starts with the word. *)
Lemma prefix_before (c : ascii) (p : string) :
  all_chars (fun x => negb (Ascii.eqb x c)) p = true ->
  forall a r, String.prefix p (a +:+ String c r) = true -> String.prefix p a = true.
Proof.
  induction p as [|x p IH]; intros Hp a r H; [now destruct a|].
  simpl in Hp. apply andb_true_iff in Hp as [Hx Hp]. apply negb_true_iff in Hx.
  destruct a as [|y a].
  - rewrite RefJSONFacts.app_nil_l in H. simpl in H.
    destruct (Ascii.ascii_dec x c) as [->|]; [|discriminate H].
    rewrite Ascii.eqb_refl in Hx. discriminate Hx.
  - rewrite RefJSONFacts.app_cons in H. simpl in H |- *.
    destruct (Ascii.ascii_dec x y); [|discriminate H]. exact (IH Hp a r H).
Qed.

Lemma alarming_name (name rest : string) :
  alarming (name +:+ String " " rest) = true -> alarming name = true.
Proof.
  unfold alarming, startsWith. intros H. apply orb_true_iff in H.
  apply orb_true_iff. destruct H as [H|H]; [left|right].
  - exact (prefix_before " " "Error:" eq_refl _ _ H).
  - exact (prefix_before " " "Warning:" eq_refl _ _ H).
Qed.

Lemma table_get_In {A : Type} (key : string) (a : A) (t : list (string * A)) :
  table_get key t = Some a -> In (key, a) t.
Proof.
  induction t as [|[k x] rest IH]; simpl; [discriminate|].
  destruct (String.eqb k key) eqn:Hk; [|right; auto].
  apply String.eqb_eq in Hk as ->. intros [= ->]. now left.
Qed.

(** The names of the records render, when every name does. *)
Lemma names_render_soul (params : JsValue) (g : GameState) (id : json) (soul : Soul) :
  names_render params g = true -> soul_at g id = Own soul ->
  renders (soul_name soul) = true.
Proof.
  unfold names_render. intros H Hs. apply soul_at_Own, table_get_In in Hs.
  apply andb_true_iff in H as [H _]. apply andb_true_iff in H as [_ H].
  rewrite forallb_forall in H. exact (H _ Hs).
Qed.

Lemma names_render_artifact (params : JsValue) (g : GameState) (id : json)
    (artifact : Artifact) :
  names_render params g = true -> artifact_at g id = Own artifact ->
  renders (artifact_name artifact) = true.
Proof.
  unfold names_render. intros H Hs. apply artifact_at_Own, table_get_In in Hs.
  apply andb_true_iff in H as [_ H]. rewrite forallb_forall in H. exact (H _ Hs).
Qed.

Lemma names_render_param (p v : json) (g : GameState) (key : string) :
  names_render (JsData p) g = true -> In key ["name"; "linkedToolName"] ->
  own_property p key = JsData v -> renders v = true.
Proof.
  unfold names_render, param_renders. intros H Hkey Hv.
  apply andb_true_iff in H as [H _]. apply andb_true_iff in H as [H _].
  apply andb_true_iff in H as [Hname Hlinked].
  destruct Hkey as [<-|[<-|[]]]; [rewrite Hv in Hname|rewrite Hv in Hlinked]; assumption.
Qed.

(** A name failed to render although every name renders. *)
Local Ltac name_renders Hnames :=
  exfalso;
  repeat match goal with
  | Hr : to_string _ = Raised _ |- _ =>
      unfold to_string in Hr
  | Hr : artifact_label _ _ = Raised _ |- _ =>
      unfold artifact_label, to_string in Hr
  end;
  repeat match goal with
  | Hs : soul_at _ _ = Own ?soul |- _ =>
      pose proof (names_render_soul _ _ _ _ Hnames Hs); clear Hs
  | Hs : artifact_at _ _ = Own ?artifact |- _ =>
      pose proof (names_render_artifact _ _ _ _ Hnames Hs); clear Hs
  | Hp : own_property _ "name" = JsData _ |- _ =>
      pose proof (names_render_param _ _ _ "name" Hnames ltac:(simpl; tauto) Hp);
      clear Hp
  | Hp : own_property _ "linkedToolName" = JsData _ |- _ =>
      pose proof (names_render_param _ _ _ "linkedToolName" Hnames
                    ltac:(simpl; tauto) Hp);
      clear Hp
  end;
  repeat case_match; simplify_eq; congruence.

(** X21.  A game logic function that answers with an [Error:] or
    [Warning:] text changes nothing, and so does one that throws, provided
    that every name renders: the function throws behind its write when it
    comes to put a name that does not render into a message.
    [_internal_move_soul] is apart, as its success text starts with the name
    of the soul: it can start with [Error:] after a move only when the name
    of a soul does. *)
Theorem failed_command_changes_nothing (uuid : string) (params : JsValue)
    (g g' : GameState) :
  (forall run,
     In run (game_commands uuid) -> run params g = Some (Throws, g') ->
     names_render params g = true -> g' = g) /\
  (forall run s,
     In run [ _internal_create_soul uuid; _internal_create_location;
              _internal_link_exit; _internal_create_artifact uuid;
              _internal_give_artifact_to_soul ] ->
     run params g = Some (Value s, g') -> alarming s = true -> g' = g) /\
  (forall s,
     _internal_move_soul params g = Some (Value s, g') -> alarming s = true ->
     g' = g \/
     exists soul, In soul (map snd (souls g)) /\
                  alarming (to_text (soul_name soul)) = true).
Proof.
  split; [|split].
  - intros run Hrun. unfold game_commands in Hrun.
    destruct Hrun as [<-|[<-|[<-|[<-|[<-|[<-|[]]]]]]];
      [unfold _internal_create_soul|unfold _internal_create_location
      |unfold _internal_link_exit|unfold _internal_create_artifact
      |unfold _internal_give_artifact_to_soul|unfold _internal_move_soul];
      intros H Hnames; repeat case_match; simplify_eq; try reflexivity;
      name_renders Hnames.
  - intros run s Hrun.
    destruct Hrun as [<-|[<-|[<-|[<-|[<-|[]]]]]];
      [unfold _internal_create_soul|unfold _internal_create_location
      |unfold _internal_link_exit|unfold _internal_create_artifact
      |unfold _internal_give_artifact_to_soul];
      intros H Halarm; repeat case_match; simplify_eq; try reflexivity;
      discriminate Halarm.
  - intros s. unfold _internal_move_soul. intros H Halarm.
    repeat case_match; simplify_eq; try (left; reflexivity).
    all: right.
    all: match goal with Hs : soul_at _ _ = Own ?soul |- _ =>
           apply soul_at_Own, table_get_In in Hs; exists soul; split;
           [exact (in_map snd _ _ Hs)|] end.
    all: apply alarming_name in Halarm; exact Halarm.
Qed.

(** A name that does not render makes the function throw behind its write:
    [create_soul] with the name [{ toString: 1 }] leaves the soul in the
    game and the log as it was. *)
Lemma _internal_create_soul_throws_after_the_write :
  exists g',
    _internal_create_soul Village.aria
      (JsData (JObj [ ("name", JObj [("toString", JNum 1)]);
                      ("locationId", JStr "town_square") ]))
      Village.founded
    = Some (Throws, g') /\
    map fst (souls g') = [Village.aria] /\
    souls Village.founded = [] /\
    worldLog g' = worldLog Village.founded.
Proof.
  eexists. split; [vm_compute; reflexivity|]. repeat split.
Qed.

(** *** create_location *)

Lemma lower_not_upper (c : ascii) : is_upper (lower c) = false.
Proof. destruct c as [[] [] [] [] [] [] [] []]; reflexivity. Qed.

Lemma replace_spaces_plain (s : string) :
  forall in_run,
    all_chars (fun c => negb (is_space c) && negb (is_upper c))
      (replace_spaces in_run (toLowerCase s)) = true.
Proof.
  induction s as [|c s IH]; intros in_run; [reflexivity|].
  cbn [toLowerCase replace_spaces].
  destruct (is_space (lower c)) eqn:Hspace.
  - destruct in_run; [apply IH|]. cbn [all_chars]. rewrite IH. reflexivity.
  - cbn [all_chars]. rewrite Hspace, lower_not_upper, IH. reflexivity.
Qed.

(** X22.  When [_internal_create_location] succeeds, the identifier is the
    name in lower case with every run of white space turned into one
    underscore: it has no white space and no upper-case letter of ASCII; it
    was free, so no location is overwritten; and the new location, without
    exits, is the only change besides the log. *)
Theorem _internal_create_location_fresh_id (params : JsValue) (g g' : GameState)
    (s : string) :
  _internal_create_location params g = Some (Value s, g') ->
  alarming s = false ->
  exists name description,
    let locationId := replace_spaces false (toLowerCase name) in
    s = "Location '" +:+ name +:+ "' (ID: " +:+ locationId +:+ ") created successfully." /\
    all_chars (fun c => negb (is_space c) && negb (is_upper c)) locationId = true /\
    locations g !! locationId = None /\
    inherited locationId = false /\
    locations g' = <[locationId := mkLocation locationId name description ∅]> (locations g) /\
    souls g' = souls g /\ artifacts g' = artifacts g.
Proof.
  unfold _internal_create_location. intros H Hcalm.
  repeat case_match; simplify_eq; try discriminate Hcalm.
  eexists _, _. split; [reflexivity|]. split; [apply replace_spaces_plain|].
  match goal with Hl : location_at _ _ = Absent |- _ =>
    unfold location_at, slot in Hl; cbn [to_text] in Hl;
    destruct (locations g !! _) eqn:Hfree; [discriminate Hl|];
    destruct (inherited _) eqn:Hplain; [discriminate Hl|] end.
  repeat split; assumption.
Qed.

Lemma _internal_create_location_fresh_id_witness :
  exists name description,
    let locationId := replace_spaces false (toLowerCase name) in
    "Location 'Old  Mill' (ID: old_mill) created successfully."
    = "Location '" +:+ name +:+ "' (ID: " +:+ locationId +:+ ") created successfully." /\
    all_chars (fun c => negb (is_space c) && negb (is_upper c)) locationId = true /\
    locations (Village.after (_internal_create_location Village.town_square) gameState)
      !! locationId = None /\
    inherited locationId = false /\
    locations Village.founded
    = <[locationId := mkLocation locationId name description ∅]>
        (locations (Village.after (_internal_create_location Village.town_square)
                      gameState)) /\
    souls Village.founded
    = souls (Village.after (_internal_create_location Village.town_square) gameState) /\
    artifacts Village.founded
    = artifacts (Village.after (_internal_create_location Village.town_square) gameState).
Proof.
  apply (_internal_create_location_fresh_id Village.old_mill
           (Village.after (_internal_create_location Village.town_square) gameState)
           Village.founded
           "Location 'Old  Mill' (ID: old_mill) created successfully.").
  - vm_compute. reflexivity.
  - reflexivity.
Defined.

(** *** give_artifact_to_soul *)

Lemma includes_snoc (items : list json) (v : json) :
  same_value_zero v v = true -> includes (items ++ [v]) v = true.
Proof.
  intros Hv. unfold includes. rewrite existsb_app. simpl. rewrite Hv.
  now rewrite orb_true_r.
Qed.

(** X23.  Giving an artifact twice gives it once: after
    [_internal_give_artifact_to_soul] succeeded for an identifier that is a
    string, a number, a boolean or [null], the same call answers with the
    warning text and changes nothing. *)
Theorem _internal_give_artifact_to_soul_once (p artifactId : json)
    (g g' : GameState) (s : string) :
  own_property p "artifactId" = JsData artifactId ->
  same_value_zero artifactId artifactId = true ->
  _internal_give_artifact_to_soul (JsData p) g = Some (Value s, g') ->
  alarming s = false ->
  exists warning,
    _internal_give_artifact_to_soul (JsData p) g' = Some (Value warning, g') /\
    startsWith "Warning:" warning = true.
Proof.
  intros Hid Hsame H Hcalm.
  destruct p as [|b|z|x|t|items|fields]; try discriminate Hid.
  all: unfold _internal_give_artifact_to_soul in H; rewrite Hid in H.
  all: match type of H with
       | context [own_property ?d "soulId"] =>
           destruct (own_property d "soulId") as [|soulId] eqn:Hsoul;
           [simplify_eq; discriminate Hcalm|]
       end.
  all: destruct (negb (truthy (JsData soulId)) || negb (truthy (JsData artifactId)))
         eqn:Htruthy; [simplify_eq; discriminate Hcalm|].
  all: destruct (negb (renders soulId)) eqn:Hkey; [discriminate H|].
  all: destruct (soul_at g soulId) as [soul| |] eqn:Hs;
         [|simplify_eq; discriminate Hcalm
          |destruct (negb (renders artifactId)); [discriminate H|];
           destruct (artifact_at g artifactId); simplify_eq; discriminate Hcalm].
  all: destruct (negb (renders artifactId)) eqn:Hrenders; [discriminate H|].
  all: destruct (artifact_at g artifactId) as [artifact| |] eqn:Ha;
         [|simplify_eq; discriminate Hcalm|].
  all: destruct (to_string (soul_name soul)) as [soulName|] eqn:Hname;
         [|destruct (negb (includes (soul_inventory soul) artifactId)); discriminate H].
  all: destruct (artifact_label _ (to_text artifactId)) as [artifactName|] eqn:Hlabel;
         [|destruct (negb (includes (soul_inventory soul) artifactId)); discriminate H].
  all: destruct (negb (includes (soul_inventory soul) artifactId)) eqn:Hheld;
         [|simplify_eq; discriminate Hcalm].
  all: injection H as <- <-.
  all: unfold _internal_give_artifact_to_soul; rewrite Hid, Hsoul, Htruthy, Hkey, Hrenders.
  all: unfold soul_at, artifact_at in *; cbn [souls artifacts logToWorld].
  all: rewrite table_get_set_eq; cbn [slot]; rewrite Ha.
  all: cbn [soul_inventory soul_name]; rewrite includes_snoc by exact Hsame; cbn [negb].
  all: rewrite Hname, Hlabel.
  all: eexists; split; reflexivity.
Qed.

Lemma _internal_give_artifact_to_soul_once_witness :
  exists warning,
    _internal_give_artifact_to_soul Village.gift Village.equipped
    = Some (Value warning, Village.equipped) /\
    startsWith "Warning:" warning = true.
Proof.
  apply (_internal_give_artifact_to_soul_once
           (JObj [ ("soulId", JStr Village.aria); ("artifactId", JStr Village.stone) ])
           (JStr Village.stone) Village.settled Village.equipped
           "Artifact 'Greeting Stone' given to soul 'Aria'.").
  - reflexivity.
  - reflexivity.
  - vm_compute. reflexivity.
  - reflexivity.
Defined.

(** *** move_soul *)

(** X24.  [_internal_move_soul] asks for no exit: whenever the soul and the
    target location exist and the identifiers and the name of the soul
    render, the soul is moved, whatever the exits of its location are and
    whether or not that location exists; only its [locationId] changes, and
    no other soul, no location and no artifact changes. *)
Theorem _internal_move_soul_needs_no_exit (p soulId targetLocationId : json)
    (soul : Soul) (targetLocation : Location) (g : GameState) :
  own_property p "soulId" = JsData soulId ->
  own_property p "targetLocationId" = JsData targetLocationId ->
  truthy (JsData soulId) = true ->
  truthy (JsData targetLocationId) = true ->
  soul_at g soulId = Own soul ->
  location_at g targetLocationId = Own targetLocation ->
  renders soulId = true ->
  renders targetLocationId = true ->
  renders (soul_locationId soul) = true ->
  renders (soul_name soul) = true ->
  exists g',
    _internal_move_soul (JsData p) g
    = Some (Value (to_text (soul_name soul) +:+ " moved successfully to "
                     +:+ location_name targetLocation +:+ "."), g') /\
    soul_at g' soulId
    = Own (mkSoul (soul_id soul) (soul_name soul) targetLocationId
             (soul_inventory soul) (soul_type soul)) /\
    (forall other, other <> to_text soulId ->
       table_get other (souls g') = table_get other (souls g)) /\
    locations g' = locations g /\ artifacts g' = artifacts g.
Proof.
  intros Hsoul Htarget Hs Ht Hfound Hplace Hkey Hgoal Hfrom Hname.
  unfold _internal_move_soul.
  rewrite Hsoul, Htarget, Hs, Ht, Hkey, Hfound, Hfrom, Hgoal, Hplace, Hname.
  destruct p; try discriminate Hsoul.
  all: cbn [negb orb location_label].
  all: eexists; split; [reflexivity|].
  all: unfold soul_at; cbn [souls locations artifacts logToWorld].
  all: rewrite table_get_set_eq; cbn [slot].
  all: split; [reflexivity|]; split; [|split; reflexivity].
  all: intros other Hother; now rewrite table_get_set_ne.
Qed.

Lemma _internal_move_soul_needs_no_exit_witness :
  exists g',
    _internal_move_soul Village.journey Village.equipped
    = Some (Value "Aria moved successfully to Old  Mill.", g') /\
    forall location,
      locations Village.equipped !! "town_square" = Some location ->
      location_exits location = ∅.
Proof.
  destruct (_internal_move_soul_needs_no_exit
              (JObj [ ("soulId", JStr Village.aria);
                      ("targetLocationId", JStr "old_mill") ])
              (JStr Village.aria) (JStr "old_mill")
              (mkSoul Village.aria (JStr "Aria") (JStr "town_square")
                 [JStr Village.stone] (JStr "generic"))
              (mkLocation "old_mill" "Old  Mill" (JStr "A mill by the river") ∅)
              Village.equipped)
    as (g' & Hmoved & _).
  - reflexivity.
  - reflexivity.
  - reflexivity.
  - reflexivity.
  - vm_compute. reflexivity.
  - vm_compute. reflexivity.
  - reflexivity.
  - reflexivity.
  - reflexivity.
  - reflexivity.
  - exists g'. split; [exact Hmoved|].
    intros location Hlocation. vm_compute in Hlocation. injection Hlocation as <-.
    reflexivity.
Defined.

(** A soul whose name does not render is moved, and then the function
    throws, as the message of the log cannot be made: the soul that
    [create_soul] left behind when it threw on the name [{ toString: 1 }] is
    in the old mill after [move_soul] threw. *)
Lemma _internal_move_soul_throws_after_the_move :
  exists g',
    _internal_move_soul Village.journey
      (Village.after
         (_internal_create_soul Village.aria
            (JsData (JObj [ ("name", JObj [("toString", JNum 1)]);
                            ("locationId", JStr "town_square") ])))
         Village.founded)
    = Some (Throws, g') /\
    soul_at g' (JStr Village.aria)
    = Own (mkSoul Village.aria (JObj [("toString", JNum 1)]) (JStr "old_mill") []
             (JStr "generic")).
Proof.
  eexists. split; [vm_compute; reflexivity|]. vm_compute. reflexivity.
Qed.

(** *** link_exit *)

(** X25.  An exit is one-way: when [_internal_link_exit] succeeds, the
    origin is a location of the game, and it is given the exit under the
    direction in lower case, leading to the destination as it was given
    (the direction [__proto__] adds no exit); every other location, the
    destination included when it is another one, is as it was.  The
    destination need not be a location: the name of a member of
    [Object.prototype] passes the check. *)
Theorem _internal_link_exit_one_way (params : JsValue) (g g' : GameState) (s : string) :
  _internal_link_exit params g = Some (Value s, g') ->
  alarming s = false ->
  exists fromLocationId direction toLocationId origin,
    location_at g fromLocationId = Own origin /\
    location_at g toLocationId <> Absent /\
    s = "Exit '" +:+ direction +:+ "' added from " +:+ to_text fromLocationId
          +:+ " to " +:+ to_text toLocationId +:+ "." /\
    locations g' !! to_text fromLocationId
    = Some (mkLocation (location_id origin) (location_name origin)
              (location_description origin)
              (set_exit (toLowerCase direction) toLocationId (location_exits origin))) /\
    (forall id, id <> to_text fromLocationId ->
       locations g' !! id = locations g !! id) /\
    souls g' = souls g /\ artifacts g' = artifacts g.
Proof.
  unfold _internal_link_exit. intros H Hcalm.
  repeat case_match; simplify_eq; try discriminate Hcalm.
  all: match goal with
  | Hf : own_property _ "fromLocationId" = JsData ?f,
    Hd : own_property _ "direction" = JsData (JStr ?d),
    Ht : own_property _ "toLocationId" = JsData ?t,
    Ho : location_at _ ?f = Own ?o,
    Hn : location_at _ ?t = _ |- _ =>
      exists f, d, t, o; split; [exact Ho|]; split; [rewrite Hn; discriminate|]
  end.
  all: split; [reflexivity|]; cbn [locations souls artifacts logToWorld].
  all: split; [apply lookup_insert_eq|]; split; [|split; reflexivity].
  all: intros id Hid; now rewrite lookup_insert_ne.
Qed.

Lemma _internal_link_exit_one_way_witness :
  exists fromLocationId direction toLocationId origin,
    location_at Village.founded fromLocationId = Own origin /\
    location_at Village.founded toLocationId <> Absent /\
    "Exit 'North' added from town_square to old_mill."
    = "Exit '" +:+ direction +:+ "' added from " +:+ to_text fromLocationId
        +:+ " to " +:+ to_text toLocationId +:+ "." /\
    locations (Village.after (_internal_link_exit Village.path) Village.founded)
      !! to_text fromLocationId
    = Some (mkLocation (location_id origin) (location_name origin)
              (location_description origin)
              (set_exit (toLowerCase direction) toLocationId (location_exits origin))) /\
    (forall id, id <> to_text fromLocationId ->
       locations (Village.after (_internal_link_exit Village.path) Village.founded) !! id
       = locations Village.founded !! id) /\
    souls (Village.after (_internal_link_exit Village.path) Village.founded)
    = souls Village.founded /\
    artifacts (Village.after (_internal_link_exit Village.path) Village.founded)
    = artifacts Village.founded.
Proof.
  apply (_internal_link_exit_one_way Village.path Village.founded
           (Village.after (_internal_link_exit Village.path) Village.founded)
           "Exit 'North' added from town_square to old_mill.").
  - vm_compute. reflexivity.
  - reflexivity.
Defined.

(** An exit in the direction [__proto__] to a destination that is no
    location: the function reports a success, and the origin has no exit
    more than before. *)
Lemma _internal_link_exit_adds_nothing :
  exists g',
    _internal_link_exit
      (JsData (JObj [ ("fromLocationId", JStr "town_square");
                      ("direction", JStr "__PROTO__");
                      ("toLocationId", JStr "valueOf") ]))
      Village.founded
    = Some (Value "Exit '__PROTO__' added from town_square to valueOf.", g') /\
    locations g' = locations Village.founded /\
    last (worldLog g') = Some "A path opened from Town Square __PROTO__ to valueOf.".
Proof.
  eexists. split; [vm_compute; reflexivity|]. split; reflexivity.
Qed.

(** *** The switch of the bootstrap *)

Lemma bootstrap_tool_internal {Embedding : Type}
    (run : GameState -> option (Result string * GameState))
    (s s' : ServerState Embedding) (r : Result ToolValue) :
  match run (game s) with
  | Some (Value result, g) =>
      Some (Value (string_value result), mkServer g (manager s) (emitted s))
  | Some (Throws, g) => Some (Throws, mkServer g (manager s) (emitted s))
  | None => None
  end = Some (r, s') ->
  manager s' = manager s /\ emitted s' = emitted s /\
  exists result,
    run (game s) = Some (result, game s') /\
    r = match result with
        | Value text => Value (string_value text)
        | Throws => Throws
        end.
Proof.
  destruct (run (game s)) as [[[result|] g]|]; [| |discriminate].
  - intros [= <- <-]. repeat split. exists (Value result). split; reflexivity.
  - intros [= <- <-]. repeat split. exists Throws. split; reflexivity.
Qed.

(** X26.  The six bootstrap names shadow stored tools: an [EXECUTE TOOL]
    line with one of them runs the game logic function, whose text or throw
    is the result, and never touches the tool manager; with any other name
    the line awaits [executeTool], whatever its promise settles with, and
    the game state is as it was. *)
Theorem bootstrap_tool_shadows_stored_tools {Embedding : Type} (P : Platform Embedding)
    (uuid name : string) (args : JsValue) (s : ServerState Embedding) :
  (In name bootstrap_names ->
   forall r s',
     bootstrap_tool P uuid name args s = Some (r, s') ->
     manager s' = manager s /\ emitted s' = emitted s /\
     exists run result,
       In run (game_commands uuid) /\ run args (game s) = Some (result, game s') /\
       r = match result with
           | Value text => Value (string_value text)
           | Throws => Throws
           end) /\
  (~ In name bootstrap_names ->
   exists settled w,
     executeTool P name args (manager s) = (Returned settled, w) /\
     bootstrap_tool P uuid name args s
     = Some (awaited settled, mkServer (game s) w (emitted s))).
Proof.
  split.
  - intros Hname r s' H. unfold bootstrap_tool in H. unfold game_commands.
    destruct Hname as [<-|[<-|[<-|[<-|[<-|[<-|[]]]]]]];
      cbn [String.eqb Ascii.eqb Bool.eqb] in H;
      apply bootstrap_tool_internal in H as (Hm & He & result & Hrun & Hr);
      (split; [exact Hm|]); (split; [exact He|]);
      eexists _, result; (split; [|split; [exact Hrun|exact Hr]]); simpl; tauto.
  - intros Hname. unfold bootstrap_tool.
    repeat match goal with
    | |- context [String.eqb name ?literal] =>
        let Heq := fresh "Heq" in
        destruct (String.eqb name literal) eqn:Heq;
        [apply String.eqb_eq in Heq; exfalso; apply Hname; subst name;
         unfold bootstrap_names; simpl; tauto|]
    end.
    destruct (executeTool_outcome P name args (manager s)) as (settled & w & -> & _).
    exists settled, w. split; [reflexivity|]. destruct settled; reflexivity.
Qed.

(** *** performAction *)

(** The handler ended before the tool was reached: with nothing sent, or
    with a refusal. *)
Local Ltac ended_early H :=
  repeat case_match; simplify_eq;
  first
    [ now left
    | right; left; eexists; split; [reflexivity|]; split;
      [reflexivity|cbn; discriminate] ].

Local Ltac performAction_analysis P playerSoulId s H :=
  let soulId := fresh "soulId" in
  let soul := fresh "soul" in
  let artifactId := fresh "artifactId" in
  let artifact := fresh "artifact" in
  let toolName := fresh "toolName" in
  let arguments := fresh "arguments" in
  let sent := fresh "sent" in
  let label := fresh "label" in
  let settled := fresh "settled" in
  let w := fresh "w" in
  let Hid := fresh "Hid" in
  let Hsoul := fresh "Hsoul" in
  let Hartifact := fresh "Hartifact" in
  let Htruthy := fresh "Htruthy" in
  let Hrenders := fresh "Hrenders" in
  let Hfound := fresh "Hfound" in
  let Hheld := fresh "Hheld" in
  let Hlinked := fresh "Hlinked" in
  let Htool := fresh "Htool" in
  let Hargs := fresh "Hargs" in
  let Hsent := fresh "Hsent" in
  let Hlabel := fresh "Hlabel" in
  let Hrun := fresh "Hrun" in
  destruct playerSoulId as [soulId|]; [|simplify_eq; now left];
  destruct (String.eqb soulId "") eqn:Hid; [simplify_eq; now left|];
  destruct (soul_at (game s) (JStr soulId)) as [soul| |] eqn:Hsoul;
    [|simplify_eq; now left|discriminate H];
  match type of H with
  | match ?x with _ => _ end = _ =>
      destruct x as [|artifactId] eqn:Hartifact; [simplify_eq; now left|]
  end;
  destruct (negb (truthy (JsData artifactId))) eqn:Htruthy; [simplify_eq; now left|];
  destruct (negb (renders artifactId)) eqn:Hrenders; [simplify_eq; now left|];
  destruct (negb (includes (soul_inventory soul) artifactId)) eqn:Hheld;
    [cbn [orb] in H; ended_early H|];
  destruct (artifact_at (game s) artifactId) as [artifact| |] eqn:Hfound;
    [cbn [orb negb] in H
    |cbn [orb negb truthy] in H; ended_early H
    |cbn [orb negb truthy] in H; ended_early H];
  destruct (negb (truthy (JsData (artifact_linkedToolName artifact)))) eqn:Hlinked;
    [ended_early H|];
  destruct (artifact_linkedToolName artifact) as [| | | |toolName| |] eqn:Htool;
    try discriminate H;
  match type of H with
  | context [toolArgs soulId soul ?a] =>
      destruct (toolArgs soulId soul a) as [arguments|] eqn:Hargs;
      [|discriminate H]
  end;
  destruct (sendAvailableActions (game s) (Some soulId)) as [sent|] eqn:Hsent;
    [|discriminate H];
  destruct (artifact_label (Own artifact) (to_text artifactId)) as [label|] eqn:Hlabel;
    [|simplify_eq; now left];
  destruct (executeTool_outcome P toolName (JsData arguments) (manager s))
    as (settled & w & Hrun & _); rewrite Hrun in H;
  right; right;
  exists soulId, soul, artifactId, artifact, toolName, arguments, settled, w, sent;
  apply negb_false_iff in Hheld; apply negb_false_iff in Hlinked;
  repeat split; try assumption; try reflexivity;
  try (intros ->; discriminate Hlinked);
  try (cbn [property]; rewrite ?Hartifact; reflexivity);
  eexists; split; [reflexivity|exact Hargs].

(** The three ways [performAction] ends: before the tool with nothing sent,
    with a refusal, or behind a run of the tool as [conclude] tells. *)
Lemma performAction_cases {Embedding : Type} (P : Platform Embedding)
    (playerSoulId : option string) (data : JsValue)
    (s s' : ServerState Embedding) (r : Result unit) :
  performAction P playerSoulId data s = Some (r, s') ->
  s' = s \/
  (exists message,
     s' = emit [ToSocket (actionResult false message)] s /\
     startsWith "Error:" message = false /\
     message <> "A critical error occurred while performing the action.") \/
  (exists soulId soul artifactId artifact toolName arguments settled w sent,
     playerSoulId = Some soulId /\
     soul_at (game s) (JStr soulId) = Own soul /\
     property data "artifactId" = Returned (JsData artifactId) /\
     includes (soul_inventory soul) artifactId = true /\
     artifact_at (game s) artifactId = Own artifact /\
     artifact_linkedToolName artifact = JStr toolName /\ toolName <> "" /\
     (exists args, property data "args" = Returned args /\
                   toolArgs soulId soul args = Some arguments) /\
     sendAvailableActions (game s) (Some soulId) = Some sent /\
     executeTool P toolName (JsData arguments) (manager s) = (Returned settled, w) /\
     conclude sent w settled s = Some (r, s')).
Proof.
  unfold performAction. intros H.
  destruct data as [|d]; [simplify_eq; now left|].
  destruct d as [|b|z|x|t|items|fields]; [simplify_eq; now left|..].
  1-5: match type of H with
       | context [own_property ?d "artifactId"] =>
           change (own_property d "artifactId") with JsUndefined in H
       end; repeat case_match; simplify_eq; now left.
  performAction_analysis P playerSoulId s H.
Qed.

(** X27.  [performAction] never changes the game state, and it reaches the
    tool manager only for a player whose soul exists and holds the artifact
    named by the client, the artifact existing and being linked to a tool. *)
Theorem performAction_requires_held_artifact {Embedding : Type}
    (P : Platform Embedding) (playerSoulId : option string) (data : JsValue)
    (s s' : ServerState Embedding) (r : Result unit) :
  performAction P playerSoulId data s = Some (r, s') ->
  game s' = game s /\
  (manager s' <> manager s ->
   exists soulId soul artifactId artifact toolName,
     playerSoulId = Some soulId /\
     soul_at (game s) (JStr soulId) = Own soul /\
     property data "artifactId" = Returned (JsData artifactId) /\
     includes (soul_inventory soul) artifactId = true /\
     artifact_at (game s) artifactId = Own artifact /\
     artifact_linkedToolName artifact = JStr toolName /\ toolName <> "").
Proof.
  intros H.
  destruct (performAction_cases P _ _ _ _ _ H)
    as [->|[(message & -> & _ & _)
           |(soulId & soul & artifactId & artifact & toolName & arguments & settled & w
             & sent & Hpid & Hsoul & Hdata & Hheld & Hfound & Hlinked & Hname
             & _ & _ & _ & Hend)]].
  - split; [reflexivity|]. intros Hchanged. now destruct Hchanged.
  - split; [reflexivity|]. intros Hchanged. now destruct Hchanged.
  - split.
    + unfold conclude, report_result, report_failure in Hend.
      repeat case_match; simplify_eq; reflexivity.
    + intros _. exists soulId, soul, artifactId, artifact, toolName.
      repeat split; assumption.
Qed.

Lemma performAction_requires_held_artifact_witness :
  exists r s',
    performAction Scenario.platform (Some Village.aria) Village.use_stone Village.server
    = Some (r, s') /\
    game s' = game Village.server.
Proof.
  destruct (performAction Scenario.platform (Some Village.aria) Village.use_stone
              Village.server) as [[r s']|] eqn:Hrun.
  - exists r, s'. split; [reflexivity|].
    exact (proj1 (performAction_requires_held_artifact _ _ _ _ _ _ Hrun)).
  - vm_compute in Hrun. discriminate Hrun.
Defined.







(** The report of the [catch] clause is sent: the stone is linked to a tool
    whose stored code returns the number 42, which has no [startsWith]. *)
Lemma performAction_sends_the_critical_report :
  exists s',
    performAction Scenario.spliced (Some Village.aria) Village.use_stone
      (mkServer Village.equipped Scenario.spliced_world [])
    = Some (Value tt, s') /\
    emitted s'
    = [ critical_report;
        ToSocket (availableActions
                    [mkAction Village.stone (JStr "greet_soul") (JStr "Greeting Stone")
                       (JStr "A stone that greets")]) ].
Proof.
  eexists. split; [vm_compute; reflexivity|]. reflexivity.
Qed.

(** *** The arguments of the tool *)

Lemma assoc_absent (key : string) (fields : list (string * json)) :
  ~ In key (map fst fields) -> assoc key fields = None.
Proof.
  induction fields as [|[k v] rest IH]; [reflexivity|]. simpl. intros Hnot.
  rewrite IH by tauto. destruct (String.eqb k key) eqn:Hk; [|reflexivity].
  apply String.eqb_eq in Hk. tauto.
Qed.

Lemma set_property_keys (key : string) (v : json) (fields : list (string * json)) :
  forall k, In k (map fst (set_property key v fields)) <->
            k = key \/ In k (map fst fields).
Proof.
  induction fields as [|[k0 x] rest IH]; intros k; simpl; [intuition congruence|].
  destruct (String.eqb k0 key) eqn:Hk; simpl.
  - apply String.eqb_eq in Hk as ->. intuition congruence.
  - rewrite IH. intuition congruence.
Qed.

Lemma set_property_NoDup (key : string) (v : json) (fields : list (string * json)) :
  List.NoDup (map fst fields) -> List.NoDup (map fst (set_property key v fields)).
Proof.
  induction fields as [|[k0 x] rest IH]; simpl; intros Hnodup.
  - apply List.NoDup_cons_iff. split; [intros []|constructor].
  - apply List.NoDup_cons_iff in Hnodup as [Hfresh Hrest].
    destruct (String.eqb k0 key) eqn:Hk; simpl.
    + apply List.NoDup_cons_iff. split; assumption.
    + apply List.NoDup_cons_iff. split; [|auto].
      rewrite set_property_keys. intros [->|Hin]; [|tauto].
      rewrite String.eqb_refl in Hk. discriminate.
Qed.

(** Reading a property after a write, on an object without duplicate
    names. *)
Lemma assoc_set_property (key name : string) (v : json) (fields : list (string * json)) :
  List.NoDup (map fst fields) ->
  assoc name (set_property key v fields)
  = if String.eqb key name then Some v else assoc name fields.
Proof.
  induction fields as [|[k0 x] rest IH]; simpl; intros Hnodup; [reflexivity|].
  apply List.NoDup_cons_iff in Hnodup as [Hfresh Hrest].
  destruct (String.eqb k0 key) eqn:Hk; simpl.
  - apply String.eqb_eq in Hk as ->.
    destruct (String.eqb key name) eqn:Hname; [|reflexivity].
    apply String.eqb_eq in Hname as ->. now rewrite assoc_absent.
  - rewrite (IH Hrest). destruct (String.eqb key name) eqn:Hname; reflexivity.
Qed.

Lemma assoc_assign (name : string) (given : list (string * json)) :
  forall target,
    List.NoDup (map fst target) ->
    assoc name (fold_left (fun t kv => set_property (fst kv) (snd kv) t) given target)
    = match assoc name given with
      | Some v => Some v
      | None => assoc name target
      end.
Proof.
  induction given as [|[k v] rest IH]; intros target Hnodup; [reflexivity|].
  cbn [fold_left fst snd]. rewrite IH by now apply set_property_NoDup.
  rewrite assoc_set_property by exact Hnodup. simpl.
  destruct (assoc name rest); [reflexivity|].
  destruct (String.eqb k name); reflexivity.
Qed.

(** X29.  The arguments of the client come last in [toolArgs]: a property
    the client sent is what the tool reads, also for [soulId] and
    [locationId]; the soul and location of the player are read only for the
    names the client left out. *)
Theorem toolArgs_client_overrides (soulId : string) (soul : Soul)
    (given : list (string * json)) (arguments : json) (name : string) :
  toolArgs soulId soul (JsData (JObj given)) = Some arguments ->
  own_property arguments name
  = match assoc name given with
    | Some v => JsData v
    | None =>
        own_property
          (JObj [("soulId", JStr soulId); ("locationId", soul_locationId soul)]) name
    end.
Proof.
  unfold toolArgs, spread. destruct (forallb _ given); [|discriminate].
  intros [= <-]. cbn [own_property]. rewrite assoc_assign.
  - destruct (assoc name given); reflexivity.
  - apply List.NoDup_cons_iff. split; [simpl; intuition discriminate|].
    apply List.NoDup_cons_iff. split; [intros []|constructor].
Qed.

Lemma toolArgs_client_overrides_witness :
  own_property
    (JObj [ ("soulId", JStr "someone-else"); ("locationId", JStr "town_square");
            ("name", JStr "Bram") ]) "soulId"
  = JsData (JStr "someone-else").
Proof.
  apply (toolArgs_client_overrides Village.aria
           (mkSoul Village.aria (JStr "Aria") (JStr "town_square") [JStr Village.stone]
              (JStr "generic"))
           [ ("name", JStr "Bram"); ("soulId", JStr "someone-else") ]
           (JObj [ ("soulId", JStr "someone-else"); ("locationId", JStr "town_square");
                   ("name", JStr "Bram") ])
           "soulId").
  reflexivity.
Defined.

(** *** The actions on offer *)

Lemma after_command_intact (uuid : string)
    (run : JsValue -> GameState -> option (Result string * GameState))
    (params : JsValue) (g : GameState) :
  In run (game_commands uuid) -> plain_ids params = true -> intact g ->
  intact (Village.after (run params) g).
Proof.
  intros Hrun Hplain Hg. unfold Village.after.
  destruct (run params g) as [[r g']|] eqn:H; [|exact Hg].
  unfold game_commands in Hrun.
  destruct Hrun as [<-|[<-|[<-|[<-|[<-|[<-|[]]]]]]].
  - exact (_internal_create_soul_intact _ _ _ _ _ Hplain Hg H).
  - exact (_internal_create_location_intact _ _ _ _ Hg H).
  - exact (_internal_link_exit_intact _ _ _ _ Hplain Hg H).
  - exact (_internal_create_artifact_intact _ _ _ _ _ Hg H).
  - exact (_internal_give_artifact_to_soul_intact _ _ _ _ Hplain Hg H).
  - exact (_internal_move_soul_intact _ _ _ _ Hplain Hg H).
Qed.

Lemma village_intact : intact Village.equipped.
Proof.
  unfold Village.equipped, Village.settled, Village.founded.
  apply (after_command_intact Village.aria _internal_give_artifact_to_soul);
    [simpl; tauto|reflexivity|].
  apply (after_command_intact Village.stone (_internal_create_artifact Village.stone));
    [simpl; tauto|reflexivity|].
  apply (after_command_intact Village.aria (_internal_create_soul Village.aria));
    [simpl; tauto|reflexivity|].
  apply (after_command_intact Village.aria _internal_create_location);
    [simpl; tauto|reflexivity|].
  apply (after_command_intact Village.aria _internal_create_location);
    [simpl; tauto|reflexivity|].
  exact gameState_intact.
Qed.

(** X30.  What [sendAvailableActions] offers can be performed: in an
    intact game state, for a soul whose inventory holds strings, the
    [artifactId] of every action on offer passes the checks of
    [performAction]: the soul holds it, the artifact exists and is linked to
    the tool of the action. *)
Theorem offered_action_passes_the_checks (g : GameState) (soulId : string)
    (soul : Soul) (actions : list Action) (action : Action) :
  intact g ->
  soul_at g (JStr soulId) = Own soul ->
  Forall (fun artifactId => exists id, artifactId = JStr id) (soul_inventory soul) ->
  sendAvailableActions g (Some soulId)
  = Some (Value [ToSocket (availableActions actions)]) ->
  In action actions ->
  includes (soul_inventory soul) (JStr (action_artifactId action)) = true /\
  exists artifact,
    artifact_at g (JStr (action_artifactId action)) = Own artifact /\
    truthy (JsData (artifact_linkedToolName artifact)) = true /\
    action_toolName action = artifact_linkedToolName artifact.
Proof.
  intros Hintact Hsoul Hstrings Hsend Hin.
  unfold sendAvailableActions in Hsend. rewrite Hsoul in Hsend.
  destruct (String.eqb soulId ""); [discriminate Hsend|].
  destruct (forallb renders (soul_inventory soul)); [|discriminate Hsend].
  injection Hsend as <-.
  apply list_elem_of_In, list_elem_of_omap in Hin as (artifactId & Hheld & Haction).
  rewrite Forall_forall in Hstrings. destruct (Hstrings _ Hheld) as [id ->].
  apply list_elem_of_In in Hheld.
  unfold available_action in Haction.
  destruct (artifact_at g (JStr id)) as [artifact| |] eqn:Hfound; try discriminate.
  destruct (truthy (JsData (artifact_linkedToolName artifact))) eqn:Hlinked;
    [|discriminate].
  injection Haction as <-. cbn [action_artifactId action_toolName].
  pose proof (artifacts_keyed g Hintact) as Hkeyed.
  pose proof (table_get_Forall _ _ _ _ Hkeyed (artifact_at_Own _ _ _ Hfound)) as Hkey.
  cbn in Hkey. rewrite Hkey. split.
  - unfold includes. apply existsb_exists. exists (JStr id). split; [exact Hheld|].
    cbn. apply String.eqb_refl.
  - exists artifact. auto.
Qed.

Lemma offered_action_passes_the_checks_witness :
  includes [JStr Village.stone] (JStr Village.stone) = true /\
  exists artifact,
    artifact_at Village.equipped (JStr Village.stone) = Own artifact /\
    truthy (JsData (artifact_linkedToolName artifact)) = true /\
    JStr "greet_soul" = artifact_linkedToolName artifact.
Proof.
  apply (offered_action_passes_the_checks Village.equipped Village.aria
           (mkSoul Village.aria (JStr "Aria") (JStr "town_square") [JStr Village.stone]
              (JStr "generic"))
           [mkAction Village.stone (JStr "greet_soul") (JStr "Greeting Stone")
              (JStr "A stone that greets")]
           (mkAction Village.stone (JStr "greet_soul") (JStr "Greeting Stone")
              (JStr "A stone that greets"))).
  - exact village_intact.
  - vm_compute. reflexivity.
  - repeat constructor. eexists. reflexivity.
  - vm_compute. reflexivity.
  - left. reflexivity.
Defined.
